(** * Pakfolio: the FIFO lot ledger of the capital-gains engine

    A shallow embedding of [class FIFOQueue] (the "FIFO Tax Calculator - Core
    Engine") and the properties its specification states about it.

    Modelling conventions.
    - A JavaScript [Number] is an exact rational ([Q]).  The engine only adds,
      subtracts, multiplies, divides by 100, compares and takes minima, so the
      model follows the source operation by operation; the rounding of
      IEEE-754 doubles, [NaN] and the infinities are outside the model
      (figures are those of exact decimal arithmetic).
    - A [Date] is its time value: milliseconds since the epoch, read in a
      local civil time with a fixed offset (no daylight-saving jumps, as in
      Asia/Karachi).  [Invalid Date] is outside the model.
    - [this.holdings] is a finite map from symbols to arrays of lots;
      [this.transactions] and [this.realizedGains] are arrays (lists).
    - A method is a computation in a state-and-exception monad: it receives
      the ledger and returns either a value or a thrown [Error] together
      with the ledger as it stands at that moment, so that what a failing
      call leaves behind is visible.
    - [new Date()] (the wall clock used for [timestamp] and [exportDate]) is
      an explicit argument [now]; [console.log] output is not modelled. *)

From Stdlib Require Import ZArith QArith Qminmax Lia Lqa Ascii String Sorted.
From stdpp Require Import base option list gmap strings fin_maps.

Local Open Scope Z_scope.

(** ** Dates *)

Module JSDate.

Abbreviation Date := Z (only parsing).

Definition msPerDay : Z := 1000 * 60 * 60 * 24.

(** Days since 1970-01-01 of the civil day the instant falls in. *)
Definition dayNumber (d : Date) : Z := d / msPerDay.

(** [Date.prototype.getDay]: 0 is Sunday, 6 is Saturday; 1970-01-01 was a
    Thursday. *)
Definition getDay (d : Date) : Z := (dayNumber d + 4) mod 7.

(** [date.setDate(date.getDate() + n)]: the same time of day, [n] civil
    days later; overflow of the day of the month carries into the month. *)
Definition addDays (d : Date) (n : Z) : Date := d + n * msPerDay.

(** Proleptic Gregorian calendar: year and month (1..12) of a day number. *)
Definition civilFromDays (z0 : Z) : Z * Z :=
  let z := z0 + 719468 in
  let era := z / 146097 in
  let doe := z - era * 146097 in
  let yoe := (doe - doe / 1460 + doe / 36524 - doe / 146096) / 365 in
  let y := yoe + era * 400 in
  let doy := doe - (365 * yoe + yoe / 4 - yoe / 100) in
  let mp := (5 * doy + 2) / 153 in
  let m := if mp <? 10 then mp + 3 else mp - 9 in
  (if m <=? 2 then y + 1 else y, m).

Definition getFullYear (d : Date) : Z := fst (civilFromDays (dayNumber d)).

(** [Date.prototype.getMonth] counts from 0. *)
Definition getMonth (d : Date) : Z := snd (civilFromDays (dayNumber d)) - 1.

(** [Date.UTC]-like constructor from a civil date, for writing examples:
    midnight of year [y], month [m] (1..12), day [d]. *)
Definition daysFromCivil (y m d : Z) : Z :=
  let y := if m <=? 2 then y - 1 else y in
  let era := y / 400 in
  let yoe := y - era * 400 in
  let mp := if m <=? 2 then m + 9 else m - 3 in
  let doy := (153 * mp + 2) / 5 + d - 1 in
  let doe := yoe * 365 + yoe / 4 - yoe / 100 + doy in
  era * 146097 + doe - 719468.

Definition mkDate (y m d : Z) : Date := daysFromCivil y m d * msPerDay.

End JSDate.

Import JSDate.

(** ** Settlement date (T+2) *)

(** The [while (daysAdded < 2)] loop of [calculateSettlementDate]; [fuel]
    bounds the number of iterations. *)
Fixpoint settlementLoop (fuel : nat) (date : Date) (daysAdded : Z) : option Date :=
  if daysAdded <? 2 then
    match fuel with
    | O => None
    | S fuel' =>
        let date := addDays date 1 in
        let dayOfWeek := getDay date in
        if negb (dayOfWeek =? 0) && negb (dayOfWeek =? 6)
        then settlementLoop fuel' date (daysAdded + 1)
        else settlementLoop fuel' date daysAdded
    end
  else Some date.

(** Four iterations always suffice (see [settlementLoop_offset]). *)
Definition calculateSettlementDate (tradeDate : Date) : Date :=
  default tradeDate (settlementLoop 4 tradeDate 0).

Definition isBusinessDay (d : Date) : bool :=
  negb (getDay d =? 0) && negb (getDay d =? 6).

(** Number of business days among the [n] civil days that follow [d]. *)
Definition businessDaysAfter (d : Date) (n : nat) : nat :=
  length (List.filter (fun k => isBusinessDay (addDays d (Z.of_nat k))) (seq 1 n)).


(** ** Numbers and strings *)

Module JSNumber.

(** [Number(x) || 0]: zero is falsy. *)
Definition orZero (x : Q) : Q := if Qeq_bool x 0 then 0%Q else x.

(** [x || y] on numbers. *)
Definition orElse (x y : Q) : Q := if Qeq_bool x 0 then y else x.

(** [a < b], [a <= b], [a === b] and [Math.min(a, b)]. *)
Definition ltb (a b : Q) : bool := negb (Qle_bool b a).
Definition leb (a b : Q) : bool := Qle_bool a b.
Definition eqb (a b : Q) : bool := Qeq_bool a b.
Definition min (a b : Q) : Q := Qmin a b.

End JSNumber.

Definition upperChar (c : ascii) : ascii :=
  let n := nat_of_ascii c in
  if ((97 <=? n) && (n <=? 122))%nat then ascii_of_nat (n - 32) else c.

(** [String.prototype.toUpperCase], on ASCII. *)
Fixpoint toUpperCase (s : string) : string :=
  match s with
  | EmptyString => EmptyString
  | String c s' => String (upperChar c) (toUpperCase s')
  end.

(** ** Records of the ledger *)

(** The audit record built by [addTransaction]. *)
Record Transaction := mkTransaction {
  tx_id : Z;
  tx_type : string;
  tx_symbol : string;
  tx_quantity : Q;
  tx_price : Q;
  tx_adjustedPrice : Q;
  tx_feePercent : Q;
  tx_tradeDate : Date;
  tx_settlementDate : Date;
  tx_totalValue : Q;
  tx_adjustedTotalValue : Q;
  tx_timestamp : Date
}.

(** A purchase lot, with every alias [_processBuy] stores. *)
Record Lot := mkLot {
  lot_quantity : Q;
  lot_price : Q;
  lot_cost : Q;
  lot_costPerShare : Q;
  lot_purchasePrice : Q;
  lot_grossPrice : Q;
  lot_feePercent : Q;
  lot_purchaseDate : Date;
  lot_remainingQuantity : Q;
  lot_value : Q;
  lot_tax : Q;
  lot_originalTransaction : Transaction
}.

(** The result of [getHoldingPeriod] (the display string [formatted] is
    left out). *)
Record HoldingPeriod := mkHoldingPeriod {
  hp_days : Z;
  hp_months : Z;
  hp_years : Z;
  hp_isLongTerm : bool
}.

(** An entry of [lotsUsed]: a lot consumption record. *)
Record LotUsed := mkLotUsed {
  use_purchaseDate : Date;
  use_quantity : Q;
  use_costPerShare : Q;
  use_costBasis : Q;
  use_holdingPeriod : HoldingPeriod
}.

(** A realized sale, [saleResult]; [sale_isSimulation] is the flag only
    [calculateSale] sets. *)
Record SaleResult := mkSaleResult {
  sale_symbol : string;
  sale_quantitySold : Q;
  sale_sellPrice : Q;
  sale_grossSellPrice : Q;
  sale_feePercent : Q;
  sale_saleProceeds : Q;
  sale_totalCostBasis : Q;
  sale_capitalGain : Q;
  sale_lotsUsed : list LotUsed;
  sale_saleDate : Date;
  sale_isSimulation : bool
}.

(** The fields of a [FIFOQueue] instance. *)
Record Ledger := mkLedger {
  holdings : gmap string (list Lot);
  transactions : list Transaction;
  realizedGains : list SaleResult
}.

(** [new FIFOQueue()]. *)
Definition constructor : Ledger :=
  {| holdings := ∅; transactions := []; realizedGains := [] |}.

(** The four [Error]s the class throws, by message. *)
Inductive Error :=
  | CannotSellNoHoldings (symbol : string)
      (* Cannot sell ${symbol}: No holdings found *)
  | CannotSellOnlyAvailable (quantity : Q) (symbol : string) (totalAvailable : Q)
      (* Cannot sell ${quantity} shares of ${symbol}: Only ${totalAvailable} available *)
  | NoHoldingsFound (symbol : string)
      (* No holdings found for ${symbol} *)
  | InsufficientShares (quantity totalAvailable : Q).
      (* Insufficient shares: ${quantity} requested, ${totalAvailable} available *)

(** The failure classes of the specification's taxonomy. *)
Inductive ErrorKind := InvalidInput | InsufficientHoldings.

(** Every error the ledger throws reports missing or insufficient holdings. *)
Definition errorKind (e : Error) : ErrorKind :=
  match e with
  | CannotSellNoHoldings _ | CannotSellOnlyAvailable _ _ _
  | NoHoldingsFound _ | InsufficientShares _ _ => InsufficientHoldings
  end.

(** ** The method monad: ledger state and exceptions *)

Inductive Outcome (A : Type) :=
  | Returned (a : A)
  | Thrown (e : Error).
Arguments Returned {A} a.
Arguments Thrown {A} e.

Definition M (A : Type) : Type := Ledger -> Outcome A * Ledger.

Definition ret {A} (a : A) : M A := fun st => (Returned a, st).

Definition bind {A B} (m : M A) (k : A -> M B) : M B :=
  fun st =>
    match m st with
    | (Returned a, st') => k a st'
    | (Thrown e, st') => (Thrown e, st')
    end.

Definition throw {A} (e : Error) : M A := fun st => (Thrown e, st).
Definition gets {A} (f : Ledger -> A) : M A := fun st => (Returned (f st), st).
Definition modify (f : Ledger -> Ledger) : M unit := fun st => (Returned tt, f st).

Declare Scope method_scope.
Delimit Scope method_scope with method.
Notation "x <- m ;; k" := (bind m (fun x => k))
  (at level 100, m at next level, right associativity) : method_scope.
Notation "m ;; k" := (bind m (fun _ => k))
  (at level 100, right associativity) : method_scope.
Local Open Scope method_scope.

(** [this.holdings[symbol] = lots], [this.transactions.push(t)] and
    [this.realizedGains.push(g)]. *)
Definition setLots (symbol : string) (lots : list Lot) (st : Ledger) : Ledger :=
  {| holdings := <[symbol := lots]> (holdings st);
     transactions := transactions st;
     realizedGains := realizedGains st |}.

Definition pushTransaction (t : Transaction) (st : Ledger) : Ledger :=
  {| holdings := holdings st;
     transactions := transactions st ++ [t];
     realizedGains := realizedGains st |}.

Definition pushRealizedGain (g : SaleResult) (st : Ledger) : Ledger :=
  {| holdings := holdings st;
     transactions := transactions st;
     realizedGains := realizedGains st ++ [g] |}.

(** ** Fee adjustment *)

Local Open Scope Q_scope.

(** [feePercent] is [None] when the argument is [undefined], [null] or the
    empty string. *)
Definition _normalizeFeePercent (feePercent : option Q) : Q :=
  match feePercent with
  | None => 0.5
  | Some n => if JSNumber.ltb n 0 then 0.5 else n
  end.

Definition _getAdjustedPrice (type : string) (price : Q) (feePercent : option Q) : Q :=
  let pct := _normalizeFeePercent feePercent / 100 in
  let p := JSNumber.orZero price in
  if String.eqb type "BUY" then p * (1 + pct)
  else if String.eqb type "SELL" then p * (1 - pct)
  else p.

(** ** Holding period *)

Definition getHoldingPeriod (purchaseDate sellDate : Date) : HoldingPeriod :=
  let purchase := purchaseDate in
  let sell := sellDate in
  let diffMs := (sell - purchase)%Z in
  let diffDays := (diffMs / (1000 * 60 * 60 * 24))%Z in
  let years := (getFullYear sell - getFullYear purchase)%Z in
  let months := (getMonth sell - getMonth purchase)%Z in
  let '(years, months) :=
    if (months <? 0)%Z then ((years - 1)%Z, (months + 12)%Z) else (years, months) in
  {| hp_days := diffDays;
     hp_months := (months + years * 12)%Z;
     hp_years := years;
     hp_isLongTerm := (365 <=? diffDays)%Z |}.

(** ** BUY *)

Definition _processBuy (transaction : Transaction) : M unit :=
  let symbol := tx_symbol transaction in
  let quantity := JSNumber.orZero (tx_quantity transaction) in
  let price := JSNumber.orZero (tx_adjustedPrice transaction) in
  let settlementDate := tx_settlementDate transaction in
  if String.eqb symbol "" || JSNumber.leb quantity 0 || JSNumber.leb price 0
  then ret tt                                   (* console.error; return *)
  else
    found <- gets (fun st => holdings st !! symbol) ;;
    (match found with
     | None => modify (setLots symbol [])
     | Some _ => ret tt
     end) ;;
    let lot :=
      {| lot_quantity := quantity;
         lot_price := price;
         lot_cost := price;
         lot_costPerShare := price;
         lot_purchasePrice := price;
         lot_grossPrice := JSNumber.orElse (tx_price transaction) price;
         lot_feePercent := JSNumber.orZero (tx_feePercent transaction);
         lot_purchaseDate := settlementDate;
         lot_remainingQuantity := quantity;
         lot_value := quantity * price;
         lot_tax := 0;
         lot_originalTransaction := transaction |} in
    modify (fun st => setLots symbol (default [] (holdings st !! symbol) ++ [lot]) st).

(** ** SELL *)

(** [this.holdings[symbol].reduce((sum, lot) => sum + lot.remainingQuantity, 0)] *)
Definition totalAvailable (lots : list Lot) : Q :=
  fold_left (fun sum lot => sum + lot_remainingQuantity lot) lots 0.

(** [lot.remainingQuantity -= sharesToTake] *)
Definition takeFromLot (lot : Lot) (sharesToTake : Q) : Lot :=
  {| lot_quantity := lot_quantity lot;
     lot_price := lot_price lot;
     lot_cost := lot_cost lot;
     lot_costPerShare := lot_costPerShare lot;
     lot_purchasePrice := lot_purchasePrice lot;
     lot_grossPrice := lot_grossPrice lot;
     lot_feePercent := lot_feePercent lot;
     lot_purchaseDate := lot_purchaseDate lot;
     lot_remainingQuantity := lot_remainingQuantity lot - sharesToTake;
     lot_value := lot_value lot;
     lot_tax := lot_tax lot;
     lot_originalTransaction := lot_originalTransaction lot |}.

(** The variables of the consumption loop. *)
Record SellLoop := mkSellLoop {
  loop_remainingToSell : Q;
  loop_lotsUsed : list LotUsed;
  loop_totalCostBasis : Q
}.

(** One lot's entry of [lotsUsed]. *)
Definition lotUsage (settlementDate : Date) (lot : Lot) (sharesToTake : Q) : LotUsed :=
  {| use_purchaseDate := lot_purchaseDate lot;
     use_quantity := sharesToTake;
     use_costPerShare := lot_price lot;
     use_costBasis := sharesToTake * lot_price lot;
     use_holdingPeriod := getHoldingPeriod (lot_purchaseDate lot) settlementDate |}.

(** The [for] loop of [_processSell], from index [i] on ([lots] is the
    part of the array at and after [i]): it returns the lots as the loop
    leaves them, mutated in place, and the loop variables. *)
Fixpoint consumeLots (settlementDate : Date) (lots : list Lot) (v : SellLoop)
  : list Lot * SellLoop :=
  match lots with
  | [] => ([], v)
  | lot :: rest =>
      if JSNumber.ltb 0 (loop_remainingToSell v) then
        let sharesToTake :=
          JSNumber.min (lot_remainingQuantity lot) (loop_remainingToSell v) in
        if JSNumber.ltb 0 sharesToTake then
          let costBasis := sharesToTake * lot_price lot in
          let v' :=
            {| loop_remainingToSell := loop_remainingToSell v - sharesToTake;
               loop_lotsUsed := loop_lotsUsed v ++ [lotUsage settlementDate lot sharesToTake];
               loop_totalCostBasis := loop_totalCostBasis v + costBasis |} in
          let '(rest', v'') := consumeLots settlementDate rest v' in
          (takeFromLot lot sharesToTake :: rest', v'')
        else
          let '(rest', v'') := consumeLots settlementDate rest v in
          (lot :: rest', v'')
      else (lots, v)
  end.

Definition _processSell (transaction : Transaction) : M SaleResult :=
  let symbol := tx_symbol transaction in
  let quantity := tx_quantity transaction in
  let settlementDate := tx_settlementDate transaction in
  let grossPrice := JSNumber.orZero (tx_price transaction) in
  let price := JSNumber.orZero (tx_adjustedPrice transaction) in
  found <- gets (fun st => holdings st !! symbol) ;;
  match found with
  | None | Some [] => throw (CannotSellNoHoldings symbol)
  | Some lots =>
      let totalAvailable := totalAvailable lots in
      if JSNumber.ltb totalAvailable quantity
      then throw (CannotSellOnlyAvailable quantity symbol totalAvailable)
      else
        let '(lots', v) :=
          consumeLots settlementDate lots
            {| loop_remainingToSell := quantity;
               loop_lotsUsed := [];
               loop_totalCostBasis := 0 |} in
        (* the lots were mutated in place *)
        modify (setLots symbol lots') ;;
        modify (setLots symbol
                  (List.filter (fun lot => JSNumber.ltb 0 (lot_remainingQuantity lot)) lots')) ;;
        let saleProceeds := quantity * price in
        let capitalGain := saleProceeds - loop_totalCostBasis v in
        let saleResult :=
          {| sale_symbol := symbol;
             sale_quantitySold := quantity;
             sale_sellPrice := price;
             sale_grossSellPrice := grossPrice;
             sale_feePercent := JSNumber.orZero (tx_feePercent transaction);
             sale_saleProceeds := saleProceeds;
             sale_totalCostBasis := loop_totalCostBasis v;
             sale_capitalGain := capitalGain;
             sale_lotsUsed := loop_lotsUsed v;
             sale_saleDate := settlementDate;
             sale_isSimulation := false |} in
        modify (pushRealizedGain saleResult) ;;
        ret saleResult
  end.

(** ** addTransaction *)

(** [addTransaction] returns the transaction record for a BUY and the sale
    result for a SELL. *)
Inductive TxResult :=
  | TransactionRecord (t : Transaction)
  | SaleRecord (s : SaleResult).

Definition addTransaction (now : Date) (type symbol : string) (quantity price : Q)
    (date : Date) (feePercent : option Q) : M TxResult :=
  let tradeDate := date in
  let settlementDate := calculateSettlementDate tradeDate in
  let txType := toUpperCase type in
  let appliedFeePercent := _normalizeFeePercent feePercent in
  let adjustedPrice := _getAdjustedPrice txType price (Some appliedFeePercent) in
  n <- gets (fun st => length (transactions st)) ;;
  let transaction :=
    {| tx_id := (Z.of_nat n + 1)%Z;
       tx_type := txType;
       tx_symbol := toUpperCase symbol;
       tx_quantity := quantity;
       tx_price := price;
       tx_adjustedPrice := adjustedPrice;
       tx_feePercent := appliedFeePercent;
       tx_tradeDate := tradeDate;
       tx_settlementDate := settlementDate;
       tx_totalValue := quantity * price;
       tx_adjustedTotalValue := quantity * adjustedPrice;
       tx_timestamp := now |} in
  if String.eqb txType "BUY" then
    _processBuy transaction ;;
    modify (pushTransaction transaction) ;;
    ret (TransactionRecord transaction)
  else if String.eqb txType "SELL" then
    (* return this._processSell(transaction) *)
    saleResult <- _processSell transaction ;;
    ret (SaleRecord saleResult)
  else
    modify (pushTransaction transaction) ;;
    ret (TransactionRecord transaction).

(** ** calculateSale: the what-if simulation *)

(** The [for] loop of [calculateSale]: the same walk, reading the lots only. *)
Fixpoint simulateLots (settlementDate : Date) (lots : list Lot) (v : SellLoop) : SellLoop :=
  match lots with
  | [] => v
  | lot :: rest =>
      if JSNumber.ltb 0 (loop_remainingToSell v) then
        let sharesToTake :=
          JSNumber.min (lot_remainingQuantity lot) (loop_remainingToSell v) in
        if JSNumber.ltb 0 sharesToTake then
          let costBasis := sharesToTake * lot_price lot in
          simulateLots settlementDate rest
            {| loop_remainingToSell := loop_remainingToSell v - sharesToTake;
               loop_lotsUsed := loop_lotsUsed v ++ [lotUsage settlementDate lot sharesToTake];
               loop_totalCostBasis := loop_totalCostBasis v + costBasis |}
        else simulateLots settlementDate rest v
      else v
  end.

Definition calculateSale (symbol : string) (quantity sellPrice : Q) (sellDate : Date)
    (feePercent : option Q) : M SaleResult :=
  let symbol := toUpperCase symbol in
  let settlementDate := calculateSettlementDate sellDate in
  let appliedFeePercent := _normalizeFeePercent feePercent in
  let adjustedSellPrice := _getAdjustedPrice "SELL" sellPrice (Some appliedFeePercent) in
  found <- gets (fun st => holdings st !! symbol) ;;
  match found with
  | None | Some [] => throw (NoHoldingsFound symbol)
  | Some lots =>
      let totalAvailable := totalAvailable lots in
      if JSNumber.ltb totalAvailable quantity
      then throw (InsufficientShares quantity totalAvailable)
      else
        let v :=
          simulateLots settlementDate lots
            {| loop_remainingToSell := quantity;
               loop_lotsUsed := [];
               loop_totalCostBasis := 0 |} in
        let saleProceeds := quantity * adjustedSellPrice in
        let capitalGain := saleProceeds - loop_totalCostBasis v in
        ret {| sale_symbol := symbol;
               sale_quantitySold := quantity;
               sale_sellPrice := adjustedSellPrice;
               sale_grossSellPrice := sellPrice;
               sale_feePercent := appliedFeePercent;
               sale_saleProceeds := saleProceeds;
               sale_totalCostBasis := loop_totalCostBasis v;
               sale_capitalGain := capitalGain;
               sale_lotsUsed := loop_lotsUsed v;
               sale_saleDate := settlementDate;
               sale_isSimulation := true |}
  end.

(** ** Queries *)

(** A lot as [getHoldings] reports it. *)
Record HoldingLot := mkHoldingLot {
  hl_quantity : Q;
  hl_remainingQuantity : Q;
  hl_price : Q;
  hl_cost : Q;
  hl_costPerShare : Q;
  hl_purchasePrice : Q;
  hl_purchaseDate : Date;
  hl_value : Q;
  hl_tax : Q
}.

Record HoldingSummary := mkHoldingSummary {
  hs_totalQuantity : Q;
  hs_averageCost : Q;
  hs_totalCostBasis : Q;
  hs_lots : list HoldingLot
}.

(** The body of the [for (const symbol in this.holdings)] loop: the summary
    of one symbol, or nothing when the symbol holds no shares. *)
Definition summarizeLots (lots : list Lot) : option HoldingSummary :=
  let validLots :=
    List.filter (fun lot => negb (JSNumber.leb (lot_remainingQuantity lot) 0)) lots in
  let totalQuantity :=
    fold_left (fun sum lot => sum + JSNumber.orZero (lot_remainingQuantity lot)) validLots 0 in
  if JSNumber.ltb 0 totalQuantity then
    let totalValue :=
      fold_left
        (fun sum lot =>
           sum + JSNumber.orZero (lot_remainingQuantity lot) * JSNumber.orZero (lot_price lot))
        validLots 0 in
    let avgCost := if JSNumber.ltb 0 totalQuantity then totalValue / totalQuantity else 0 in
    Some {| hs_totalQuantity := totalQuantity;
            hs_averageCost := avgCost;
            hs_totalCostBasis := totalValue;
            hs_lots :=
              List.map
                (fun lot =>
                   let qty := JSNumber.orZero (lot_remainingQuantity lot) in
                   let prc := JSNumber.orZero (lot_price lot) in
                   {| hl_quantity := qty;
                      hl_remainingQuantity := qty;
                      hl_price := prc;
                      hl_cost := prc;
                      hl_costPerShare := prc;
                      hl_purchasePrice := prc;
                      hl_purchaseDate := lot_purchaseDate lot;
                      hl_value := qty * prc;
                      hl_tax := 0 |})
                validLots |}
  else None.

Definition getHoldings (st : Ledger) : gmap string HoldingSummary :=
  omap summarizeLots (holdings st).

Definition getRealizedGains (st : Ledger) : list SaleResult := realizedGains st.

Definition getTransactions (st : Ledger) : list Transaction := transactions st.

Definition reset : M unit := modify (fun _ => constructor).

(** ** Snapshots: exportData and importData *)

(** What [importData] reads.  A snapshot has the shape of the ledger, except
    that the fields [importData] tests for [undefined], [null] or the empty
    string may be absent ([None]), as in snapshots of older formats. *)
Record SnapLot := mkSnapLot {
  sl_quantity : Q;
  sl_price : Q;
  sl_cost : Q;
  sl_costPerShare : Q;
  sl_purchasePrice : Q;
  sl_grossPrice : option Q;
  sl_feePercent : option Q;
  sl_purchaseDate : Date;
  sl_remainingQuantity : Q;
  sl_value : Q;
  sl_tax : Q;
  sl_originalTransaction : Transaction
}.

Record SnapTransaction := mkSnapTransaction {
  st_id : Z;
  st_type : string;
  st_symbol : string;
  st_quantity : Q;
  st_price : Q;
  st_adjustedPrice : option Q;
  st_feePercent : option Q;
  st_tradeDate : Date;
  st_settlementDate : Date;
  st_totalValue : Q;
  st_adjustedTotalValue : option Q;
  st_timestamp : Date
}.

Record SnapSale := mkSnapSale {
  sg_symbol : string;
  sg_quantitySold : Q;
  sg_sellPrice : Q;
  sg_grossSellPrice : option Q;
  sg_feePercent : option Q;
  sg_saleProceeds : Q;
  sg_totalCostBasis : Q;
  sg_capitalGain : Q;
  sg_lotsUsed : option (list LotUsed);
  sg_saleDate : Date;
  sg_isSimulation : bool
}.

Record Snapshot := mkSnapshot {
  snap_holdings : option (gmap string (list SnapLot));
  snap_transactions : option (list SnapTransaction);
  snap_realizedGains : option (list SnapSale);
  snap_exportDate : Date
}.

Definition exportLot (lot : Lot) : SnapLot :=
  {| sl_quantity := lot_quantity lot;
     sl_price := lot_price lot;
     sl_cost := lot_cost lot;
     sl_costPerShare := lot_costPerShare lot;
     sl_purchasePrice := lot_purchasePrice lot;
     sl_grossPrice := Some (lot_grossPrice lot);
     sl_feePercent := Some (lot_feePercent lot);
     sl_purchaseDate := lot_purchaseDate lot;
     sl_remainingQuantity := lot_remainingQuantity lot;
     sl_value := lot_value lot;
     sl_tax := lot_tax lot;
     sl_originalTransaction := lot_originalTransaction lot |}.

Definition exportTransaction (t : Transaction) : SnapTransaction :=
  {| st_id := tx_id t;
     st_type := tx_type t;
     st_symbol := tx_symbol t;
     st_quantity := tx_quantity t;
     st_price := tx_price t;
     st_adjustedPrice := Some (tx_adjustedPrice t);
     st_feePercent := Some (tx_feePercent t);
     st_tradeDate := tx_tradeDate t;
     st_settlementDate := tx_settlementDate t;
     st_totalValue := tx_totalValue t;
     st_adjustedTotalValue := Some (tx_adjustedTotalValue t);
     st_timestamp := tx_timestamp t |}.

Definition exportSale (g : SaleResult) : SnapSale :=
  {| sg_symbol := sale_symbol g;
     sg_quantitySold := sale_quantitySold g;
     sg_sellPrice := sale_sellPrice g;
     sg_grossSellPrice := Some (sale_grossSellPrice g);
     sg_feePercent := Some (sale_feePercent g);
     sg_saleProceeds := sale_saleProceeds g;
     sg_totalCostBasis := sale_totalCostBasis g;
     sg_capitalGain := sale_capitalGain g;
     sg_lotsUsed := Some (sale_lotsUsed g);
     sg_saleDate := sale_saleDate g;
     sg_isSimulation := sale_isSimulation g |}.

(** [exportData] hands out the three fields as they are, all present. *)
Definition exportData (now : Date) (st : Ledger) : Snapshot :=
  {| snap_holdings := Some (List.map exportLot <$> holdings st);
     snap_transactions := Some (List.map exportTransaction (transactions st));
     snap_realizedGains := Some (List.map exportSale (realizedGains st));
     snap_exportDate := now |}.

(** The callback of [data.holdings[symbol].map] in [importData]. *)
Definition importLot (lot : SnapLot) : Lot :=
  let grossPrice :=
    match sl_grossPrice lot with
    | Some g => g
    | None => JSNumber.orZero (sl_price lot)
    end in
  let feePercent :=
    match sl_feePercent lot with
    | Some f => f
    | None => 0.5
    end in
  let pct := JSNumber.orZero feePercent / 100 in
  let adjust := JSNumber.leb 0 pct && JSNumber.eqb (sl_price lot) grossPrice in
  let adjusted := JSNumber.orZero grossPrice * (1 + pct) in
  {| lot_quantity := sl_quantity lot;
     lot_price := if adjust then adjusted else sl_price lot;
     lot_cost := if adjust then adjusted else sl_cost lot;
     lot_costPerShare := if adjust then adjusted else sl_costPerShare lot;
     lot_purchasePrice := if adjust then adjusted else sl_purchasePrice lot;
     lot_grossPrice := grossPrice;
     lot_feePercent := feePercent;
     lot_purchaseDate := sl_purchaseDate lot;
     lot_remainingQuantity := sl_remainingQuantity lot;
     lot_value := sl_value lot;
     lot_tax := sl_tax lot;
     lot_originalTransaction := sl_originalTransaction lot |}.

(** The callback of [data.transactions.map]. *)
Definition importTransaction (t : SnapTransaction) : Transaction :=
  let type := toUpperCase (st_type t) in
  let feePercent :=
    match st_feePercent t with
    | None => 0.5
    | Some f => f
    end in
  let feePercent := if JSNumber.ltb feePercent 0 then 0.5 else feePercent in
  let adjustedPrice :=
    match st_adjustedPrice t with
    | Some a => a
    | None =>
        let pct := feePercent / 100 in
        let price := JSNumber.orZero (st_price t) in
        if String.eqb type "BUY" then price * (1 + pct)
        else if String.eqb type "SELL" then price * (1 - pct)
        else price
    end in
  let adjustedTotalValue :=
    match st_adjustedTotalValue t with
    | Some v => v
    | None => JSNumber.orZero (st_quantity t) * JSNumber.orZero adjustedPrice
    end in
  {| tx_id := st_id t;
     tx_type := st_type t;
     tx_symbol := st_symbol t;
     tx_quantity := st_quantity t;
     tx_price := st_price t;
     tx_adjustedPrice := adjustedPrice;
     tx_feePercent := feePercent;
     tx_tradeDate := st_tradeDate t;
     tx_settlementDate := st_settlementDate t;
     tx_totalValue := st_totalValue t;
     tx_adjustedTotalValue := adjustedTotalValue;
     tx_timestamp := st_timestamp t |}.

(** The callback of [lotsUsed.map] inside the realized-gains branch: the
    cost per share is multiplied by [1 + pct] whatever it already holds. *)
Definition importLotUsed (pct : Q) (lot : LotUsed) : LotUsed :=
  let qty := JSNumber.orZero (use_quantity lot) in
  let grossCost := JSNumber.orZero (use_costPerShare lot) in
  let adjCost := grossCost * (1 + pct) in
  {| use_purchaseDate := use_purchaseDate lot;
     use_quantity := use_quantity lot;
     use_costPerShare := adjCost;
     use_costBasis := qty * adjCost;
     use_holdingPeriod := use_holdingPeriod lot |}.

(** The callback of [data.realizedGains.map]. *)
Definition importSale (g : SnapSale) : SaleResult :=
  let feePercent :=
    match sg_feePercent g with
    | None => 0.5
    | Some f => f
    end in
  let feePercent := if JSNumber.ltb feePercent 0 then 0.5 else feePercent in
  let grossSellPrice :=
    match sg_grossSellPrice g with
    | Some p => p
    | None => sg_sellPrice g
    end in
  let pct := feePercent / 100 in
  let grossSell := JSNumber.orZero grossSellPrice in
  let sellPrice :=
    if JSNumber.eqb (sg_sellPrice g) grossSell then grossSell * (1 - pct) else sg_sellPrice g in
  let lotsUsed := List.map (importLotUsed pct) (default [] (sg_lotsUsed g)) in
  let quantitySold := JSNumber.orZero (sg_quantitySold g) in
  let totalCostBasis :=
    fold_left (fun sum lot => sum + JSNumber.orZero (use_costBasis lot)) lotsUsed 0 in
  let saleProceeds := quantitySold * JSNumber.orZero sellPrice in
  {| sale_symbol := sg_symbol g;
     sale_quantitySold := sg_quantitySold g;
     sale_sellPrice := sellPrice;
     sale_grossSellPrice := grossSellPrice;
     sale_feePercent := feePercent;
     sale_saleProceeds := saleProceeds;
     sale_totalCostBasis := totalCostBasis;
     sale_capitalGain := saleProceeds - totalCostBasis;
     sale_lotsUsed := lotsUsed;
     sale_saleDate := sg_saleDate g;
     sale_isSimulation := sg_isSimulation g |}.

Definition importData (data : Snapshot) : M unit :=
  (match snap_holdings data with
   | Some h =>
       modify (fun st =>
                 {| holdings := List.map importLot <$> h;
                    transactions := transactions st;
                    realizedGains := realizedGains st |})
   | None => ret tt
   end) ;;
  (match snap_transactions data with
   | Some ts =>
       modify (fun st =>
                 {| holdings := holdings st;
                    transactions := List.map importTransaction ts;
                    realizedGains := realizedGains st |})
   | None => ret tt
   end) ;;
  (match snap_realizedGains data with
   | Some gs =>
       modify (fun st =>
                 {| holdings := holdings st;
                    transactions := transactions st;
                    realizedGains := List.map importSale gs |})
   | None => ret tt
   end).

(** ** Running methods *)

(** The ledger a call leaves behind, and its outcome. *)
Definition stateAfter {A} (m : M A) (st : Ledger) : Ledger := snd (m st).
Definition outcomeOf {A} (m : M A) (st : Ledger) : Outcome A := fst (m st).

Definition succeeded {A} (o : Outcome A) : bool :=
  match o with
  | Returned _ => true
  | Thrown _ => false
  end.

(** [importData(exportData())] on a ledger. *)
Definition roundTrip (now : Date) (st : Ledger) : Ledger :=
  stateAfter (importData (exportData now st)) st.

(** ** getCostBasisForSale: cost basis for tax planning *)

(** An entry of the [lots] array [getCostBasisForSale] returns. *)
Record CostLot := mkCostLot {
  cl_quantity : Q;
  cl_costPerShare : Q;
  cl_totalCost : Q;
  cl_purchaseDate : Date
}.

Record CostBasis := mkCostBasis {
  cb_totalCost : Q;
  cb_avgCost : Q;
  cb_lots : list CostLot
}.

(** The variables of its loop. *)
Record CostLoop := mkCostLoop {
  cloop_remainingToSell : Q;
  cloop_totalCost : Q;
  cloop_lots : list CostLot
}.

(** The [for] loop of [getCostBasisForSale]. *)
Fixpoint costBasisLoop (lots : list Lot) (v : CostLoop) : CostLoop :=
  match lots with
  | [] => v
  | lot :: rest =>
      if JSNumber.ltb 0 (cloop_remainingToSell v) then
        let sharesToTake :=
          JSNumber.min (lot_remainingQuantity lot) (cloop_remainingToSell v) in
        if JSNumber.ltb 0 sharesToTake then
          let cost := sharesToTake * lot_price lot in
          costBasisLoop rest
            {| cloop_remainingToSell := cloop_remainingToSell v - sharesToTake;
               cloop_totalCost := cloop_totalCost v + cost;
               cloop_lots :=
                 cloop_lots v ++
                 [ {| cl_quantity := sharesToTake;
                      cl_costPerShare := lot_price lot;
                      cl_totalCost := cost;
                      cl_purchaseDate := lot_purchaseDate lot |} ] |}
        else costBasisLoop rest v
      else v
  end.

Definition getCostBasisForSale (symbol : string) (quantity : Q) : M CostBasis :=
  let symbol := toUpperCase symbol in
  found <- gets (fun st => holdings st !! symbol) ;;
  match found with
  | None => ret {| cb_totalCost := 0; cb_avgCost := 0; cb_lots := [] |}
  | Some lots =>
      let v :=
        costBasisLoop lots
          {| cloop_remainingToSell := quantity; cloop_totalCost := 0; cloop_lots := [] |} in
      ret {| cb_totalCost := cloop_totalCost v;
             cb_avgCost :=
               if JSNumber.ltb 0 quantity then cloop_totalCost v / quantity else 0;
             cb_lots := cloop_lots v |}
  end.

(** ** The form handlers that call the ledger (js/app.js)

    The handlers read their inputs from the page, check them, and only then
    call the ledger.  The model takes the inputs as read: [symbol] before
    [toUpperCase]; [quantity] and [price] as [parseFloat] returned them,
    [None] standing for [NaN] (a field left blank, or one that does not
    start with a number); [date] as [None] when the date field is empty.  It
    returns which modal the handler shows, or that it goes on to the ledger
    call.  Every comparison with [NaN] is false, so that [NaN] passes the
    checks; the ledger is then called with [NaN], a value the numbers of the
    ledger model do not have: the model records that the call is made
    ([CalledWithNaN]) and says nothing of its effect.
    [handleAddTransaction] makes its ledger call from a 300 ms timer; the
    model runs it on the ledger the checks saw, that is, with no other call
    in between. *)

Inductive Gate :=
  | MissingInformation
  | NoSharesToSell (symbol : string)
  | NotEnoughShares (symbol : string) (available requested : Q)
  | Proceed.

(** What becomes of the ledger call of a handler. *)
Inductive Call (A : Type) :=
  | NotCalled
  | Called (result : A)
  | CalledWithNaN.

Arguments NotCalled {A}.
Arguments Called {A} result.
Arguments CalledWithNaN {A}.

(** [x <= 0] for a number [x] as [parseFloat] returned it. *)
Definition parsedLeb0 (x : option Q) : bool :=
  match x with
  | Some q => JSNumber.leb q 0
  | None => false
  end.

(** The checks of [runWhatIfAnalysis] before it calls [calculateSale]. *)
Definition whatIfChecks (symbol : string) (quantity price : option Q) (date : option Date)
    (st : Ledger) : Gate :=
  let symbol := toUpperCase symbol in
  if String.eqb symbol "" || parsedLeb0 quantity || parsedLeb0 price
     || negb (match date with Some _ => true | None => false end)
  then MissingInformation
  else
    let holdings := getHoldings st in
    match holdings !! symbol with
    | None => NoSharesToSell symbol
    | Some holding =>
        match quantity with
        | Some q =>
            if JSNumber.ltb (hs_totalQuantity holding) q
            then NotEnoughShares symbol (hs_totalQuantity holding) q
            else Proceed
        | None => Proceed                  (* [totalQuantity < NaN] is false *)
        end
    end.

(** [runWhatIfAnalysis] up to its ledger call: the checks, then
    [calculateSale(symbol, quantity, price, date)] with the fee left out. *)
Definition runWhatIfAnalysis (symbol : string) (quantity price : option Q)
    (date : option Date) (st : Ledger) : Gate * Call (Outcome SaleResult) :=
  match whatIfChecks symbol quantity price date st with
  | Proceed =>
      match date, quantity, price with
      | Some d, Some q, Some p =>
          (Proceed, Called (outcomeOf (calculateSale (toUpperCase symbol) q p d None) st))
      | _, _, _ => (Proceed, CalledWithNaN)
      end
  | gate => (gate, NotCalled)
  end.

(** The checks of [handleAddTransaction] before it calls [addTransaction]:
    the holdings are looked at for the type ['SELL'] only. *)
Definition addTransactionChecks (type symbol : string) (quantity price : option Q)
    (tradeDate : option Date) (st : Ledger) : Gate :=
  let symbol := toUpperCase symbol in
  if String.eqb symbol "" || parsedLeb0 quantity || parsedLeb0 price
     || negb (match tradeDate with Some _ => true | None => false end)
  then MissingInformation
  else if String.eqb type "SELL" then
    let holdings := getHoldings st in
    match holdings !! symbol with
    | None => NoSharesToSell symbol
    | Some holding =>
        match quantity with
        | Some q =>
            if JSNumber.ltb (hs_totalQuantity holding) q
            then NotEnoughShares symbol (hs_totalQuantity holding) q
            else Proceed
        | None => Proceed                  (* [totalQuantity < NaN] is false *)
        end
    end
  else Proceed.

(** [handleAddTransaction] up to its ledger call:
    [addTransaction(type, symbol, quantity, price, tradeDate)], fee left out.
    When the call is made with numbers, its outcome and the ledger it
    leaves. *)
Definition handleAddTransaction (now : Date) (type symbol : string)
    (quantity price : option Q) (tradeDate : option Date) (st : Ledger)
    : Gate * Call (Outcome TxResult * Ledger) :=
  match addTransactionChecks type symbol quantity price tradeDate st with
  | Proceed =>
      match tradeDate, quantity, price with
      | Some d, Some q, Some p =>
          let call := addTransaction now type (toUpperCase symbol) q p d None in
          (Proceed, Called (outcomeOf call st, stateAfter call st))
      | _, _, _ => (Proceed, CalledWithNaN)
      end
  | gate => (gate, NotCalled)
  end.

(** * Vocabulary of the properties *)

(** ** Settlement offsets and sums *)

(** The number of civil days the loop adds, by the weekday of the trade
    date: Monday to Wednesday 2, Thursday and Friday 4, Saturday 3,
    Sunday 2. *)
Definition settlementOffset (dayOfWeek : Z) : nat :=
  if dayOfWeek =? 4 then 4 else if dayOfWeek =? 5 then 4 else if dayOfWeek =? 6 then 3 else 2.

(** Left-to-right sum from zero, as [reduce((sum, x) => sum + x, 0)] and
    [total += x] compute it. *)
Definition sumQ (l : list Q) : Q := fold_left Qplus l 0.

(** ** The records a call builds *)

(** The record [addTransaction] builds when the trail holds [n] records. *)
Definition transactionRecord (now : Date) (txType symbol : string) (quantity price : Q)
    (date : Date) (feePercent : option Q) (n : nat) : Transaction :=
  let appliedFeePercent := _normalizeFeePercent feePercent in
  let adjustedPrice := _getAdjustedPrice txType price (Some appliedFeePercent) in
  {| tx_id := (Z.of_nat n + 1)%Z;
     tx_type := txType;
     tx_symbol := toUpperCase symbol;
     tx_quantity := quantity;
     tx_price := price;
     tx_adjustedPrice := adjustedPrice;
     tx_feePercent := appliedFeePercent;
     tx_tradeDate := date;
     tx_settlementDate := calculateSettlementDate date;
     tx_totalValue := quantity * price;
     tx_adjustedTotalValue := quantity * adjustedPrice;
     tx_timestamp := now |}.

(** The sale [_processSell] reports once the loop has run. *)
Definition saleOf (transaction : Transaction) (v : SellLoop) : SaleResult :=
  let quantity := tx_quantity transaction in
  let price := JSNumber.orZero (tx_adjustedPrice transaction) in
  {| sale_symbol := tx_symbol transaction;
     sale_quantitySold := quantity;
     sale_sellPrice := price;
     sale_grossSellPrice := JSNumber.orZero (tx_price transaction);
     sale_feePercent := JSNumber.orZero (tx_feePercent transaction);
     sale_saleProceeds := quantity * price;
     sale_totalCostBasis := loop_totalCostBasis v;
     sale_capitalGain := quantity * price - loop_totalCostBasis v;
     sale_lotsUsed := loop_lotsUsed v;
     sale_saleDate := tx_settlementDate transaction;
     sale_isSimulation := false |}.

Definition startOfLoop (quantity : Q) : SellLoop :=
  {| loop_remainingToSell := quantity; loop_lotsUsed := []; loop_totalCostBasis := 0 |}.

Definition survivingLots (lots : list Lot) : list Lot :=
  List.filter (fun lot => JSNumber.ltb 0 (lot_remainingQuantity lot)) lots.

(** ** Comparing a simulation with a sale *)

(** Two sale results that agree on what a caller can read from them:
    symbol, quantity sold, net and gross sell price, fee, lot consumption
    records, total cost basis, proceeds, capital gain and sale date.  Numbers
    are compared as numbers ([==]). *)
Definition sameSale (r s : SaleResult) : Prop :=
  sale_symbol r = sale_symbol s /\
  (sale_quantitySold r == sale_quantitySold s)%Q /\
  (sale_sellPrice r == sale_sellPrice s)%Q /\
  (sale_grossSellPrice r == sale_grossSellPrice s)%Q /\
  (sale_feePercent r == sale_feePercent s)%Q /\
  sale_lotsUsed r = sale_lotsUsed s /\
  (sale_totalCostBasis r == sale_totalCostBasis s)%Q /\
  (sale_saleProceeds r == sale_saleProceeds s)%Q /\
  (sale_capitalGain r == sale_capitalGain s)%Q /\
  sale_saleDate r = sale_saleDate s.

(** The result [calculateSale] builds once its loop has run. *)
Definition simulationOf (symbol : string) (quantity sellPrice : Q) (sellDate : Date)
    (feePercent : option Q) (v : SellLoop) : SaleResult :=
  let appliedFeePercent := _normalizeFeePercent feePercent in
  let adjustedSellPrice := _getAdjustedPrice "SELL" sellPrice (Some appliedFeePercent) in
  {| sale_symbol := toUpperCase symbol;
     sale_quantitySold := quantity;
     sale_sellPrice := adjustedSellPrice;
     sale_grossSellPrice := sellPrice;
     sale_feePercent := appliedFeePercent;
     sale_saleProceeds := (quantity * adjustedSellPrice)%Q;
     sale_totalCostBasis := loop_totalCostBasis v;
     sale_capitalGain := (quantity * adjustedSellPrice - loop_totalCostBasis v)%Q;
     sale_lotsUsed := loop_lotsUsed v;
     sale_saleDate := calculateSettlementDate sellDate;
     sale_isSimulation := true |}.

(** ** The worked example *)

(** The ledger of the worked example before its SELL: 100 OGDC bought at 100
    with a 0.5% fee on [day], 100 more at 120 with the fee left out ten days
    later. *)
Definition twoPurchases (day : Date) : Ledger :=
  stateAfter (addTransaction 0 "BUY" "OGDC" 100 120 (addDays day 10) None)
    (stateAfter (addTransaction 0 "BUY" "OGDC" 100 100 day (Some 0.5%Q)) constructor).

(** The SELL of the worked example: 150 OGDC at 150, fee 0.5%, 400 days
    after the first purchase. *)
Definition sellOfExample (day : Date) : M TxResult :=
  addTransaction 0 "SELL" "OGDC" 150 150 (addDays day 400) (Some 0.5%Q).

(** ** The lot of a BUY *)

(** The guard of [_processBuy]: the transaction is dropped when it has no
    symbol, or a quantity or net price that is not positive. *)
Definition rejectedBuy (transaction : Transaction) : bool :=
  String.eqb (tx_symbol transaction) "" ||
  JSNumber.leb (JSNumber.orZero (tx_quantity transaction)) 0 ||
  JSNumber.leb (JSNumber.orZero (tx_adjustedPrice transaction)) 0.

(** The lot [_processBuy] appends. *)
Definition lotOf (transaction : Transaction) : Lot :=
  let quantity := JSNumber.orZero (tx_quantity transaction) in
  let price := JSNumber.orZero (tx_adjustedPrice transaction) in
  {| lot_quantity := quantity;
     lot_price := price;
     lot_cost := price;
     lot_costPerShare := price;
     lot_purchasePrice := price;
     lot_grossPrice := JSNumber.orElse (tx_price transaction) price;
     lot_feePercent := JSNumber.orZero (tx_feePercent transaction);
     lot_purchaseDate := tx_settlementDate transaction;
     lot_remainingQuantity := quantity;
     lot_value := quantity * price;
     lot_tax := 0;
     lot_originalTransaction := transaction |}.

(** The lots of a symbol; none when the symbol was never bought. *)
Definition lotsOf (st : Ledger) (symbol : string) : list Lot :=
  default [] (holdings st !! symbol).

Definition firstPurchase (day : Date) : Transaction :=
  transactionRecord 0 "BUY" "OGDC" 100 100 day (Some 0.5) 0.

Definition secondPurchase (day : Date) : Transaction :=
  transactionRecord 0 "BUY" "OGDC" 100 120 (addDays day 10) None 1.

(** The ledger of the worked example after its SELL. *)
Definition ledgerOfExample : Ledger :=
  stateAfter (sellOfExample (mkDate 2024 1 1)) (twoPurchases (mkDate 2024 1 1)).

(** ** Walking the lots *)

(** Every lot of the list still holds shares. *)
Definition positiveLots (lots : list Lot) : Prop :=
  Forall (fun lot => 0 < lot_remainingQuantity lot) lots.

(** A lot consumed whole: the record takes all that remains of it. *)
Definition wholeUsage (settlementDate : Date) (lot : Lot) : LotUsed :=
  lotUsage settlementDate lot (lot_remainingQuantity lot).

(** What the loop leaves of a lot consumed whole (nothing remains). *)
Definition emptied (lot : Lot) : Lot := takeFromLot lot (lot_remainingQuantity lot).

(** What is left of the lot the loop stopped in, once the emptied lots are
    filtered out: the lot with its remainder, or nothing when [q] was all it
    held. *)
Definition remainderOf (last : Lot) (q : Q) : list Lot :=
  if JSNumber.ltb q (lot_remainingQuantity last) then [takeFromLot last q] else [].

(** ** Sequences of calls *)

(** A call of [addTransaction]: its arguments and the wall clock at the
    time of the call. *)
Record Order := mkOrder {
  ord_now : Date;
  ord_type : string;
  ord_symbol : string;
  ord_quantity : Q;
  ord_price : Q;
  ord_date : Date;
  ord_feePercent : option Q
}.

Definition place (o : Order) : M TxResult :=
  addTransaction (ord_now o) (ord_type o) (ord_symbol o) (ord_quantity o) (ord_price o)
    (ord_date o) (ord_feePercent o).

(** The calls made one after the other, a throwing call being caught by the
    caller: the outcomes, and the ledger at the end. *)
Fixpoint runOrders (orders : list Order) (st : Ledger) : list (Outcome TxResult) * Ledger :=
  match orders with
  | [] => ([], st)
  | o :: rest =>
      let '(outcome, st') := place o st in
      let '(outcomes, st'') := runOrders rest st' in
      (outcome :: outcomes, st'')
  end.

Definition ledgerAfter (orders : list Order) (st : Ledger) : Ledger :=
  snd (runOrders orders st).

Definition allSucceeded (orders : list Order) (st : Ledger) : bool :=
  forallb succeeded (fst (runOrders orders st)).

Definition isBuy (o : Order) : bool := String.eqb (toUpperCase (ord_type o)) "BUY".
Definition isSell (o : Order) : bool := String.eqb (toUpperCase (ord_type o)) "SELL".
Definition onSymbol (symbol : string) (o : Order) : bool :=
  String.eqb (toUpperCase (ord_symbol o)) symbol.



(** The input contract of [addTransaction]: a symbol, a positive quantity
    and, for a BUY, a positive price. *)
Definition validBuy (o : Order) : Prop :=
  isBuy o = true /\ toUpperCase (ord_symbol o) <> ""%string /\
  (0 < ord_quantity o)%Q /\ (0 < ord_price o)%Q.

Definition validSell (o : Order) : Prop :=
  isSell o = true /\ (0 < ord_quantity o)%Q.



(** The orders of the worked example. *)
Definition ordersOfExample : list Order :=
  [ mkOrder 0 "BUY" "OGDC" 100 100 (mkDate 2024 1 1) (Some 0.5%Q);
    mkOrder 0 "BUY" "OGDC" 100 120 (mkDate 2024 1 11) None;
    mkOrder 0 "SELL" "OGDC" 150 150 (mkDate 2025 2 4) (Some 0.5%Q) ].


(** A valid BUY on the symbol. *)
Definition validBuyOf (symbol : string) (o : Order) : Prop :=
  validBuy o /\ toUpperCase (ord_symbol o) = symbol.

(** The lot consumption records of an outcome. *)
Definition lotsUsedOf (outcome : Outcome TxResult) : list LotUsed :=
  match outcome with
  | Returned (SaleRecord r) => sale_lotsUsed r
  | _ => []
  end.

(** A BUY entered late with an early trade date. *)
Definition backdatedOrders : list Order :=
  [ mkOrder 0 "BUY" "OGDC" 100 100 (mkDate 2024 3 1) None;
    mkOrder 0 "BUY" "OGDC" 100 120 (mkDate 2024 1 2) None ].

Definition sellAfterBackdated : Order :=
  mkOrder 0 "SELL" "OGDC" 50 150 (mkDate 2024 6 3) None.

(** The identifiers of the trail are 1, 2, ... in insertion order. *)
Definition sequentialIds (st : Ledger) : Prop :=
  List.map tx_id (transactions st) =
    List.map Z.of_nat (seq 1 (length (transactions st))).

(** ** Cost basis queries *)

(** A lot consumption record as [getCostBasisForSale] lists it. *)
Definition costLotOf (u : LotUsed) : CostLot :=
  {| cl_quantity := use_quantity u;
     cl_costPerShare := use_costPerShare u;
     cl_totalCost := use_costBasis u;
     cl_purchaseDate := use_purchaseDate u |}.

(** The loop variables of a sale as those of the cost-basis loop. *)
Definition costView (v : SellLoop) : CostLoop :=
  {| cloop_remainingToSell := loop_remainingToSell v;
     cloop_totalCost := loop_totalCostBasis v;
     cloop_lots := List.map costLotOf (loop_lotsUsed v) |}.

(** A lot taken whole by [getCostBasisForSale]. *)
Definition wholeCostLot (lot : Lot) : CostLot :=
  {| cl_quantity := lot_remainingQuantity lot;
     cl_costPerShare := lot_price lot;
     cl_totalCost := lot_remainingQuantity lot * lot_price lot;
     cl_purchaseDate := lot_purchaseDate lot |}.

(** The cost of all the shares the lots hold. *)
Definition holdingCost (lots : list Lot) : Q :=
  sumQ (List.map (fun lot => lot_remainingQuantity lot * lot_price lot) lots).

(** ** What getHoldings reports *)

(** The total quantity and the total cost basis [getHoldings] reports for a
    symbol; nothing is reported for a symbol it leaves out. *)
Definition reportedQuantity (st : Ledger) (symbol : string) : Q :=
  match getHoldings st !! symbol with
  | Some summary => hs_totalQuantity summary
  | None => 0
  end.

Definition reportedCostBasis (st : Ledger) (symbol : string) : Q :=
  match getHoldings st !! symbol with
  | Some summary => hs_totalCostBasis summary
  | None => 0
  end.

(** ** Lot consumption records *)

(** A well-formed lot consumption record of a sale settled on
    [settlementDate] out of [lots]: it takes a positive quantity, no more
    than its lot held, at the lot's net price, and carries the holding period
    from the lot's purchase date to the settlement date of the sale. *)
Definition recordOf (settlementDate : Date) (lots : list Lot) (u : LotUsed) : Prop :=
  (0 < use_quantity u)%Q /\
  use_costBasis u = (use_quantity u * use_costPerShare u)%Q /\
  use_holdingPeriod u = getHoldingPeriod (use_purchaseDate u) settlementDate /\
  exists lot, List.In lot lots /\
    use_purchaseDate u = lot_purchaseDate lot /\
    use_costPerShare u = lot_price lot /\
    (use_quantity u <= lot_remainingQuantity lot)%Q.

(** ** Lots as the ledger keeps them *)

(** A lot as [_processBuy] makes it and [_processSell] leaves it: it still
    holds shares, no more than were bought; its net price is positive and is
    the gross price plus the fee; [cost], [costPerShare] and [purchasePrice]
    repeat the net price; [value] is the purchase at the net price; it was
    purchased on the settlement date of its transaction. *)
Definition wellFormedLot (lot : Lot) : Prop :=
  (0 < lot_remainingQuantity lot)%Q /\
  (lot_remainingQuantity lot <= lot_quantity lot)%Q /\
  (0 < lot_price lot)%Q /\
  (0 <= lot_feePercent lot)%Q /\
  (lot_price lot == lot_grossPrice lot * (1 + lot_feePercent lot / 100))%Q /\
  lot_cost lot = lot_price lot /\
  lot_costPerShare lot = lot_price lot /\
  lot_purchasePrice lot = lot_price lot /\
  lot_value lot = (lot_quantity lot * lot_price lot)%Q /\
  lot_tax lot = 0%Q /\
  lot_purchaseDate lot =
    calculateSettlementDate (tx_tradeDate (lot_originalTransaction lot)).

Definition wellFormedLedger (st : Ledger) : Prop :=
  forall symbol, Forall wellFormedLot (lotsOf st symbol).

(** Two lots that agree field by field, prices compared as numbers. *)
Definition sameLot (a b : Lot) : Prop :=
  lot_quantity a = lot_quantity b /\
  (lot_price a == lot_price b)%Q /\
  (lot_cost a == lot_cost b)%Q /\
  (lot_costPerShare a == lot_costPerShare b)%Q /\
  (lot_purchasePrice a == lot_purchasePrice b)%Q /\
  lot_grossPrice a = lot_grossPrice b /\
  lot_feePercent a = lot_feePercent b /\
  lot_purchaseDate a = lot_purchaseDate b /\
  lot_remainingQuantity a = lot_remainingQuantity b /\
  lot_value a = lot_value b /\
  lot_tax a = lot_tax b /\
  lot_originalTransaction a = lot_originalTransaction b.

(** * Properties *)

(** ** Sanity checks of the calendar *)

Example mkDate_epoch : mkDate 1970 1 1 = 0%Z.
Proof. reflexivity. Qed.

Example getDay_2024_01_01 : getDay (mkDate 2024 1 1) = 1%Z.
Proof. reflexivity. Qed.

Example civil_2024_02_29 :
  (getFullYear (mkDate 2024 2 29), getMonth (mkDate 2024 2 29)) = (2024%Z, 1%Z).
Proof. reflexivity. Qed.

Example civil_1969_12_31 :
  (getFullYear (mkDate 1969 12 31 + 5), getMonth (mkDate 1969 12 31 + 5)) = (1969%Z, 11%Z).
Proof. reflexivity. Qed.

Example settle_monday : calculateSettlementDate (mkDate 2024 1 1) = mkDate 2024 1 3.
Proof. reflexivity. Qed.

Example settle_thursday : calculateSettlementDate (mkDate 2024 1 4) = mkDate 2024 1 8.
Proof. reflexivity. Qed.

Example settle_friday : calculateSettlementDate (mkDate 2024 1 5) = mkDate 2024 1 9.
Proof. reflexivity. Qed.

Example settle_saturday : calculateSettlementDate (mkDate 2024 1 6) = mkDate 2024 1 9.
Proof. reflexivity. Qed.

Example settle_sunday : calculateSettlementDate (mkDate 2024 1 7) = mkDate 2024 1 9.
Proof. reflexivity. Qed.

(** ** Settlement date *)

Lemma getDay_range (d : Date) : (0 <= getDay d < 7)%Z.
Proof. unfold getDay. apply Z.mod_pos_bound. lia. Qed.

(** Case analysis on the weekday of [d]: seven goals, with [H : getDay d = k]. *)
Ltac by_weekday d H :=
  let Hr := fresh "Hr" in
  let Hc := fresh "Hc" in
  pose proof (getDay_range d) as Hr;
  assert (getDay d = 0 \/ getDay d = 1 \/ getDay d = 2 \/ getDay d = 3 \/
          getDay d = 4 \/ getDay d = 5 \/ getDay d = 6)%Z as Hc by lia;
  clear Hr;
  destruct Hc as [H|[H|[H|[H|[H|[H|H]]]]]].

Section Settlement.

Local Open Scope Z_scope.

Lemma addDays_0 (d : Date) : addDays d 0 = d.
Proof. unfold addDays. lia. Qed.

Lemma addDays_addDays (d : Date) (a b : Z) : addDays (addDays d a) b = addDays d (a + b).
Proof. unfold addDays. lia. Qed.

Lemma getDay_addDays (d : Date) (n : Z) : getDay (addDays d n) = (getDay d + n) mod 7.
Proof.
  unfold getDay, addDays, dayNumber.
  rewrite Z.div_add by (unfold msPerDay; lia).
  rewrite Zplus_mod_idemp_l. f_equal. lia.
Qed.

(** One turn of the loop, with the date written as an offset from the
    trade date. *)
Lemma settlementLoop_step (fuel : nat) (d : Date) (n k : Z) :
  settlementLoop (S fuel) (addDays d n) k =
    if k <? 2 then
      if negb ((getDay d + (n + 1)) mod 7 =? 0) && negb ((getDay d + (n + 1)) mod 7 =? 6)
      then settlementLoop fuel (addDays d (n + 1)) (k + 1)
      else settlementLoop fuel (addDays d (n + 1)) k
    else Some (addDays d n).
Proof.
  cbn [settlementLoop]. rewrite addDays_addDays, getDay_addDays. reflexivity.
Qed.

Lemma settlementLoop_done (fuel : nat) (d : Date) : settlementLoop fuel d 2 = Some d.
Proof. destruct fuel; reflexivity. Qed.

Lemma settlementLoop_offset (extra : nat) (tradeDate : Date) :
  settlementLoop (4 + extra) tradeDate 0 =
    Some (addDays tradeDate (Z.of_nat (settlementOffset (getDay tradeDate)))).
Proof.
  rewrite <- (addDays_0 tradeDate) at 1.
  change (4 + extra)%nat with (S (S (S (S extra)))).
  by_weekday tradeDate H;
    repeat (rewrite settlementLoop_step; rewrite H; cbn -[settlementLoop addDays]);
    rewrite ?settlementLoop_done; reflexivity.
Qed.

Lemma calculateSettlementDate_offset (tradeDate : Date) :
  calculateSettlementDate tradeDate =
    addDays tradeDate (Z.of_nat (settlementOffset (getDay tradeDate))).
Proof.
  unfold calculateSettlementDate.
  pose proof (settlementLoop_offset 0 tradeDate) as H. cbn [Nat.add] in H.
  rewrite H. reflexivity.
Qed.

Lemma businessDaysAfter_offset (tradeDate : Date) :
  businessDaysAfter tradeDate (settlementOffset (getDay tradeDate)) = 2%nat.
Proof.
  unfold businessDaysAfter, isBusinessDay.
  by_weekday tradeDate H; rewrite H; cbn -[addDays getDay];
    rewrite ?getDay_addDays, ?H; reflexivity.
Qed.

End Settlement.

(** C10. For every trade date the T+2 loop terminates (four iterations are
    always enough, and more fuel changes nothing) and returns the trade date
    advanced by a whole number [n] of civil days such that exactly two of
    the [n] days after the trade date are business days and the last of them
    is the result: the result is a weekday (Monday to Friday) strictly
    later than the trade date.  As a function of the trade date alone it is
    deterministic. *)
Theorem calculateSettlementDate_two_business_days (tradeDate : Date) :
  (forall extra : nat,
      settlementLoop (4 + extra) tradeDate 0 = Some (calculateSettlementDate tradeDate)) /\
  exists n : nat,
    calculateSettlementDate tradeDate = addDays tradeDate (Z.of_nat n) /\
    businessDaysAfter tradeDate n = 2%nat /\
    isBusinessDay (calculateSettlementDate tradeDate) = true /\
    (1 <= getDay (calculateSettlementDate tradeDate) <= 5)%Z /\
    (tradeDate < calculateSettlementDate tradeDate)%Z.
Proof.
  split.
  - intros extra. rewrite settlementLoop_offset, calculateSettlementDate_offset. reflexivity.
  - exists (settlementOffset (getDay tradeDate)).
    rewrite calculateSettlementDate_offset.
    split; [reflexivity|]. split; [apply businessDaysAfter_offset|].
    unfold isBusinessDay. rewrite getDay_addDays.
    by_weekday tradeDate H; rewrite H; cbn;
      (repeat split; try reflexivity; try lia; try discriminate;
       unfold addDays, msPerDay; lia).
Qed.

(** ** Arithmetic of the number model *)

Section Numbers.

Local Open Scope Q_scope.

Lemma ltb_true (a b : Q) : JSNumber.ltb a b = true <-> a < b.
Proof.
  unfold JSNumber.ltb. rewrite negb_true_iff, <- not_true_iff_false, Qle_bool_iff.
  split; [apply Qnot_le_lt | apply Qlt_not_le].
Qed.

Lemma ltb_false (a b : Q) : JSNumber.ltb a b = false <-> b <= a.
Proof.
  unfold JSNumber.ltb. rewrite negb_false_iff. apply Qle_bool_iff.
Qed.

Lemma leb_true (a b : Q) : JSNumber.leb a b = true <-> a <= b.
Proof. apply Qle_bool_iff. Qed.

Lemma leb_false (a b : Q) : JSNumber.leb a b = false <-> b < a.
Proof.
  unfold JSNumber.leb. rewrite <- not_true_iff_false, Qle_bool_iff.
  split; [apply Qnot_le_lt | apply Qlt_not_le].
Qed.

Lemma orZero_eq (x : Q) : JSNumber.orZero x == x.
Proof.
  unfold JSNumber.orZero. destruct (Qeq_bool x 0) eqn:E; [|reflexivity].
  apply Qeq_bool_iff in E. symmetry. exact E.
Qed.

Lemma orElse_eq (x y : Q) : ~ x == 0 -> JSNumber.orElse x y = x.
Proof.
  intros H. unfold JSNumber.orElse. destruct (Qeq_bool x 0) eqn:E; [|reflexivity].
  apply Qeq_bool_iff in E. contradiction.
Qed.

(** [Math.min] returns one of its arguments. *)
Lemma min_cases (a b : Q) :
  (a <= b /\ JSNumber.min a b = a) \/ (b < a /\ JSNumber.min a b = b).
Proof.
  unfold JSNumber.min, Qmin, GenericMinMax.gmin.
  destruct (a ?= b) eqn:E.
  - left. apply Qeq_alt in E. split; [rewrite E; apply Qle_refl | reflexivity].
  - left. apply Qlt_alt in E. split; [apply Qlt_le_weak, E | reflexivity].
  - right. apply Qgt_alt in E. split; [exact E | reflexivity].
Qed.

Lemma fold_left_Qplus_acc (l : list Q) (a : Q) :
  fold_left Qplus l a == a + sumQ l.
Proof.
  unfold sumQ. revert a. induction l as [|x l IH]; intros a; cbn [fold_left].
  - lra.
  - rewrite (IH (a + x)), (IH (0 + x)). lra.
Qed.

Lemma sumQ_nil : sumQ [] = 0.
Proof. reflexivity. Qed.

Lemma sumQ_cons (x : Q) (l : list Q) : sumQ (x :: l) == x + sumQ l.
Proof.
  unfold sumQ at 1. cbn [fold_left]. rewrite fold_left_Qplus_acc. lra.
Qed.

Lemma sumQ_app (l1 l2 : list Q) : sumQ (l1 ++ l2) == sumQ l1 + sumQ l2.
Proof.
  unfold sumQ at 1. rewrite fold_left_app. rewrite fold_left_Qplus_acc.
  unfold sumQ. lra.
Qed.

Lemma fold_left_map_Qplus {A} (f : A -> Q) (l : list A) (a : Q) :
  fold_left (fun sum x => sum + f x) l a = fold_left Qplus (List.map f l) a.
Proof.
  revert a. induction l as [|x l IH]; intros a; cbn; [reflexivity | apply IH].
Qed.

Lemma totalAvailable_sumQ (lots : list Lot) :
  totalAvailable lots = sumQ (List.map lot_remainingQuantity lots).
Proof. apply fold_left_map_Qplus. Qed.

Lemma totalAvailable_cons (lot : Lot) (lots : list Lot) :
  totalAvailable (lot :: lots) == lot_remainingQuantity lot + totalAvailable lots.
Proof. rewrite !totalAvailable_sumQ. cbn [List.map]. apply sumQ_cons. Qed.

Lemma totalAvailable_app (l1 l2 : list Lot) :
  totalAvailable (l1 ++ l2) == totalAvailable l1 + totalAvailable l2.
Proof. rewrite !totalAvailable_sumQ, List.map_app. apply sumQ_app. Qed.

End Numbers.

(** ** The consumption loop *)

Section Consumption.

Local Open Scope Q_scope.

Variable settlementDate : Date.

(** [calculateSale] walks the lots exactly as [_processSell] does. *)
Lemma simulateLots_consumeLots (lots : list Lot) (v : SellLoop) :
  simulateLots settlementDate lots v = snd (consumeLots settlementDate lots v).
Proof.
  revert v. induction lots as [|lot rest IH]; intros v; cbn [simulateLots consumeLots].
  - reflexivity.
  - destruct (JSNumber.ltb 0 (loop_remainingToSell v)); [|reflexivity].
    destruct (JSNumber.ltb 0 _); rewrite IH;
      destruct (consumeLots settlementDate rest _); reflexivity.
Qed.

(** Nothing left to sell: the loop stops at once. *)
Lemma consumeLots_stop (lots : list Lot) (v : SellLoop) :
  loop_remainingToSell v <= 0 -> consumeLots settlementDate lots v = (lots, v).
Proof.
  intros H. destruct lots as [|lot rest]; cbn [consumeLots]; [reflexivity|].
  apply ltb_false in H. rewrite H. reflexivity.
Qed.

(** [totalCostBasis] is the running sum of the cost bases pushed so far. *)
Lemma consumeLots_totalCostBasis (lots : list Lot) (v : SellLoop) :
  loop_totalCostBasis v = sumQ (List.map use_costBasis (loop_lotsUsed v)) ->
  loop_totalCostBasis (snd (consumeLots settlementDate lots v)) =
    sumQ (List.map use_costBasis (loop_lotsUsed (snd (consumeLots settlementDate lots v)))).
Proof.
  revert v. induction lots as [|lot rest IH]; intros v Hv; cbn [consumeLots]; [exact Hv|].
  destruct (JSNumber.ltb 0 (loop_remainingToSell v)); [|exact Hv].
  destruct (JSNumber.ltb 0 _).
  - match goal with |- context [consumeLots settlementDate rest ?w] =>
      specialize (IH w); destruct (consumeLots settlementDate rest w) end.
    apply IH. cbn. rewrite List.map_app. unfold sumQ. rewrite fold_left_app.
    cbn. rewrite Hv. reflexivity.
  - specialize (IH v Hv). destruct (consumeLots settlementDate rest v). exact IH.
Qed.



End Consumption.

(** ** SELL, step by step *)

Section SellPath.

Local Open Scope Q_scope.

Lemma processSell_run (t : Transaction) (st : Ledger) :
  _processSell t st =
    match holdings st !! tx_symbol t with
    | None | Some [] => (Thrown (CannotSellNoHoldings (tx_symbol t)), st)
    | Some lots =>
        if JSNumber.ltb (totalAvailable lots) (tx_quantity t)
        then (Thrown (CannotSellOnlyAvailable (tx_quantity t) (tx_symbol t)
                        (totalAvailable lots)), st)
        else
          let lv := consumeLots (tx_settlementDate t) lots (startOfLoop (tx_quantity t)) in
          (Returned (saleOf t (snd lv)),
           {| holdings := <[tx_symbol t := survivingLots (fst lv)]> (holdings st);
              transactions := transactions st;
              realizedGains := realizedGains st ++ [saleOf t (snd lv)] |})
    end.
Proof.
  unfold _processSell, bind, gets. cbn [fst snd].
  destruct (holdings st !! tx_symbol t) as [[|lot lots]|]; try reflexivity.
  unfold throw.
  destruct (JSNumber.ltb (totalAvailable (lot :: lots)) (tx_quantity t)); [reflexivity|].
  fold (startOfLoop (tx_quantity t)).
  destruct (consumeLots (tx_settlementDate t) (lot :: lots) (startOfLoop (tx_quantity t)))
    as [lots' v] eqn:E.
  unfold bind, modify, ret, setLots, pushRealizedGain. cbn.
  rewrite insert_insert_eq. reflexivity.
Qed.

Lemma addTransaction_sell (now : Date) (type symbol : string) (quantity price : Q)
    (date : Date) (feePercent : option Q) (st : Ledger) :
  toUpperCase type = "SELL"%string ->
  addTransaction now type symbol quantity price date feePercent st =
    match _processSell (transactionRecord now "SELL" symbol quantity price date feePercent
                          (length (transactions st))) st with
    | (Returned r, st') => (Returned (SaleRecord r), st')
    | (Thrown e, st') => (Thrown e, st')
    end.
Proof.
  intros Ht. unfold addTransaction. rewrite Ht.
  unfold bind at 1. unfold gets at 1. cbn [String.eqb Ascii.eqb Bool.eqb].
  cbn match. unfold bind at 1. fold (transactionRecord now "SELL" symbol quantity price date
    feePercent (length (transactions st))).
  destruct (_processSell _ st) as [[r|e] st']; reflexivity.
Qed.

Lemma addTransaction_buy (now : Date) (type symbol : string) (quantity price : Q)
    (date : Date) (feePercent : option Q) (st : Ledger) :
  toUpperCase type = "BUY"%string ->
  addTransaction now type symbol quantity price date feePercent st =
    let t := transactionRecord now "BUY" symbol quantity price date feePercent
               (length (transactions st)) in
    match _processBuy t st with
    | (Returned _, st') => (Returned (TransactionRecord t), pushTransaction t st')
    | (Thrown e, st') => (Thrown e, st')
    end.
Proof.
  intros Ht. unfold addTransaction. rewrite Ht.
  unfold bind at 1. unfold gets at 1. cbn [String.eqb Ascii.eqb Bool.eqb].
  cbn match. unfold bind at 1. cbn zeta.
  fold (transactionRecord now "BUY" symbol quantity price date
    feePercent (length (transactions st))).
  destruct (_processBuy _ st) as [[r|e] st']; reflexivity.
Qed.

End SellPath.

(** ** Failure and atomicity of SELL *)

(** C4. A SELL through [addTransaction] throws exactly when the symbol has
    no lots or the lots' total remaining quantity is below the requested
    quantity; every error it throws is of the insufficient-holdings class;
    and a failing SELL leaves the ledger as it was, so [getHoldings],
    [getTransactions] and [getRealizedGains] answer as before the call. *)
Theorem sell_fails_iff_insufficient_and_changes_nothing
    (now : Date) (type symbol : string) (quantity price : Q) (date : Date)
    (feePercent : option Q) (st : Ledger) :
  toUpperCase type = "SELL"%string ->
  let call := addTransaction now type symbol quantity price date feePercent in
  let lots := default [] (holdings st !! toUpperCase symbol) in
  ((exists e, outcomeOf call st = Thrown e) <->
     (lots = [] \/ (totalAvailable lots < quantity)%Q)) /\
  (forall e, outcomeOf call st = Thrown e ->
     errorKind e = InsufficientHoldings /\
     stateAfter call st = st /\
     getHoldings (stateAfter call st) = getHoldings st /\
     getTransactions (stateAfter call st) = getTransactions st /\
     getRealizedGains (stateAfter call st) = getRealizedGains st).
Proof.
  intros Ht call lots. subst call lots. unfold outcomeOf, stateAfter.
  rewrite (addTransaction_sell _ _ _ _ _ _ _ _ Ht), processSell_run.
  cbn [tx_symbol tx_quantity transactionRecord].
  destruct (holdings st !! toUpperCase symbol) as [[|lot lots]|]; cbn [default fst snd].
  - split; [split; eauto|]. intros e [= <-]. repeat split.
  - destruct (JSNumber.ltb (totalAvailable (lot :: lots)) quantity) eqn:E; cbn [fst snd].
    + apply ltb_true in E. split; [split; eauto|]. intros e [= <-]. repeat split.
    + apply ltb_false in E. split.
      * split; [intros [e [=]]|]. intros [[=]|H]. exfalso. revert H. apply Qle_not_lt, E.
      * intros e [=].
  - split; [split; eauto|]. intros e [= <-]. repeat split.
Qed.

(** A SELL on an empty ledger: the hypothesis of the theorem is met and the
    call fails without a trace. *)
Lemma sell_fails_iff_insufficient_witness :
  toUpperCase "sell" = "SELL"%string /\
  let call := addTransaction 0 "sell" "ogdc" 10 150 (mkDate 2024 1 1) None in
  let lots := default [] (holdings constructor !! toUpperCase "ogdc") in
  ((exists e, outcomeOf call constructor = Thrown e) <->
     (lots = [] \/ (totalAvailable lots < 10)%Q)) /\
  (forall e, outcomeOf call constructor = Thrown e ->
     errorKind e = InsufficientHoldings /\
     stateAfter call constructor = constructor /\
     getHoldings (stateAfter call constructor) = getHoldings constructor /\
     getTransactions (stateAfter call constructor) = getTransactions constructor /\
     getRealizedGains (stateAfter call constructor) = getRealizedGains constructor).
Proof.
  split; [reflexivity|].
  apply (sell_fails_iff_insufficient_and_changes_nothing
           0 "sell" "ogdc" 10 150 (mkDate 2024 1 1) None constructor).
  reflexivity.
Defined.

(** ** calculateSale against the SELL path *)

Lemma calculateSale_run (symbol : string) (quantity sellPrice : Q) (sellDate : Date)
    (feePercent : option Q) (st : Ledger) :
  calculateSale symbol quantity sellPrice sellDate feePercent st =
    match holdings st !! toUpperCase symbol with
    | None | Some [] => (Thrown (NoHoldingsFound (toUpperCase symbol)), st)
    | Some lots =>
        if JSNumber.ltb (totalAvailable lots) quantity
        then (Thrown (InsufficientShares quantity (totalAvailable lots)), st)
        else
          (Returned
             (simulationOf symbol quantity sellPrice sellDate feePercent
                (snd (consumeLots (calculateSettlementDate sellDate) lots
                        (startOfLoop quantity)))),
           st)
    end.
Proof.
  unfold calculateSale, bind, gets. cbn [fst snd].
  destruct (holdings st !! toUpperCase symbol) as [[|lot lots]|]; try reflexivity.
  unfold throw.
  destruct (JSNumber.ltb (totalAvailable (lot :: lots)) quantity); [reflexivity|].
  rewrite simulateLots_consumeLots. reflexivity.
Qed.

(** C6. [calculateSale] leaves the ledger untouched, throws in exactly the
    cases in which the SELL path of [addTransaction] throws, and otherwise
    returns a result that agrees with the realized sale the SELL would
    produce on symbol, quantity sold, net and gross sell price, lot
    consumption records, total cost basis, sale proceeds and capital gain
    (and on fee and sale date); the result is flagged as a simulation. *)
Theorem calculateSale_simulates_sell
    (now : Date) (type symbol : string) (quantity price : Q) (date : Date)
    (feePercent : option Q) (st : Ledger) :
  toUpperCase type = "SELL"%string ->
  let simulation := calculateSale symbol quantity price date feePercent in
  let sell := addTransaction now type symbol quantity price date feePercent in
  stateAfter simulation st = st /\
  getHoldings (stateAfter simulation st) = getHoldings st /\
  getTransactions (stateAfter simulation st) = getTransactions st /\
  getRealizedGains (stateAfter simulation st) = getRealizedGains st /\
  match outcomeOf sell st, outcomeOf simulation st with
  | Returned (SaleRecord r), Returned s => sameSale r s /\ sale_isSimulation s = true
  | Thrown e, Thrown e' => errorKind e = errorKind e'
  | _, _ => False
  end.
Proof.
  intros Ht simulation sell. subst simulation sell. unfold outcomeOf, stateAfter.
  rewrite (addTransaction_sell _ _ _ _ _ _ _ _ Ht), processSell_run, calculateSale_run.
  cbn [tx_symbol tx_quantity tx_settlementDate transactionRecord].
  destruct (holdings st !! toUpperCase symbol) as [[|lot lots]|]; cbn [fst snd];
    try (repeat split; reflexivity).
  destruct (JSNumber.ltb (totalAvailable (lot :: lots)) quantity); cbn [fst snd];
    [repeat split; reflexivity|].
  repeat split; cbn; rewrite ?orZero_eq; reflexivity.
Qed.

(** A simulated and a real SELL of 150 shares after two purchases. *)
Lemma calculateSale_simulates_sell_witness :
  let st :=
    stateAfter (addTransaction 0 "BUY" "OGDC" 100 120 (mkDate 2024 1 11) None)
      (stateAfter (addTransaction 0 "BUY" "OGDC" 100 100 (mkDate 2024 1 1) (Some 0.5%Q))
         constructor) in
  toUpperCase "Sell" = "SELL"%string /\
  let simulation := calculateSale "ogdc" 150 150 (mkDate 2025 2 4) (Some 0.5%Q) in
  let sell := addTransaction 0 "Sell" "ogdc" 150 150 (mkDate 2025 2 4) (Some 0.5%Q) in
  stateAfter simulation st = st /\
  getHoldings (stateAfter simulation st) = getHoldings st /\
  getTransactions (stateAfter simulation st) = getTransactions st /\
  getRealizedGains (stateAfter simulation st) = getRealizedGains st /\
  match outcomeOf sell st, outcomeOf simulation st with
  | Returned (SaleRecord r), Returned s => sameSale r s /\ sale_isSimulation s = true
  | Thrown e, Thrown e' => errorKind e = errorKind e'
  | _, _ => False
  end.
Proof.
  intros st. split; [reflexivity|].
  apply (calculateSale_simulates_sell 0 "Sell" "ogdc" 150 150 (mkDate 2025 2 4)
           (Some 0.5%Q) st).
  reflexivity.
Defined.

(** ** The identities of a realized sale *)




(** ** BUY, step by step *)

Section BuyPath.

Local Open Scope Q_scope.

Lemma processBuy_run (t : Transaction) (st : Ledger) :
  _processBuy t st =
    (Returned tt,
     if rejectedBuy t then st
     else setLots (tx_symbol t) (lotsOf st (tx_symbol t) ++ [lotOf t]) st).
Proof.
  unfold _processBuy, rejectedBuy, lotsOf.
  destruct (String.eqb (tx_symbol t) "" || _ || _); [reflexivity|].
  unfold bind, gets, modify, ret. cbn [fst snd].
  fold (lotOf t).
  destruct (holdings st !! tx_symbol t) as [lots|] eqn:E; cbn [default].
  - unfold setLots. cbn [holdings]. rewrite E. reflexivity.
  - unfold setLots. cbn [holdings transactions realizedGains].
    rewrite lookup_insert_eq, insert_insert_eq. reflexivity.
Qed.

(** The whole effect of a BUY through [addTransaction]. *)
Lemma addTransaction_buy_run (now : Date) (type symbol : string) (quantity price : Q)
    (date : Date) (feePercent : option Q) (st : Ledger) :
  toUpperCase type = "BUY"%string ->
  let t := transactionRecord now "BUY" symbol quantity price date feePercent
             (length (transactions st)) in
  addTransaction now type symbol quantity price date feePercent st =
    (Returned (TransactionRecord t),
     pushTransaction t
       (if rejectedBuy t then st
        else setLots (tx_symbol t) (lotsOf st (tx_symbol t) ++ [lotOf t]) st)).
Proof.
  intros Ht t. rewrite (addTransaction_buy _ _ _ _ _ _ _ _ Ht). cbn zeta.
  rewrite processBuy_run. reflexivity.
Qed.

(** The outcome of a SELL, without the ledger. *)
Lemma sell_outcome (now : Date) (type symbol : string) (quantity price : Q)
    (date : Date) (feePercent : option Q) (st : Ledger) :
  toUpperCase type = "SELL"%string ->
  let t := transactionRecord now "SELL" symbol quantity price date feePercent
             (length (transactions st)) in
  outcomeOf (addTransaction now type symbol quantity price date feePercent) st =
    match lotsOf st (toUpperCase symbol) with
    | [] => Thrown (CannotSellNoHoldings (toUpperCase symbol))
    | lots =>
        if JSNumber.ltb (totalAvailable lots) quantity
        then Thrown (CannotSellOnlyAvailable quantity (toUpperCase symbol)
                       (totalAvailable lots))
        else Returned (SaleRecord
                         (saleOf t (snd (consumeLots (calculateSettlementDate date) lots
                                           (startOfLoop quantity)))))
    end.
Proof.
  intros Ht t. unfold outcomeOf, lotsOf.
  rewrite (addTransaction_sell _ _ _ _ _ _ _ _ Ht), processSell_run.
  cbn [tx_symbol tx_quantity tx_settlementDate transactionRecord].
  destruct (holdings st !! toUpperCase symbol) as [[|lot lots]|]; cbn [default from_option id fst snd];
    try reflexivity.
  destruct (JSNumber.ltb _ quantity); reflexivity.
Qed.

(** The ledger a successful SELL leaves. *)
Lemma sell_state (now : Date) (type symbol : string) (quantity price : Q)
    (date : Date) (feePercent : option Q) (st : Ledger) (r : SaleResult) :
  toUpperCase type = "SELL"%string ->
  outcomeOf (addTransaction now type symbol quantity price date feePercent) st =
    Returned (SaleRecord r) ->
  stateAfter (addTransaction now type symbol quantity price date feePercent) st =
    {| holdings :=
         <[toUpperCase symbol :=
             survivingLots
               (fst (consumeLots (calculateSettlementDate date)
                       (lotsOf st (toUpperCase symbol)) (startOfLoop quantity)))]>
           (holdings st);
       transactions := transactions st;
       realizedGains := realizedGains st ++ [r] |}.
Proof.
  intros Ht. unfold outcomeOf, stateAfter, lotsOf.
  rewrite (addTransaction_sell _ _ _ _ _ _ _ _ Ht), processSell_run.
  cbn [tx_symbol tx_quantity tx_settlementDate transactionRecord].
  destruct (holdings st !! toUpperCase symbol) as [[|lot lots]|]; cbn [default from_option id fst snd];
    try discriminate.
  destruct (JSNumber.ltb _ quantity); cbn [fst snd]; [discriminate|].
  destruct (consumeLots _ _ _) as [lots' v]. cbn [fst snd].
  intros [= <-]. reflexivity.
Qed.

End BuyPath.

(** ** The worked example *)

Section WorkedExample.

Local Open Scope Q_scope.

Lemma twoPurchases_eq (day : Date) :
  twoPurchases day =
    {| holdings :=
         <["OGDC"%string := [lotOf (firstPurchase day); lotOf (secondPurchase day)]]> ∅;
       transactions := [firstPurchase day; secondPurchase day];
       realizedGains := [] |}.
Proof.
  unfold twoPurchases, stateAfter.
  rewrite (addTransaction_buy_run 0 "BUY" "OGDC" 100 100 day (Some 0.5) constructor eq_refl).
  cbn [snd].
  change (transactionRecord 0 "BUY" "OGDC" 100 100 day (Some 0.5)
            (length (transactions constructor))) with (firstPurchase day).
  change (rejectedBuy (firstPurchase day)) with false. cbn iota.
  rewrite (addTransaction_buy_run 0 "BUY" "OGDC" 100 120 (addDays day 10) None _ eq_refl).
  cbn [snd].
  change (transactionRecord 0 "BUY" "OGDC" 100 120 (addDays day 10) None _)
    with (secondPurchase day).
  change (rejectedBuy (secondPurchase day)) with false. cbn iota.
  unfold pushTransaction, setLots, lotsOf.
  cbn [holdings transactions realizedGains tx_symbol firstPurchase secondPurchase
       transactionRecord constructor].
  change (toUpperCase "OGDC") with "OGDC"%string.
  rewrite lookup_empty. cbn [default from_option id app].
  rewrite lookup_insert_eq, insert_insert_eq.
  cbn [default from_option id app]. reflexivity.
Qed.

End WorkedExample.

(** C9. The worked sequence, on any day [day]: BUY 100 OGDC at 100 with fee
    0.5%, BUY 100 OGDC at 120 ten days later with the fee left out (the
    default 0.5% is applied), SELL 150 OGDC at 150 with fee 0.5% four hundred
    days after the first purchase.  The sale consumes 100 units of the first
    lot at net cost 100.5 each and 50 units of the second at 120.6 each;
    total cost basis 16080, net proceeds 22387.5, capital gain 6307.5.  The
    first lot is used up and leaves the ledger, the second keeps 50 units.
    (Figures of exact arithmetic.) *)
Theorem worked_example (day : Date) :
  exists (r : SaleResult) (u1 u2 : LotUsed) (left : Lot),
    List.map tx_feePercent (getTransactions (twoPurchases day)) = [0.5%Q; 0.5%Q] /\
    outcomeOf (sellOfExample day) (twoPurchases day) = Returned (SaleRecord r) /\
    sale_lotsUsed r = [u1; u2] /\
    use_purchaseDate u1 = calculateSettlementDate day /\
    (use_quantity u1 == 100)%Q /\
    (use_costPerShare u1 == 100.5)%Q /\
    (use_costBasis u1 == 10050)%Q /\
    use_purchaseDate u2 = calculateSettlementDate (addDays day 10) /\
    (use_quantity u2 == 50)%Q /\
    (use_costPerShare u2 == 120.6)%Q /\
    (use_costBasis u2 == 6030)%Q /\
    (sale_totalCostBasis r == 16080)%Q /\
    (sale_saleProceeds r == 22387.5)%Q /\
    (sale_capitalGain r == 6307.5)%Q /\
    lotsOf (stateAfter (sellOfExample day) (twoPurchases day)) "OGDC" = [left] /\
    lot_purchaseDate left = calculateSettlementDate (addDays day 10) /\
    (lot_remainingQuantity left == 50)%Q.
Proof.
  assert (exists r, outcomeOf (sellOfExample day) (twoPurchases day) = Returned (SaleRecord r) /\
            r = saleOf (transactionRecord 0 "SELL" "OGDC" 150 150 (addDays day 400)
                          (Some 0.5%Q) 2)
                  (snd (consumeLots (calculateSettlementDate (addDays day 400))
                          [lotOf (firstPurchase day); lotOf (secondPurchase day)]
                          (startOfLoop 150)))) as (r & Hr & Er).
  { eexists. split; [|reflexivity]. unfold sellOfExample.
    rewrite (sell_outcome 0 "SELL" "OGDC" 150 150 (addDays day 400) (Some 0.5%Q) _ eq_refl).
    rewrite twoPurchases_eq. unfold lotsOf. cbn [holdings transactions length].
    change (toUpperCase "OGDC") with "OGDC"%string.
    rewrite lookup_insert_eq. cbn [default from_option id].
    replace (JSNumber.ltb (totalAvailable _) 150) with false by (vm_compute; reflexivity).
    reflexivity. }
  unfold sellOfExample in *.
  exists r. do 3 eexists.
  split; [rewrite twoPurchases_eq; reflexivity|].
  split; [exact Hr|].
  rewrite (sell_state 0 "SELL" "OGDC" 150 150 (addDays day 400) (Some 0.5%Q) _ r eq_refl Hr).
  rewrite twoPurchases_eq. unfold lotsOf. cbn [holdings].
  change (toUpperCase "OGDC") with "OGDC"%string.
  rewrite !lookup_insert_eq. cbn [default from_option id]. subst r.
  split; [lazy -[calculateSettlementDate getHoldingPeriod addDays]; reflexivity|].
  cbn [use_purchaseDate use_quantity use_costPerShare use_costBasis
       sale_totalCostBasis sale_saleProceeds sale_capitalGain].
  repeat (split; [reflexivity|]).
  reflexivity.
Qed.

(** ** The transactions trail *)

(** A SELL never reaches [this.transactions.push(transaction)]: the trail is
    the same after the call, whether it succeeds or throws. *)
Lemma sell_appends_no_transaction
    (now : Date) (type symbol : string) (quantity price : Q) (date : Date)
    (feePercent : option Q) (st : Ledger) :
  toUpperCase type = "SELL"%string ->
  getTransactions (stateAfter (addTransaction now type symbol quantity price date feePercent) st)
  = getTransactions st.
Proof.
  intros Ht. unfold stateAfter.
  rewrite (addTransaction_sell _ _ _ _ _ _ _ _ Ht), processSell_run.
  destruct (holdings st !! _) as [[|lot lots]|]; try reflexivity.
  destruct (JSNumber.ltb _ _); reflexivity.
Qed.

(** A BUY always appends its record, numbered one past the length of the
    trail. *)
Lemma buy_appends_transaction
    (now : Date) (type symbol : string) (quantity price : Q) (date : Date)
    (feePercent : option Q) (st : Ledger) :
  toUpperCase type = "BUY"%string ->
  exists t,
    outcomeOf (addTransaction now type symbol quantity price date feePercent) st =
      Returned (TransactionRecord t) /\
    tx_id t = (Z.of_nat (length (getTransactions st)) + 1)%Z /\
    getTransactions
      (stateAfter (addTransaction now type symbol quantity price date feePercent) st)
    = getTransactions st ++ [t].
Proof.
  intros Ht. unfold outcomeOf, stateAfter.
  rewrite (addTransaction_buy_run _ _ _ _ _ _ _ _ Ht). cbn [fst snd].
  eexists. split; [reflexivity|]. split; [reflexivity|].
  destruct (rejectedBuy _); reflexivity.
Qed.

(** C2 (the code departs from the claim).  On the ledger of the worked
    example the SELL of 150 OGDC succeeds and appends a realized sale, but
    the audit trail returned by [getTransactions] is left as it was: it
    holds the two BUY records, numbered 1 and 2, and no record of the
    SELL. *)
Theorem sell_is_missing_from_transactions :
  let before := twoPurchases (mkDate 2024 1 1) in
  let sell := sellOfExample (mkDate 2024 1 1) in
  succeeded (outcomeOf sell before) = true /\
  length (getRealizedGains (stateAfter sell before)) =
    S (length (getRealizedGains before)) /\
  getTransactions (stateAfter sell before) = getTransactions before /\
  List.map (fun t => (tx_id t, tx_type t)) (getTransactions (stateAfter sell before)) =
    [(1%Z, "BUY"%string); (2%Z, "BUY"%string)].
Proof. vm_compute. repeat split. Qed.

(** ** Invalid BUY input *)

Section InvalidBuy.

Local Open Scope Q_scope.

Lemma normalizeFeePercent_nonneg (feePercent : option Q) :
  0 <= _normalizeFeePercent feePercent.
Proof.
  unfold _normalizeFeePercent. destruct feePercent as [n|]; [|vm_compute; discriminate].
  destruct (JSNumber.ltb n 0) eqn:E; [vm_compute; discriminate|].
  apply ltb_false in E. exact E.
Qed.

Lemma normalizeFeePercent_idem (feePercent : option Q) :
  _normalizeFeePercent (Some (_normalizeFeePercent feePercent)) =
  _normalizeFeePercent feePercent.
Proof.
  unfold _normalizeFeePercent at 1.
  pose proof (normalizeFeePercent_nonneg feePercent) as H.
  apply ltb_false in H. rewrite H. reflexivity.
Qed.

(** The net price of a BUY: the quoted price inflated by the fee. *)
Lemma buy_adjustedPrice (price : Q) (feePercent : option Q) :
  _getAdjustedPrice "BUY" price (Some (_normalizeFeePercent feePercent)) ==
  price * (1 + _normalizeFeePercent feePercent / 100).
Proof.
  unfold _getAdjustedPrice. rewrite normalizeFeePercent_idem.
  cbn [String.eqb Ascii.eqb Bool.eqb]. cbn match. rewrite orZero_eq. reflexivity.
Qed.

(** The net price has the sign of the quoted price. *)
Lemma buy_adjustedPrice_nonpos (price : Q) (feePercent : option Q) :
  price <= 0 ->
  _getAdjustedPrice "BUY" price (Some (_normalizeFeePercent feePercent)) <= 0.
Proof.
  intros Hp. rewrite buy_adjustedPrice.
  pose proof (normalizeFeePercent_nonneg feePercent) as Hf.
  assert (0 <= _normalizeFeePercent feePercent / 100) as Hpct.
  { apply Qle_shift_div_l; [reflexivity | lra]. }
  nra.
Qed.

Lemma buy_adjustedPrice_pos (price : Q) (feePercent : option Q) :
  0 < price ->
  0 < _getAdjustedPrice "BUY" price (Some (_normalizeFeePercent feePercent)).
Proof.
  intros Hp. rewrite buy_adjustedPrice.
  pose proof (normalizeFeePercent_nonneg feePercent) as Hf.
  assert (0 <= _normalizeFeePercent feePercent / 100) as Hpct.
  { apply Qle_shift_div_l; [reflexivity | lra]. }
  nra.
Qed.

Lemma rejectedBuy_invalid (now : Date) (symbol : string) (quantity price : Q)
    (date : Date) (feePercent : option Q) (n : nat) :
  quantity <= 0 \/ price <= 0 ->
  rejectedBuy (transactionRecord now "BUY" symbol quantity price date feePercent n) = true.
Proof.
  intros H. unfold rejectedBuy.
  cbn [tx_symbol tx_quantity tx_adjustedPrice transactionRecord].
  destruct H as [H|H].
  - assert (JSNumber.leb (JSNumber.orZero quantity) 0 = true) as ->.
    { apply leb_true. rewrite orZero_eq. exact H. }
    rewrite orb_true_r. reflexivity.
  - assert (JSNumber.leb
              (JSNumber.orZero
                 (_getAdjustedPrice "BUY" price (Some (_normalizeFeePercent feePercent)))) 0
            = true) as ->.
    { apply leb_true. rewrite orZero_eq. apply buy_adjustedPrice_nonpos, H. }
    apply orb_true_r.
Qed.

Lemma rejectedBuy_valid (now : Date) (symbol : string) (quantity price : Q)
    (date : Date) (feePercent : option Q) (n : nat) :
  toUpperCase symbol <> ""%string -> 0 < quantity -> 0 < price ->
  rejectedBuy (transactionRecord now "BUY" symbol quantity price date feePercent n) = false.
Proof.
  intros Hs Hq Hp. unfold rejectedBuy.
  cbn [tx_symbol tx_quantity tx_adjustedPrice transactionRecord].
  apply orb_false_iff. split; [apply orb_false_iff; split|].
  - apply String.eqb_neq, Hs.
  - apply leb_false. rewrite orZero_eq. exact Hq.
  - apply leb_false. rewrite orZero_eq. apply buy_adjustedPrice_pos, Hp.
Qed.

End InvalidBuy.

(** C5, as the code has it.  A BUY whose quantity or price is not positive
    does not fail: [_processBuy] logs the rejection and returns, and
    [addTransaction] returns the transaction record as for any BUY.  No lot
    is created: the holdings (raw and as reported by [getHoldings]) and the
    realized gains are those of before the call. *)
Theorem invalid_buy_returns_and_creates_no_lot
    (now : Date) (type symbol : string) (quantity price : Q) (date : Date)
    (feePercent : option Q) (st : Ledger) :
  toUpperCase type = "BUY"%string ->
  (quantity <= 0)%Q \/ (price <= 0)%Q ->
  let call := addTransaction now type symbol quantity price date feePercent in
  (exists t, outcomeOf call st = Returned (TransactionRecord t) /\
             tx_quantity t = quantity /\ tx_price t = price) /\
  holdings (stateAfter call st) = holdings st /\
  getHoldings (stateAfter call st) = getHoldings st /\
  getRealizedGains (stateAfter call st) = getRealizedGains st.
Proof.
  intros Ht Hbad call. subst call. unfold outcomeOf, stateAfter.
  rewrite (addTransaction_buy_run _ _ _ _ _ _ _ _ Ht). cbn [fst snd].
  rewrite (rejectedBuy_invalid _ _ _ _ _ _ _ Hbad).
  split; [eexists; repeat split|]. repeat split.
Qed.

Lemma invalid_buy_witness :
  toUpperCase "buy" = "BUY"%string /\
  ((-5 <= 0)%Q \/ (100 <= 0)%Q) /\
  let call := addTransaction 0 "buy" "OGDC" (-5) 100 (mkDate 2024 1 1) None in
  (exists t, outcomeOf call constructor = Returned (TransactionRecord t) /\
             tx_quantity t = (-5)%Q /\ tx_price t = 100%Q) /\
  holdings (stateAfter call constructor) = holdings constructor /\
  getHoldings (stateAfter call constructor) = getHoldings constructor /\
  getRealizedGains (stateAfter call constructor) = getRealizedGains constructor.
Proof.
  split; [reflexivity|]. split; [left; vm_compute; discriminate|].
  apply (invalid_buy_returns_and_creates_no_lot 0 "buy" "OGDC" (-5) 100 (mkDate 2024 1 1)
           None constructor).
  - reflexivity.
  - left. vm_compute. discriminate.
Defined.

(** C5, as stated, fails: a BUY of -5 shares is answered by a normal return,
    not by an error, and its record is appended to the audit trail. *)
Lemma invalid_buy_is_not_refused :
  let call := addTransaction 0 "BUY" "OGDC" (-5) 100 (mkDate 2024 1 1) None in
  succeeded (outcomeOf call constructor) = true /\
  List.map (fun t => (tx_id t, tx_type t, tx_quantity t))
    (getTransactions (stateAfter call constructor)) = [(1%Z, "BUY"%string, (-5)%Q)].
Proof. vm_compute. split; reflexivity. Qed.

(** ** Export and import *)

(** C1 (the code departs from the claim).  [importData(exportData())] on the
    ledger of the worked example keeps [getHoldings] and [getTransactions],
    but not [getRealizedGains]: the cost per share of each lot consumption
    record is multiplied once more by 1 + fee (100.5 becomes 101.0025, 120.6
    becomes 121.203), so the total cost basis of the sale moves from 16080 to
    16160.4 and its capital gain from 6307.5 to 6227.1. *)
Theorem roundTrip_changes_realized_gains :
  let before := ledgerOfExample in
  let after := roundTrip 0 before in
  getHoldings after = getHoldings before /\
  getTransactions after = getTransactions before /\
  Forall2 Qeq (List.map sale_totalCostBasis (getRealizedGains before)) [16080%Q] /\
  Forall2 Qeq (List.map sale_totalCostBasis (getRealizedGains after)) [16160.4%Q] /\
  Forall2 Qeq (List.map sale_capitalGain (getRealizedGains before)) [6307.5%Q] /\
  Forall2 Qeq (List.map sale_capitalGain (getRealizedGains after)) [6227.1%Q] /\
  Forall2 Qeq (List.map sale_saleProceeds (getRealizedGains after)) [22387.5%Q] /\
  Forall2 Qeq
    (List.map use_costPerShare (concat (List.map sale_lotsUsed (getRealizedGains before))))
    [100.5%Q; 120.6%Q] /\
  Forall2 Qeq
    (List.map use_costPerShare (concat (List.map sale_lotsUsed (getRealizedGains after))))
    [101.0025%Q; 121.203%Q] /\
  getRealizedGains after <> getRealizedGains before.
Proof.
  vm_compute.
  repeat (split; [first [reflexivity | repeat constructor]|]).
  discriminate.
Qed.

(** ** FIFO consumption *)

Section Fifo.

Local Open Scope Q_scope.

Variable settlementDate : Date.

(** The loop walks a prefix of the lots: it empties the lots of [full] one
    after the other, then takes [q] from [last], and never looks at [rest]. *)
Lemma consumeLots_prefix (lots : list Lot) (v : SellLoop) :
  positiveLots lots ->
  0 < loop_remainingToSell v ->
  loop_remainingToSell v <= totalAvailable lots ->
  exists (full : list Lot) (last : Lot) (q : Q) (rest : list Lot),
    lots = full ++ last :: rest /\
    0 < q /\ q <= lot_remainingQuantity last /\
    totalAvailable full + q == loop_remainingToSell v /\
    fst (consumeLots settlementDate lots v) =
      List.map emptied full ++ takeFromLot last q :: rest /\
    loop_lotsUsed (snd (consumeLots settlementDate lots v)) =
      loop_lotsUsed v ++ List.map (wholeUsage settlementDate) full ++
        [lotUsage settlementDate last q].
Proof.
  revert v. induction lots as [|lot lots IH]; intros v Hpos Hr Hle.
  - unfold totalAvailable in Hle. cbn in Hle. lra.
  - rewrite totalAvailable_cons in Hle.
    pose proof (Forall_inv Hpos) as Hlot. cbn beta in Hlot.
    pose proof (Forall_inv_tail Hpos) as Hlots.
    cbn [consumeLots]. rewrite (proj2 (ltb_true _ _) Hr).
    destruct (min_cases (lot_remainingQuantity lot) (loop_remainingToSell v))
      as [[Hm ->]|[Hm ->]].
    + rewrite (proj2 (ltb_true _ _) Hlot).
      destruct (Qlt_le_dec 0 (loop_remainingToSell v - lot_remainingQuantity lot))
        as [Hmore|Hdone].
      * match goal with |- context [consumeLots settlementDate lots ?w] =>
          destruct (IH w Hlots) as (full & last & q & rest & Hl & Hq & Hql & Hsum & Hf & Hu);
            [exact Hmore | cbn; lra | destruct (consumeLots settlementDate lots w) as [l' v']]
        end.
        subst lots. cbn [fst snd] in *. exists (lot :: full), last, q, rest.
        split; [reflexivity|]. split; [exact Hq|]. split; [exact Hql|].
        split; [cbn [app]; rewrite totalAvailable_cons; cbn in Hsum; lra|].
        split; [rewrite Hf; reflexivity|].
        rewrite Hu. cbn [loop_lotsUsed List.map app]. rewrite <- app_assoc. reflexivity.
      * rewrite consumeLots_stop by (cbn; exact Hdone). cbn [fst snd].
        exists [], lot, (lot_remainingQuantity lot), lots.
        split; [reflexivity|]. split; [exact Hlot|]. split; [apply Qle_refl|].
        split; [unfold totalAvailable; cbn in *; lra|].
        split; reflexivity.
    + rewrite (proj2 (ltb_true _ _) Hr).
      rewrite consumeLots_stop by (cbn; lra). cbn [fst snd].
      exists [], lot, (loop_remainingToSell v), lots.
      split; [reflexivity|]. split; [exact Hr|]. split; [apply Qlt_le_weak, Hm|].
      split; [unfold totalAvailable; cbn; lra|].
      split; reflexivity.
Qed.

Lemma survivingLots_positive (lots : list Lot) : positiveLots (survivingLots lots).
Proof.
  unfold positiveLots, survivingLots. apply List.Forall_forall. intros lot Hin.
  apply List.filter_In in Hin. destruct Hin as [_ H]. apply ltb_true, H.
Qed.

Lemma survivingLots_of_positive (lots : list Lot) :
  positiveLots lots -> survivingLots lots = lots.
Proof.
  induction 1 as [|lot lots Hlot _ IH]; [reflexivity|].
  unfold survivingLots in *. cbn [List.filter].
  rewrite (proj2 (ltb_true _ _) Hlot), IH. reflexivity.
Qed.

Lemma survivingLots_emptied (lots : list Lot) :
  survivingLots (List.map emptied lots) = [].
Proof.
  induction lots as [|lot lots IH]; [reflexivity|].
  unfold survivingLots in *. cbn [List.map List.filter].
  assert (JSNumber.ltb 0 (lot_remainingQuantity (emptied lot)) = false) as ->.
  { apply ltb_false. cbn. lra. }
  exact IH.
Qed.

Lemma survivingLots_prefix (full : list Lot) (last : Lot) (q : Q) (rest : list Lot) :
  positiveLots rest ->
  survivingLots (List.map emptied full ++ takeFromLot last q :: rest) =
    remainderOf last q ++ rest.
Proof.
  intros Hrest. unfold survivingLots. rewrite List.filter_app.
  fold (survivingLots (List.map emptied full)). rewrite survivingLots_emptied.
  cbn [app List.filter]. fold (survivingLots rest).
  rewrite (survivingLots_of_positive rest Hrest).
  unfold remainderOf.
  destruct (JSNumber.ltb q (lot_remainingQuantity last)) eqn:E.
  - apply ltb_true in E.
    assert (JSNumber.ltb 0 (lot_remainingQuantity (takeFromLot last q)) = true) as ->;
      [apply ltb_true; cbn; lra | reflexivity].
  - apply ltb_false in E.
    assert (JSNumber.ltb 0 (lot_remainingQuantity (takeFromLot last q)) = false) as ->;
      [apply ltb_false; cbn; lra | reflexivity].
Qed.

Lemma totalAvailable_emptied (lots : list Lot) : totalAvailable (List.map emptied lots) == 0.
Proof.
  induction lots as [|lot lots IH]; [reflexivity|].
  cbn [List.map]. rewrite totalAvailable_cons, IH. cbn. lra.
Qed.


End Fifo.

(** ** Sequences of orders *)

Section Conservation.

Local Open Scope Q_scope.

Lemma lotsOf_setLots (st : Ledger) (symbol symbol' : string) (lots : list Lot) :
  lotsOf (setLots symbol lots st) symbol' =
    if String.eqb symbol symbol' then lots else lotsOf st symbol'.
Proof.
  unfold lotsOf, setLots. cbn [holdings].
  destruct (String.eqb_spec symbol symbol') as [->|Hne].
  - rewrite lookup_insert_eq. reflexivity.
  - rewrite lookup_insert_ne by exact Hne. reflexivity.
Qed.

Lemma lotsOf_pushTransaction (st : Ledger) (t : Transaction) (symbol : string) :
  lotsOf (pushTransaction t st) symbol = lotsOf st symbol.
Proof. reflexivity. Qed.

Lemma positiveLots_app (l1 l2 : list Lot) :
  positiveLots l1 -> positiveLots l2 -> positiveLots (l1 ++ l2).
Proof. unfold positiveLots. intros H1 H2. apply List.Forall_app. split; assumption. Qed.


(** A valid BUY appends one lot, holding the quantity bought, at the tail of
    its symbol's lots. *)
Lemma valid_buy_step (o : Order) (st : Ledger) :
  validBuy o ->
  let t := transactionRecord (ord_now o) "BUY" (ord_symbol o) (ord_quantity o) (ord_price o)
             (ord_date o) (ord_feePercent o) (length (transactions st)) in
  outcomeOf (place o) st = Returned (TransactionRecord t) /\
  (forall symbol,
     lotsOf (stateAfter (place o) st) symbol =
       if onSymbol symbol o then lotsOf st symbol ++ [lotOf t] else lotsOf st symbol) /\
  lot_remainingQuantity (lotOf t) == ord_quantity o /\
  lot_purchaseDate (lotOf t) = calculateSettlementDate (ord_date o) /\
  transactions (stateAfter (place o) st) = transactions st ++ [t] /\
  realizedGains (stateAfter (place o) st) = realizedGains st.
Proof.
  intros (Hb & Hs & Hq & Hp) t. unfold isBuy in Hb. apply String.eqb_eq in Hb.
  unfold outcomeOf, stateAfter, place.
  subst t. rewrite (addTransaction_buy_run _ _ _ _ _ _ _ _ Hb). cbn zeta.
  rewrite rejectedBuy_valid by assumption. cbn [fst snd].
  split; [reflexivity|]. split; [|split; [|split; [|split]]].
  - intros symbol. rewrite lotsOf_pushTransaction, lotsOf_setLots.
    unfold onSymbol. cbn [tx_symbol transactionRecord].
    destruct (String.eqb_spec (toUpperCase (ord_symbol o)) symbol) as [->|]; reflexivity.
  - cbn. apply orZero_eq.
  - reflexivity.
  - reflexivity.
  - reflexivity.
Qed.

End Conservation.

Section SellStep.

Local Open Scope Q_scope.

(** A successful SELL on positive lots, in full: which lots it consumed,
    what it recorded and what it left. *)
Lemma successful_sell_step (o : Order) (st : Ledger) (r : SaleResult) :
  isSell o = true ->
  0 < ord_quantity o ->
  positiveLots (lotsOf st (toUpperCase (ord_symbol o))) ->
  outcomeOf (place o) st = Returned (SaleRecord r) ->
  let settlementDate := calculateSettlementDate (ord_date o) in
  exists (full : list Lot) (last : Lot) (q : Q) (rest : list Lot),
    lotsOf st (toUpperCase (ord_symbol o)) = full ++ last :: rest /\
    0 < q /\ q <= lot_remainingQuantity last /\
    totalAvailable full + q == ord_quantity o /\
    sale_lotsUsed r =
      List.map (wholeUsage settlementDate) full ++ [lotUsage settlementDate last q] /\
    (forall symbol,
       lotsOf (stateAfter (place o) st) symbol =
         if onSymbol symbol o then remainderOf last q ++ rest else lotsOf st symbol) /\
    transactions (stateAfter (place o) st) = transactions st /\
    realizedGains (stateAfter (place o) st) = realizedGains st ++ [r].
Proof.
  intros Hs Hq Hpos Hout sd. unfold isSell in Hs. apply String.eqb_eq in Hs.
  unfold place in *.
  rewrite (sell_state _ _ _ _ _ _ _ _ _ Hs Hout).
  rewrite (sell_outcome _ _ _ _ _ _ _ _ Hs) in Hout. cbn zeta in Hout.
  destruct (lotsOf st (toUpperCase (ord_symbol o))) as [|lot lots] eqn:El; [discriminate|].
  destruct (JSNumber.ltb (totalAvailable (lot :: lots)) (ord_quantity o)) eqn:E;
    [discriminate|].
  apply ltb_false in E.
  destruct (consumeLots_prefix (calculateSettlementDate (ord_date o)) (lot :: lots)
              (startOfLoop (ord_quantity o)) Hpos Hq E)
    as (full & last & q & rest & Hl & Hq0 & Hql & Hsum & Hf & Hu).
  destruct (consumeLots (calculateSettlementDate (ord_date o)) (lot :: lots)
              (startOfLoop (ord_quantity o))) as [lots' v].
  cbn [fst snd] in *. injection Hout as <-.
  exists full, last, q, rest.
  split; [exact Hl|]. split; [exact Hq0|]. split; [exact Hql|].
  split; [exact Hsum|]. split; [exact Hu|].
  split; [|split; reflexivity].
  intros symbol. unfold lotsOf at 1, onSymbol. cbn [holdings].
  destruct (String.eqb_spec (toUpperCase (ord_symbol o)) symbol) as [<-|Hne].
  - rewrite lookup_insert_eq. cbn [default from_option id]. rewrite Hf.
    apply survivingLots_prefix.
    rewrite Hl in Hpos. apply List.Forall_app in Hpos. destruct Hpos as [_ Hpos].
    exact (Forall_inv_tail Hpos).
  - rewrite lookup_insert_ne by exact Hne. reflexivity.
Qed.

(** What a SELL returns when it returns. *)
Lemma sell_returns_sale (o : Order) (st : Ledger) :
  isSell o = true ->
  succeeded (outcomeOf (place o) st) = true ->
  exists r, outcomeOf (place o) st = Returned (SaleRecord r).
Proof.
  intros Hs. unfold isSell in Hs. apply String.eqb_eq in Hs. unfold place.
  rewrite (sell_outcome _ _ _ _ _ _ _ _ Hs). cbn zeta.
  destruct (lotsOf st _) as [|lot lots]; [discriminate|].
  destruct (JSNumber.ltb _ _); [discriminate|]. eauto.
Qed.






Lemma runOrders_cons (o : Order) (orders : list Order) (st : Ledger) :
  ledgerAfter (o :: orders) st = ledgerAfter orders (stateAfter (place o) st) /\
  allSucceeded (o :: orders) st =
    succeeded (outcomeOf (place o) st) && allSucceeded orders (stateAfter (place o) st).
Proof.
  unfold ledgerAfter, allSucceeded, stateAfter, outcomeOf. cbn [runOrders].
  destruct (place o st) as [out st']. cbn [fst snd].
  destruct (runOrders orders st') as [outs st'']. split; reflexivity.
Qed.


(** What [getHoldings] reports for a symbol whose lots are positive: their
    total, or nothing when there is no lot. *)
Lemma getHoldings_total (st : Ledger) (symbol : string) :
  positiveLots (lotsOf st symbol) ->
  match getHoldings st !! symbol with
  | Some summary =>
      hs_totalQuantity summary == totalAvailable (lotsOf st symbol) /\
      0 < hs_totalQuantity summary
  | None => lotsOf st symbol = []
  end.
Proof.
  unfold getHoldings, lotsOf. rewrite lookup_omap.
  destruct (holdings st !! symbol) as [lots|]; cbn [default from_option id mbind option_bind];
    [|reflexivity].
  intros Hpos. unfold summarizeLots.
  assert (List.filter (fun lot => negb (JSNumber.leb (lot_remainingQuantity lot) 0)) lots
          = lots) as ->.
  { induction Hpos as [|lot lots Hlot _ IH]; [reflexivity|]. cbn [List.filter].
    rewrite (proj2 (leb_false _ _) Hlot), IH. reflexivity. }
  assert (fold_left (fun sum lot => sum + JSNumber.orZero (lot_remainingQuantity lot)) lots 0
          == totalAvailable lots) as Htotal.
  { rewrite totalAvailable_sumQ, (fold_left_map_Qplus (fun lot => JSNumber.orZero _)).
    fold (sumQ (List.map (fun lot => JSNumber.orZero (lot_remainingQuantity lot)) lots)).
    clear Hpos. induction lots as [|lot lots IH]; [reflexivity|].
    cbn [List.map]. rewrite !sumQ_cons, IH, orZero_eq. reflexivity. }
  destruct (JSNumber.ltb 0 _) eqn:E.
  - apply ltb_true in E. cbn [hs_totalQuantity]. split; [exact Htotal | exact E].
  - apply ltb_false in E. rewrite Htotal in E.
    destruct Hpos as [|lot lots Hlot Hpos]; [reflexivity|]. exfalso.
    rewrite totalAvailable_cons in E.
    assert (0 <= totalAvailable lots); [|lra].
    clear E Htotal. induction Hpos as [|l ls Hl _ IH]; [apply Qle_refl|].
    rewrite totalAvailable_cons. lra.
Qed.

End SellStep.

(** ** Conservation *)




(** ** FIFO order *)

Section FifoOrder.

Local Open Scope Q_scope.

(** BUYs on a symbol queue up their lots, one per BUY, in the order they are
    entered. *)
Lemma buys_build_lots (symbol : string) (buys : list Order) (st : Ledger) :
  Forall (validBuyOf symbol) buys ->
  exists lots,
    lotsOf (ledgerAfter buys st) symbol = lotsOf st symbol ++ lots /\
    List.map lot_purchaseDate lots =
      List.map (fun o => calculateSettlementDate (ord_date o)) buys /\
    Forall2 (fun lot o => lot_remainingQuantity lot == ord_quantity o) lots buys.
Proof.
  revert st. induction buys as [|o buys IH]; intros st Hvalid.
  - exists []. rewrite app_nil_r. repeat split. constructor.
  - destruct (Forall_inv Hvalid) as [Hb Hs].
    destruct (valid_buy_step o st Hb) as (_ & Hlots & Hrem & Hdate & _).
    destruct (IH (stateAfter (place o) st) (Forall_inv_tail Hvalid))
      as (lots & Hl & Hd & Hq).
    destruct (runOrders_cons o buys st) as [-> _].
    rewrite Hl, Hlots. unfold onSymbol. rewrite Hs, String.eqb_refl.
    eexists (_ :: lots). rewrite <- app_assoc. split; [reflexivity|].
    split; [cbn [List.map]; rewrite Hdate, Hd; reflexivity|].
    constructor; assumption.
Qed.

Lemma totalAvailable_of_buys (lots : list Lot) (buys : list Order) :
  Forall2 (fun lot o => lot_remainingQuantity lot == ord_quantity o) lots buys ->
  totalAvailable lots == sumQ (List.map ord_quantity buys).
Proof.
  induction 1 as [|lot o lots buys Hq _ IH]; [reflexivity|].
  cbn [List.map]. rewrite totalAvailable_cons, sumQ_cons, IH, Hq. reflexivity.
Qed.

Lemma positiveLots_of_buys (symbol : string) (lots : list Lot) (buys : list Order) :
  Forall (validBuyOf symbol) buys ->
  Forall2 (fun lot o => lot_remainingQuantity lot == ord_quantity o) lots buys ->
  positiveLots lots.
Proof.
  intros Hvalid H. induction H as [|lot o lots buys Hq _ IH]; [constructor|].
  destruct (Forall_inv Hvalid) as [(_ & _ & Hpos & _) _].
  constructor; [rewrite Hq; exact Hpos | exact (IH (Forall_inv_tail Hvalid))].
Qed.

Lemma sell_succeeds (o : Order) (st : Ledger) :
  isSell o = true ->
  0 < ord_quantity o ->
  ord_quantity o <= totalAvailable (lotsOf st (toUpperCase (ord_symbol o))) ->
  exists r, outcomeOf (place o) st = Returned (SaleRecord r).
Proof.
  intros Hs Hq Hle. apply sell_returns_sale; [exact Hs|].
  unfold isSell in Hs. apply String.eqb_eq in Hs. unfold place.
  rewrite (sell_outcome _ _ _ _ _ _ _ _ Hs). cbn zeta.
  destruct (lotsOf st _) as [|lot lots].
  - exfalso. unfold totalAvailable in Hle. cbn in Hle. lra.
  - rewrite (proj2 (ltb_false _ _) Hle). reflexivity.
Qed.

(** In a list sorted by date, what comes first is not younger than what
    comes after. *)
Lemma sorted_app_le (l1 l2 : list Z) (x y : Z) :
  StronglySorted Z.le (l1 ++ l2) -> List.In x l1 -> List.In y l2 -> (x <= y)%Z.
Proof.
  induction l1 as [|a l1 IH]; intros Hs Hx Hy; [destruct Hx|].
  cbn [app] in Hs. apply StronglySorted_inv in Hs. destruct Hs as [Hs Ha].
  destruct Hx as [<-|Hx]; [|exact (IH Hs Hx Hy)].
  rewrite List.Forall_forall in Ha. apply Ha, List.in_or_app. right. exact Hy.
Qed.

Lemma sorted_head_le (a : Z) (l : list Z) (y : Z) :
  StronglySorted Z.le (a :: l) -> List.In y (a :: l) -> (a <= y)%Z.
Proof.
  intros Hs Hy. apply StronglySorted_inv in Hs. destruct Hs as [_ Ha].
  destruct Hy as [<-|Hy]; [lia|].
  rewrite List.Forall_forall in Ha. apply Ha, Hy.
Qed.

(** The records of a walk over [full ++ last :: rest] carry the purchase
    dates of [full ++ [last]], what is left those of [last :: rest]. *)
Lemma consumed_before_surviving (settlementDate : Date) (full : list Lot) (last : Lot)
    (q : Q) (rest : list Lot) (u : LotUsed) (l : Lot) :
  StronglySorted Z.le (List.map lot_purchaseDate (full ++ last :: rest)) ->
  List.In u (List.map (wholeUsage settlementDate) full ++ [lotUsage settlementDate last q]) ->
  List.In l (remainderOf last q ++ rest) ->
  (use_purchaseDate u <= lot_purchaseDate l)%Z.
Proof.
  intros Hs Hu Hl. rewrite List.map_app in Hs. cbn [List.map] in Hs.
  assert (List.In (lot_purchaseDate l) (lot_purchaseDate last :: List.map lot_purchaseDate rest))
    as Hl'.
  { apply List.in_app_or in Hl. destruct Hl as [Hl|Hl].
    - unfold remainderOf in Hl. destruct (JSNumber.ltb _ _); [|destruct Hl].
      destruct Hl as [<-|[]]. left. reflexivity.
    - right. apply List.in_map, Hl. }
  apply List.in_app_or in Hu. destruct Hu as [Hu|[<-|[]]].
  - apply List.in_map_iff in Hu. destruct Hu as (l0 & <- & Hl0).
    cbn [use_purchaseDate wholeUsage lotUsage].
    apply (sorted_app_le _ _ _ _ Hs); [apply List.in_map, Hl0 | exact Hl'].
  - cbn [use_purchaseDate lotUsage].
    assert (StronglySorted Z.le (lot_purchaseDate last :: List.map lot_purchaseDate rest))
      as Hs'.
    { clear -Hs. induction full as [|a full IH]; [exact Hs|].
      cbn [List.map app] in Hs. apply StronglySorted_inv in Hs. apply IH, Hs. }
    exact (sorted_head_le _ _ _ Hs' Hl').
Qed.

End FifoOrder.

Lemma wholeUsage_quantities (settlementDate : Date) (full : list Lot) :
  (sumQ (List.map use_quantity (List.map (wholeUsage settlementDate) full))
   == totalAvailable full)%Q.
Proof.
  induction full as [|lot full IH]; [reflexivity|].
  cbn [List.map]. rewrite sumQ_cons, totalAvailable_cons, IH. reflexivity.
Qed.

(** X21. After any sequence of valid BUYs of a symbol on a fresh ledger, the
    symbol's lots are the BUYs' lots in the order in which the BUYs were
    entered (one lot per BUY, holding the quantity bought, dated at the
    BUY's settlement date).  A SELL of a
    positive quantity not above the total bought succeeds and walks that
    sequence from its head: it empties the lots of a prefix [full] one after
    the other, takes [q] from the next lot [last], and leaves the lots after
    it untouched; its lot consumption records are those of [full] followed
    by that of [last], in this order; every emptied lot is removed, so that
    all surviving lots hold a positive quantity; and the record quantities
    add up to the quantity sold.  If the BUYs were entered in the order of
    their settlement dates, no consumed lot settled after a surviving
    one. *)
Theorem sell_consumes_lots_in_entry_order (buys : list Order) (sell : Order) :
  Forall (validBuyOf (toUpperCase (ord_symbol sell))) buys ->
  validSell sell ->
  (ord_quantity sell <= sumQ (List.map ord_quantity buys))%Q ->
  let symbol := toUpperCase (ord_symbol sell) in
  let st := ledgerAfter buys constructor in
  let settlementDate := calculateSettlementDate (ord_date sell) in
  exists (r : SaleResult) (full : list Lot) (last : Lot) (q : Q) (rest : list Lot),
    List.map lot_purchaseDate (lotsOf st symbol) =
      List.map (fun o => calculateSettlementDate (ord_date o)) buys /\
    Forall2 (fun lot o => lot_remainingQuantity lot == ord_quantity o)%Q
      (lotsOf st symbol) buys /\
    outcomeOf (place sell) st = Returned (SaleRecord r) /\
    lotsOf st symbol = full ++ last :: rest /\
    (0 < q)%Q /\ (q <= lot_remainingQuantity last)%Q /\
    sale_lotsUsed r =
      List.map (wholeUsage settlementDate) full ++ [lotUsage settlementDate last q] /\
    lotsOf (stateAfter (place sell) st) symbol = remainderOf last q ++ rest /\
    positiveLots (lotsOf (stateAfter (place sell) st) symbol) /\
    (sumQ (List.map use_quantity (sale_lotsUsed r)) == ord_quantity sell)%Q /\
    (StronglySorted Z.le (List.map (fun o => calculateSettlementDate (ord_date o)) buys) ->
     forall u l,
       List.In u (sale_lotsUsed r) ->
       List.In l (lotsOf (stateAfter (place sell) st) symbol) ->
       (use_purchaseDate u <= lot_purchaseDate l)%Z).
Proof.
  intros Hbuys [Hs Hq] Hle symbol st sd.
  destruct (buys_build_lots symbol buys constructor Hbuys) as (lots & Hl & Hd & Hq2).
  fold st in Hl.
  assert (lotsOf constructor symbol = []) as Hnil.
  { unfold lotsOf, constructor. cbn [holdings]. rewrite lookup_empty. reflexivity. }
  rewrite Hnil in Hl. cbn [app] in Hl.
  pose proof (positiveLots_of_buys symbol lots buys Hbuys Hq2) as Hpos.
  pose proof (totalAvailable_of_buys lots buys Hq2) as Htotal.
  assert (ord_quantity sell <= totalAvailable (lotsOf st symbol))%Q as Hle'.
  { rewrite Hl, Htotal. exact Hle. }
  destruct (sell_succeeds sell st Hs Hq Hle') as (r & Hr).
  rewrite <- Hl in Hpos.
  destruct (successful_sell_step sell st r Hs Hq Hpos Hr)
    as (full & last & q & rest & Hsplit & Hq0 & Hql & Hsum & Hused & Hafter & _).
  fold sd in Hused. fold symbol in Hsplit.
  assert (lotsOf (stateAfter (place sell) st) symbol = remainderOf last q ++ rest) as Hleft.
  { rewrite Hafter. unfold onSymbol. fold symbol. rewrite String.eqb_refl. reflexivity. }
  exists r, full, last, q, rest.
  split; [rewrite Hl; exact Hd|]. split; [rewrite Hl; exact Hq2|].
  split; [exact Hr|]. split; [exact Hsplit|]. split; [exact Hq0|]. split; [exact Hql|].
  split; [exact Hused|]. split; [exact Hleft|].
  split.
  { rewrite Hleft. apply positiveLots_app.
    - unfold remainderOf. destruct (JSNumber.ltb q (lot_remainingQuantity last)) eqn:E;
        [|constructor].
      apply ltb_true in E. repeat constructor. cbn. lra.
    - rewrite Hsplit in Hpos. apply List.Forall_app in Hpos. destruct Hpos as [_ Hpos].
      exact (Forall_inv_tail Hpos). }
  split.
  { rewrite Hused, List.map_app, sumQ_app, wholeUsage_quantities. cbn [List.map].
    rewrite sumQ_cons, sumQ_nil. cbn [use_quantity lotUsage]. lra. }
  intros Hsorted u l Hu Hin. rewrite Hused in Hu. rewrite Hleft in Hin.
  apply (consumed_before_surviving sd full last q rest u l); [|exact Hu|exact Hin].
  rewrite <- Hsplit, Hl, Hd. exact Hsorted.
Qed.

(** C3 (the code departs from the claim, and from its own comments: shares
    purchased first are considered sold first, oldest first).  The lots
    of a symbol are kept and consumed in the order in which the BUYs were
    entered, and nothing sorts them: with a BUY traded on 1 March entered
    before a BUY traded on 2 January, a SELL of 50, which succeeds, takes
    its shares from the March lot (settled on 5 March), while the January
    lot (settled on 4 January, the oldest) keeps all its 100 shares. *)
Lemma sell_does_not_take_oldest_settlement_first :
  let st := ledgerAfter backdatedOrders constructor in
  succeeded (outcomeOf (place sellAfterBackdated) st) = true /\
  List.map use_purchaseDate (lotsUsedOf (outcomeOf (place sellAfterBackdated) st)) =
    [mkDate 2024 3 5] /\
  List.map (fun lot => (lot_purchaseDate lot, Qred (lot_remainingQuantity lot)))
    (lotsOf (stateAfter (place sellAfterBackdated) st) "OGDC") =
    [(mkDate 2024 3 5, 50%Q); (mkDate 2024 1 4, 100%Q)] /\
  (mkDate 2024 1 4 < mkDate 2024 3 5)%Z.
Proof. vm_compute. repeat split. Qed.

(** The orders of the worked example meet the hypotheses. *)
Lemma sell_consumes_lots_in_entry_order_witness :
  let buys := firstn 2 ordersOfExample in
  let sell := mkOrder 0 "SELL" "OGDC" 150 150 (mkDate 2025 2 4) (Some 0.5%Q) in
  Forall (validBuyOf (toUpperCase (ord_symbol sell))) buys /\
  validSell sell /\
  (ord_quantity sell <= sumQ (List.map ord_quantity buys))%Q /\
  let symbol := toUpperCase (ord_symbol sell) in
  let st := ledgerAfter buys constructor in
  let settlementDate := calculateSettlementDate (ord_date sell) in
  exists (r : SaleResult) (full : list Lot) (last : Lot) (q : Q) (rest : list Lot),
    List.map lot_purchaseDate (lotsOf st symbol) =
      List.map (fun o => calculateSettlementDate (ord_date o)) buys /\
    Forall2 (fun lot o => lot_remainingQuantity lot == ord_quantity o)%Q
      (lotsOf st symbol) buys /\
    outcomeOf (place sell) st = Returned (SaleRecord r) /\
    lotsOf st symbol = full ++ last :: rest /\
    (0 < q)%Q /\ (q <= lot_remainingQuantity last)%Q /\
    sale_lotsUsed r =
      List.map (wholeUsage settlementDate) full ++ [lotUsage settlementDate last q] /\
    lotsOf (stateAfter (place sell) st) symbol = remainderOf last q ++ rest /\
    positiveLots (lotsOf (stateAfter (place sell) st) symbol) /\
    (sumQ (List.map use_quantity (sale_lotsUsed r)) == ord_quantity sell)%Q /\
    (StronglySorted Z.le (List.map (fun o => calculateSettlementDate (ord_date o)) buys) ->
     forall u l,
       List.In u (sale_lotsUsed r) ->
       List.In l (lotsOf (stateAfter (place sell) st) symbol) ->
       (use_purchaseDate u <= lot_purchaseDate l)%Z).
Proof.
  intros buys sell.
  assert (Forall (validBuyOf (toUpperCase (ord_symbol sell))) buys) as Hbuys.
  { subst buys sell. cbn [firstn ordersOfExample].
    constructor; [split; [repeat split; first [reflexivity | discriminate] | reflexivity]|].
    constructor; [split; [repeat split; first [reflexivity | discriminate] | reflexivity]|].
    constructor. }
  assert (validSell sell) as Hsell by (split; reflexivity).
  assert (ord_quantity sell <= sumQ (List.map ord_quantity buys))%Q as Hle
      by (vm_compute; discriminate).
  split; [exact Hbuys|]. split; [exact Hsell|]. split; [exact Hle|].
  exact (sell_consumes_lots_in_entry_order buys sell Hbuys Hsell Hle).
Defined.

(** ** Identifiers of the trail *)

Section TrailIdentifiers.

(** Whatever its type, a call of [addTransaction] either leaves the trail as
    it is or appends one record numbered one past the length of the trail. *)
Lemma addTransaction_trail (now : Date) (type symbol : string) (quantity price : Q)
    (date : Date) (feePercent : option Q) (st : Ledger) :
  let st' := stateAfter (addTransaction now type symbol quantity price date feePercent) st in
  transactions st' = transactions st \/
  exists t, tx_id t = (Z.of_nat (length (transactions st)) + 1)%Z /\
            transactions st' = transactions st ++ [t].
Proof.
  cbn zeta.
  destruct (String.eqb_spec (toUpperCase type) "BUY") as [Hb|Hb].
  - right. destruct (buy_appends_transaction now type symbol quantity price date feePercent
                       st Hb) as (t & _ & Hid & Ht).
    exists t. split; assumption.
  - destruct (String.eqb_spec (toUpperCase type) "SELL") as [Hs|Hs].
    + left. apply (sell_appends_no_transaction _ _ _ _ _ _ _ _ Hs).
    + right. unfold stateAfter, addTransaction.
      apply String.eqb_neq in Hb, Hs. rewrite Hb, Hs.
      unfold bind, gets, modify, ret, pushTransaction. cbn [fst snd transactions].
      eexists. split; [|reflexivity]. reflexivity.
Qed.

Lemma sequentialIds_step (o : Order) (st : Ledger) :
  sequentialIds st -> sequentialIds (stateAfter (place o) st).
Proof.
  intros Hseq. unfold place.
  destruct (addTransaction_trail (ord_now o) (ord_type o) (ord_symbol o) (ord_quantity o)
              (ord_price o) (ord_date o) (ord_feePercent o) st) as [H|(t & Hid & H)];
    unfold sequentialIds; rewrite H; [exact Hseq|].
  rewrite List.map_app, List.length_app, Hseq. cbn [length List.map].
  rewrite Nat.add_1_r, List.seq_S, List.map_app. cbn [List.map].
  do 2 f_equal. rewrite Hid. lia.
Qed.

(** From a fresh ledger on, the transactions trail is numbered 1, 2, ...:
    identifiers increase strictly in insertion order. *)
Lemma ledgerAfter_sequentialIds (orders : list Order) (st : Ledger) :
  sequentialIds st -> sequentialIds (ledgerAfter orders st).
Proof.
  revert st. induction orders as [|o orders IH]; intros st Hseq; [exact Hseq|].
  destruct (runOrders_cons o orders st) as [-> _].
  apply IH, sequentialIds_step, Hseq.
Qed.

Lemma fresh_ledger_sequentialIds (orders : list Order) :
  sequentialIds (ledgerAfter orders constructor).
Proof. apply ledgerAfter_sequentialIds. reflexivity. Qed.

End TrailIdentifiers.

(** ** What importData does to a sale *)

Section ImportSale.

Local Open Scope Q_scope.

(** A transaction whose fee is not negative comes back from a snapshot as it
    went in. *)
Lemma importTransaction_exportTransaction (t : Transaction) :
  0 <= tx_feePercent t -> importTransaction (exportTransaction t) = t.
Proof.
  intros Hfee. destruct t. unfold importTransaction, exportTransaction. cbn in *.
  rewrite (proj2 (ltb_false _ _) Hfee). reflexivity.
Qed.

(** A lot consumption record does not: its cost per share is multiplied by
    1 + fee once more, and its cost basis follows. *)
Lemma importSale_exportSale_lotsUsed (g : SaleResult) :
  0 <= sale_feePercent g ->
  Forall2
    (fun imported original =>
       use_quantity imported = use_quantity original /\
       use_costPerShare imported ==
         use_costPerShare original * (1 + sale_feePercent g / 100) /\
       use_costBasis imported ==
         use_quantity original * (use_costPerShare original * (1 + sale_feePercent g / 100)))
    (sale_lotsUsed (importSale (exportSale g))) (sale_lotsUsed g).
Proof.
  intros Hfee. unfold importSale, exportSale.
  cbn [sale_lotsUsed sg_lotsUsed sg_feePercent default from_option id].
  rewrite (proj2 (ltb_false _ _) Hfee).
  induction (sale_lotsUsed g) as [|u l IH]; cbn [List.map]; constructor; [|exact IH].
  unfold importLotUsed. cbn [use_quantity use_costPerShare use_costBasis].
  rewrite !orZero_eq. repeat split; reflexivity.
Qed.

End ImportSale.

(** * Further properties of the ledger *)

(** ** getCostBasisForSale *)

Section CostBasisForSale.

Local Open Scope Q_scope.

(** Its loop is the loop of [calculateSale], without the holding periods. *)
Lemma costBasisLoop_simulateLots (settlementDate : Date) (lots : list Lot) (v : SellLoop) :
  costBasisLoop lots (costView v) = costView (simulateLots settlementDate lots v).
Proof.
  revert v. induction lots as [|lot rest IH]; intros v; cbn [costBasisLoop simulateLots].
  - reflexivity.
  - cbn [costView cloop_remainingToSell].
    destruct (JSNumber.ltb 0 (loop_remainingToSell v)); [|reflexivity].
    destruct (JSNumber.ltb 0 _); [|apply IH].
    rewrite <- IH. unfold costView. cbn [loop_remainingToSell loop_totalCostBasis loop_lotsUsed].
    rewrite List.map_app. reflexivity.
Qed.

Lemma getCostBasisForSale_run (symbol : string) (quantity : Q) (st : Ledger) :
  getCostBasisForSale symbol quantity st =
    (Returned
       match holdings st !! toUpperCase symbol with
       | None => {| cb_totalCost := 0; cb_avgCost := 0; cb_lots := [] |}
       | Some lots =>
           let v := costBasisLoop lots
                      {| cloop_remainingToSell := quantity; cloop_totalCost := 0;
                         cloop_lots := [] |} in
           {| cb_totalCost := cloop_totalCost v;
              cb_avgCost :=
                if JSNumber.ltb 0 quantity then cloop_totalCost v / quantity else 0;
              cb_lots := cloop_lots v |}
       end,
     st).
Proof.
  unfold getCostBasisForSale, bind, gets, ret. cbn [fst snd].
  destruct (holdings st !! toUpperCase symbol) as [lots|]; reflexivity.
Qed.

(** X1. Whenever [calculateSale] returns a simulated sale, [getCostBasisForSale]
    for the same symbol and quantity returns the same total cost and, lot for
    lot, the same quantities, costs per share, costs and purchase dates as
    the sale's lot consumption records; it leaves the ledger as it is. *)
Theorem getCostBasisForSale_matches_calculateSale
    (symbol : string) (quantity price : Q) (date : Date) (feePercent : option Q)
    (st : Ledger) (s : SaleResult) :
  outcomeOf (calculateSale symbol quantity price date feePercent) st = Returned s ->
  exists c,
    getCostBasisForSale symbol quantity st = (Returned c, st) /\
    cb_totalCost c = sale_totalCostBasis s /\
    cb_lots c = List.map costLotOf (sale_lotsUsed s).
Proof.
  unfold outcomeOf. rewrite calculateSale_run, getCostBasisForSale_run.
  destruct (holdings st !! toUpperCase symbol) as [[|lot lots]|]; cbn [fst]; try discriminate.
  destruct (JSNumber.ltb (totalAvailable (lot :: lots)) quantity); cbn [fst]; [discriminate|].
  rewrite <- simulateLots_consumeLots.
  pose proof (costBasisLoop_simulateLots (calculateSettlementDate date) (lot :: lots)
                (startOfLoop quantity)) as Hc.
  unfold costView at 1 in Hc.
  cbn [startOfLoop loop_remainingToSell loop_totalCostBasis loop_lotsUsed List.map] in Hc.
  rewrite Hc.
  destruct (simulateLots (calculateSettlementDate date) (lot :: lots) (startOfLoop quantity))
    as [r used total].
  intros [= <-]. eexists. split; [reflexivity|]. split; reflexivity.
Qed.

Lemma getCostBasisForSale_matches_calculateSale_witness :
  exists s,
    outcomeOf (calculateSale "ogdc" 150 150 (mkDate 2025 2 4) None)
      (twoPurchases (mkDate 2024 1 1)) = Returned s /\
    exists c,
      getCostBasisForSale "ogdc" 150 (twoPurchases (mkDate 2024 1 1)) =
        (Returned c, twoPurchases (mkDate 2024 1 1)) /\
      cb_totalCost c = sale_totalCostBasis s /\
      cb_lots c = List.map costLotOf (sale_lotsUsed s).
Proof.
  destruct (outcomeOf (calculateSale "ogdc" 150 150 (mkDate 2025 2 4) None)
              (twoPurchases (mkDate 2024 1 1))) as [s|e] eqn:E;
    [|vm_compute in E; discriminate].
  exists s. split; [reflexivity|].
  exact (getCostBasisForSale_matches_calculateSale "ogdc" 150 150 (mkDate 2025 2 4) None
           (twoPurchases (mkDate 2024 1 1)) s E).
Defined.

Lemma costBasisLoop_stop (lots : list Lot) (v : CostLoop) :
  cloop_remainingToSell v <= 0 -> costBasisLoop lots v = v.
Proof.
  intros H. destruct lots as [|lot rest]; cbn [costBasisLoop]; [reflexivity|].
  apply ltb_false in H. rewrite H. reflexivity.
Qed.

(** The total cost is the sum of the listed costs, and each listed cost is
    the listed quantity times the listed cost per share. *)
Lemma costBasisLoop_sum (lots : list Lot) (v : CostLoop) :
  cloop_totalCost v = sumQ (List.map cl_totalCost (cloop_lots v)) ->
  Forall (fun l => cl_totalCost l = cl_quantity l * cl_costPerShare l /\ 0 < cl_quantity l)
    (cloop_lots v) ->
  let w := costBasisLoop lots v in
  cloop_totalCost w = sumQ (List.map cl_totalCost (cloop_lots w)) /\
  Forall (fun l => cl_totalCost l = cl_quantity l * cl_costPerShare l /\ 0 < cl_quantity l)
    (cloop_lots w).
Proof.
  revert v. induction lots as [|lot rest IH]; intros v Hs Hf; cbn [costBasisLoop].
  - split; assumption.
  - destruct (JSNumber.ltb 0 (cloop_remainingToSell v)); [|split; assumption].
    destruct (JSNumber.ltb 0 _) eqn:E; [|apply IH; assumption].
    apply ltb_true in E. apply IH; cbn [cloop_totalCost cloop_lots].
    + rewrite List.map_app. unfold sumQ. rewrite fold_left_app. cbn. rewrite Hs. reflexivity.
    + apply List.Forall_app. split; [exact Hf|]. repeat constructor. exact E.
Qed.

(** X2. [getCostBasisForSale] never throws and never changes the ledger,
    also for a symbol that is not held or a quantity above the holding.
    Its total cost is the sum of the listed lots' costs, each of them the
    listed quantity (positive) times the listed cost per share.  For a
    positive quantity the average cost times the quantity asked for is the
    total cost; for a quantity that is not positive, and for a symbol
    without lots, the answer is zero cost and no lot. *)
Theorem getCostBasisForSale_total (symbol : string) (quantity : Q) (st : Ledger) :
  exists c,
    getCostBasisForSale symbol quantity st = (Returned c, st) /\
    cb_totalCost c = sumQ (List.map cl_totalCost (cb_lots c)) /\
    Forall (fun l => cl_totalCost l = cl_quantity l * cl_costPerShare l /\ 0 < cl_quantity l)
      (cb_lots c) /\
    (0 < quantity -> cb_avgCost c * quantity == cb_totalCost c) /\
    (quantity <= 0 \/ lotsOf st (toUpperCase symbol) = [] ->
     cb_totalCost c = 0 /\ cb_avgCost c == 0 /\ cb_lots c = []).
Proof.
  rewrite getCostBasisForSale_run. eexists. split; [reflexivity|].
  unfold lotsOf.
  destruct (holdings st !! toUpperCase symbol) as [lots|]; cbn [default from_option id].
  - set (v0 := {| cloop_remainingToSell := quantity; cloop_totalCost := 0; cloop_lots := [] |}).
    destruct (costBasisLoop_sum lots v0 eq_refl (List.Forall_nil _)) as [Hs Hf].
    cbn zeta. cbn [cb_totalCost cb_lots cb_avgCost].
    split; [exact Hs|]. split; [exact Hf|]. split.
    + intros Hq. rewrite (proj2 (ltb_true _ _) Hq). field. lra.
    + intros [Hq| ->].
      * rewrite (costBasisLoop_stop lots v0 Hq). cbn.
        rewrite (proj2 (ltb_false _ _) Hq). repeat split; reflexivity.
      * cbn. repeat split; try reflexivity.
        destruct (JSNumber.ltb 0 quantity); reflexivity.
  - cbn. repeat split; try reflexivity; try constructor; try (intros; lra).
Qed.

Lemma positiveLots_total_nonneg (lots : list Lot) :
  positiveLots lots -> 0 <= totalAvailable lots.
Proof.
  induction 1 as [|lot lots Hlot _ IH]; [apply Qle_refl|].
  rewrite totalAvailable_cons. lra.
Qed.

Lemma holdingCost_cons (lot : Lot) (lots : list Lot) :
  holdingCost (lot :: lots) == lot_remainingQuantity lot * lot_price lot + holdingCost lots.
Proof. unfold holdingCost. cbn [List.map]. apply sumQ_cons. Qed.

(** Asked for at least all the shares held, the loop takes every lot whole. *)
Lemma costBasisLoop_all (lots : list Lot) (v : CostLoop) :
  positiveLots lots ->
  totalAvailable lots <= cloop_remainingToSell v ->
  cloop_lots (costBasisLoop lots v) = cloop_lots v ++ List.map wholeCostLot lots /\
  cloop_totalCost (costBasisLoop lots v) == cloop_totalCost v + holdingCost lots.
Proof.
  revert v. induction lots as [|lot lots IH]; intros v Hpos Hle.
  - cbn. rewrite app_nil_r. split; [reflexivity|]. unfold holdingCost. cbn. lra.
  - pose proof (Forall_inv Hpos) as Hlot. cbn beta in Hlot.
    pose proof (Forall_inv_tail Hpos) as Hlots.
    pose proof (positiveLots_total_nonneg lots Hlots) as Hnn.
    rewrite totalAvailable_cons in Hle. cbn [costBasisLoop].
    assert (0 < cloop_remainingToSell v) as Hr by lra.
    rewrite (proj2 (ltb_true _ _) Hr).
    destruct (min_cases (lot_remainingQuantity lot) (cloop_remainingToSell v))
      as [[_ ->]|[Hm _]]; [|lra].
    rewrite (proj2 (ltb_true _ _) Hlot).
    match goal with |- context [costBasisLoop lots ?w] =>
      destruct (IH w Hlots) as [Hl Ht]; [cbn; lra|] end.
    rewrite Hl, Ht. cbn [cloop_lots cloop_totalCost List.map].
    rewrite <- app_assoc. split; [reflexivity|]. rewrite holdingCost_cons. lra.
Qed.

(** X3. Asked for a quantity at or above what the symbol holds (lots with
    positive remaining quantities), [getCostBasisForSale] does not fail as
    [calculateSale] does: it lists every lot, taken whole and in order, and
    returns the cost of the whole holding; the average cost is that cost
    divided by the quantity asked for, not by the quantity found. *)
Theorem getCostBasisForSale_beyond_holding (symbol : string) (quantity : Q) (st : Ledger) :
  positiveLots (lotsOf st (toUpperCase symbol)) ->
  lotsOf st (toUpperCase symbol) <> [] ->
  totalAvailable (lotsOf st (toUpperCase symbol)) <= quantity ->
  exists c,
    outcomeOf (getCostBasisForSale symbol quantity) st = Returned c /\
    cb_lots c = List.map wholeCostLot (lotsOf st (toUpperCase symbol)) /\
    cb_totalCost c == holdingCost (lotsOf st (toUpperCase symbol)) /\
    cb_avgCost c == holdingCost (lotsOf st (toUpperCase symbol)) / quantity.
Proof.
  unfold outcomeOf, lotsOf. rewrite getCostBasisForSale_run. cbn [fst].
  destruct (holdings st !! toUpperCase symbol) as [lots|]; cbn [default from_option id];
    [|intros _ H; contradiction].
  intros Hpos Hne Hle.
  destruct (costBasisLoop_all lots
              {| cloop_remainingToSell := quantity; cloop_totalCost := 0; cloop_lots := [] |}
              Hpos Hle) as [Hl Ht].
  cbn [cloop_lots cloop_totalCost app] in Hl, Ht.
  assert (0 < quantity) as Hq.
  { destruct Hpos as [|lot lots Hlot Hpos]; [contradiction|].
    pose proof (positiveLots_total_nonneg lots Hpos). rewrite totalAvailable_cons in Hle. lra. }
  eexists. split; [reflexivity|]. cbn zeta. cbn [cb_lots cb_totalCost cb_avgCost].
  split; [exact Hl|]. split; [rewrite Ht; lra|].
  rewrite (proj2 (ltb_true _ _) Hq), Ht. field. lra.
Qed.

Lemma getCostBasisForSale_beyond_holding_witness :
  let st := twoPurchases (mkDate 2024 1 1) in
  positiveLots (lotsOf st (toUpperCase "ogdc")) /\
  lotsOf st (toUpperCase "ogdc") <> [] /\
  totalAvailable (lotsOf st (toUpperCase "ogdc")) <= 500 /\
  exists c,
    outcomeOf (getCostBasisForSale "ogdc" 500) st = Returned c /\
    cb_lots c = List.map wholeCostLot (lotsOf st (toUpperCase "ogdc")) /\
    cb_totalCost c == holdingCost (lotsOf st (toUpperCase "ogdc")) /\
    cb_avgCost c == holdingCost (lotsOf st (toUpperCase "ogdc")) / 500.
Proof.
  intros st.
  assert (positiveLots (lotsOf st (toUpperCase "ogdc"))) as Hpos.
  { vm_compute. repeat constructor. }
  assert (lotsOf st (toUpperCase "ogdc") <> []) as Hne by (vm_compute; discriminate).
  assert (totalAvailable (lotsOf st (toUpperCase "ogdc")) <= 500) as Hle
      by (vm_compute; discriminate).
  split; [exact Hpos|]. split; [exact Hne|]. split; [exact Hle|].
  exact (getCostBasisForSale_beyond_holding "ogdc" 500 st Hpos Hne Hle).
Defined.

End CostBasisForSale.

(** ** getHoldings *)

Section Holdings.

Local Open Scope Q_scope.

Lemma getHoldings_lookup (st : Ledger) (symbol : string) :
  getHoldings st !! symbol = summarizeLots (lotsOf st symbol) \/
  (holdings st !! symbol = None /\ getHoldings st !! symbol = None).
Proof.
  unfold getHoldings, lotsOf. rewrite lookup_omap.
  destruct (holdings st !! symbol) as [lots|]; [left; reflexivity | right; split; reflexivity].
Qed.

Lemma summarizeLots_nil : summarizeLots [] = None.
Proof. reflexivity. Qed.

Lemma getHoldings_summarize (st : Ledger) (symbol : string) :
  getHoldings st !! symbol = summarizeLots (lotsOf st symbol).
Proof.
  destruct (getHoldings_lookup st symbol) as [H|[H1 H2]]; [exact H|].
  unfold lotsOf. rewrite H1, H2. reflexivity.
Qed.

Lemma sum_orZero_remaining (lots : list Lot) :
  fold_left (fun sum lot => sum + JSNumber.orZero (lot_remainingQuantity lot)) lots 0
  == totalAvailable lots.
Proof.
  rewrite totalAvailable_sumQ, (fold_left_map_Qplus (fun lot => JSNumber.orZero _)).
  fold (sumQ (List.map (fun lot => JSNumber.orZero (lot_remainingQuantity lot)) lots)).
  induction lots as [|lot lots IH]; [reflexivity|].
  cbn [List.map]. rewrite !sumQ_cons, IH, orZero_eq. reflexivity.
Qed.

Lemma sum_orZero_value (lots : list Lot) :
  fold_left
    (fun sum lot =>
       sum + JSNumber.orZero (lot_remainingQuantity lot) * JSNumber.orZero (lot_price lot))
    lots 0
  == holdingCost lots.
Proof.
  unfold holdingCost.
  rewrite (fold_left_map_Qplus (fun lot => JSNumber.orZero _ * JSNumber.orZero _)).
  fold (sumQ (List.map (fun lot => JSNumber.orZero (lot_remainingQuantity lot)
                                   * JSNumber.orZero (lot_price lot)) lots)).
  induction lots as [|lot lots IH]; [reflexivity|].
  cbn [List.map]. rewrite !sumQ_cons, IH, !orZero_eq. reflexivity.
Qed.

Lemma positiveLots_total_pos (lots : list Lot) :
  positiveLots lots -> lots <> [] -> 0 < totalAvailable lots.
Proof.
  intros Hpos Hne. destruct Hpos as [|lot lots Hlot Hpos]; [contradiction|].
  pose proof (positiveLots_total_nonneg lots Hpos). rewrite totalAvailable_cons. lra.
Qed.

(** The lots [getHoldings] keeps are those [_processSell] would keep. *)
Lemma summarizeLots_valid (lots : list Lot) :
  List.filter (fun lot => negb (JSNumber.leb (lot_remainingQuantity lot) 0)) lots
  = survivingLots lots.
Proof. reflexivity. Qed.

(** X4. Whatever the ledger holds, a summary reported by [getHoldings] is
    consistent: its lots are the symbol's lots of positive remaining
    quantity, in order; the total quantity is positive and is the sum of the
    reported lot quantities; the total cost basis is the sum of the reported
    lot values, each the lot's quantity times its price; and the average
    cost times the total quantity is the total cost basis. *)
Theorem getHoldings_summary_consistent (st : Ledger) (symbol : string)
    (summary : HoldingSummary) :
  getHoldings st !! symbol = Some summary ->
  0 < hs_totalQuantity summary /\
  hs_totalQuantity summary = sumQ (List.map hl_quantity (hs_lots summary)) /\
  hs_totalCostBasis summary = sumQ (List.map hl_value (hs_lots summary)) /\
  hs_averageCost summary * hs_totalQuantity summary == hs_totalCostBasis summary /\
  List.map hl_purchaseDate (hs_lots summary) =
    List.map lot_purchaseDate (survivingLots (lotsOf st symbol)) /\
  Forall2 (fun reported lot =>
             hl_quantity reported == lot_remainingQuantity lot /\
             hl_price reported == lot_price lot)
    (hs_lots summary) (survivingLots (lotsOf st symbol)) /\
  Forall (fun reported =>
            0 < hl_quantity reported /\
            hl_remainingQuantity reported = hl_quantity reported /\
            hl_value reported = hl_quantity reported * hl_price reported)
    (hs_lots summary).
Proof.
  rewrite getHoldings_summarize. unfold summarizeLots. rewrite summarizeLots_valid.
  pose proof (survivingLots_positive (lotsOf st symbol)) as Hpos.
  set (valid := survivingLots (lotsOf st symbol)) in *.
  destruct (JSNumber.ltb 0 _) eqn:E; [|discriminate].
  apply ltb_true in E. intros [= <-].
  cbn [hs_totalQuantity hs_totalCostBasis hs_averageCost hs_lots].
  split; [exact E|].
  split. { rewrite List.map_map. cbn [hl_quantity].
           apply (fold_left_map_Qplus (fun lot => JSNumber.orZero _)). }
  split. { rewrite List.map_map. cbn [hl_value].
           apply (fold_left_map_Qplus (fun lot => JSNumber.orZero _ * JSNumber.orZero _)). }
  split. { field. lra. }
  split. { rewrite List.map_map. reflexivity. }
  split.
  - clear E. induction valid as [|lot valid IH]; cbn [List.map]; constructor.
    + cbn [hl_quantity hl_price]. rewrite !orZero_eq. split; reflexivity.
    + apply IH. exact (Forall_inv_tail Hpos).
  - clear E. induction valid as [|lot valid IH]; cbn [List.map]; constructor.
    + cbn [hl_quantity hl_remainingQuantity hl_value hl_price].
      split; [rewrite orZero_eq; exact (Forall_inv Hpos)|]. split; reflexivity.
    + apply IH. exact (Forall_inv_tail Hpos).
Qed.

Lemma getHoldings_summary_consistent_witness :
  exists summary,
    getHoldings ledgerOfExample !! "OGDC"%string = Some summary /\
    0 < hs_totalQuantity summary /\
    hs_totalQuantity summary = sumQ (List.map hl_quantity (hs_lots summary)) /\
    hs_totalCostBasis summary = sumQ (List.map hl_value (hs_lots summary)) /\
    hs_averageCost summary * hs_totalQuantity summary == hs_totalCostBasis summary /\
    List.map hl_purchaseDate (hs_lots summary) =
      List.map lot_purchaseDate (survivingLots (lotsOf ledgerOfExample "OGDC")) /\
    Forall2 (fun reported lot =>
               hl_quantity reported == lot_remainingQuantity lot /\
               hl_price reported == lot_price lot)
      (hs_lots summary) (survivingLots (lotsOf ledgerOfExample "OGDC")) /\
    Forall (fun reported =>
              0 < hl_quantity reported /\
              hl_remainingQuantity reported = hl_quantity reported /\
              hl_value reported = hl_quantity reported * hl_price reported)
      (hs_lots summary).
Proof.
  destruct (getHoldings ledgerOfExample !! "OGDC"%string) as [summary|] eqn:E;
    [|vm_compute in E; discriminate].
  exists summary. split; [reflexivity|].
  exact (getHoldings_summary_consistent ledgerOfExample "OGDC" summary E).
Defined.

(** X5. [getHoldings] leaves a symbol out exactly when none of its lots has a
    positive remaining quantity (in particular when it was never bought, or
    when its array is empty after the last share was sold). *)
Theorem getHoldings_omits_empty (st : Ledger) (symbol : string) :
  getHoldings st !! symbol = None <-> survivingLots (lotsOf st symbol) = [].
Proof.
  rewrite getHoldings_summarize. unfold summarizeLots. rewrite summarizeLots_valid.
  pose proof (survivingLots_positive (lotsOf st symbol)) as Hpos.
  set (valid := survivingLots (lotsOf st symbol)) in *.
  destruct (JSNumber.ltb 0 _) eqn:E.
  - apply ltb_true in E. split; [discriminate|]. intros Hnil. exfalso.
    rewrite Hnil in E. cbn in E. lra.
  - apply ltb_false in E. split; [|reflexivity]. intros _.
    rewrite sum_orZero_remaining in E.
    destruct valid as [|lot rest]; [reflexivity|]. exfalso.
    assert (0 < totalAvailable (lot :: rest)); [|lra].
    apply positiveLots_total_pos; [exact Hpos | discriminate].
Qed.

End Holdings.

(** ** A BUY as getHoldings sees it *)

Section BuyReport.

Local Open Scope Q_scope.

Lemma survivingLots_app (l1 l2 : list Lot) :
  survivingLots (l1 ++ l2) = survivingLots l1 ++ survivingLots l2.
Proof. apply List.filter_app. Qed.

Lemma holdingCost_app (l1 l2 : list Lot) :
  holdingCost (l1 ++ l2) == holdingCost l1 + holdingCost l2.
Proof. unfold holdingCost. rewrite List.map_app. apply sumQ_app. Qed.

(** The totals [getHoldings] reports are those of the lots that still hold
    shares. *)
Lemma reported_totals (st : Ledger) (symbol : string) :
  reportedQuantity st symbol == totalAvailable (survivingLots (lotsOf st symbol)) /\
  reportedCostBasis st symbol == holdingCost (survivingLots (lotsOf st symbol)).
Proof.
  unfold reportedQuantity, reportedCostBasis.
  rewrite getHoldings_summarize. unfold summarizeLots. rewrite summarizeLots_valid.
  pose proof (survivingLots_positive (lotsOf st symbol)) as Hpos.
  set (valid := survivingLots (lotsOf st symbol)) in *.
  destruct (JSNumber.ltb 0 _) eqn:E.
  - cbn [hs_totalQuantity hs_totalCostBasis].
    split; [apply sum_orZero_remaining | apply sum_orZero_value].
  - apply ltb_false in E. rewrite sum_orZero_remaining in E.
    destruct valid as [|lot rest]; [split; reflexivity|]. exfalso.
    assert (0 < totalAvailable (lot :: rest)); [|lra].
    apply positiveLots_total_pos; [exact Hpos | discriminate].
Qed.

(** X6. On any ledger, a BUY of a positive quantity at a positive price
    raises the quantity [getHoldings] reports for its symbol by the quantity
    bought and the reported cost basis by the quantity times the net price
    (the quoted price plus the fee), and leaves the report of every other
    symbol as it was. *)
Theorem buy_adds_to_reported_holdings (o : Order) (st : Ledger) :
  validBuy o ->
  let st' := stateAfter (place o) st in
  let symbol := toUpperCase (ord_symbol o) in
  reportedQuantity st' symbol == reportedQuantity st symbol + ord_quantity o /\
  reportedCostBasis st' symbol ==
    reportedCostBasis st symbol +
    ord_quantity o * (ord_price o * (1 + _normalizeFeePercent (ord_feePercent o) / 100)) /\
  (forall other, other <> symbol -> getHoldings st' !! other = getHoldings st !! other).
Proof.
  intros Hv st' symbol.
  pose proof (valid_buy_step o st Hv) as H. cbn zeta in H.
  destruct H as (_ & Hlots & Hq & _).
  set (t := transactionRecord (ord_now o) "BUY" (ord_symbol o) (ord_quantity o) (ord_price o)
              (ord_date o) (ord_feePercent o) (length (transactions st))) in *.
  assert (0 < lot_remainingQuantity (lotOf t)) as Hpos.
  { rewrite Hq. destruct Hv as (_ & _ & Hq0 & _). exact Hq0. }
  assert (lot_price (lotOf t) ==
          ord_price o * (1 + _normalizeFeePercent (ord_feePercent o) / 100)) as Hp.
  { unfold t. cbn [lot_price lotOf tx_adjustedPrice transactionRecord].
    rewrite orZero_eq. apply buy_adjustedPrice. }
  assert (survivingLots (lotsOf st' symbol) =
          survivingLots (lotsOf st symbol) ++ [lotOf t]) as Hs.
  { unfold st'. rewrite Hlots. unfold onSymbol. fold symbol. rewrite String.eqb_refl.
    rewrite survivingLots_app. f_equal. unfold survivingLots. cbn [List.filter].
    rewrite (proj2 (ltb_true _ _) Hpos). reflexivity. }
  destruct (reported_totals st' symbol) as [Hq' Hc'].
  destruct (reported_totals st symbol) as [Hq0 Hc0].
  rewrite Hs in Hq', Hc'.
  split; [|split].
  - rewrite Hq', Hq0, totalAvailable_app, totalAvailable_cons.
    unfold totalAvailable at 2. cbn [fold_left]. rewrite Hq. lra.
  - rewrite Hc', Hc0, holdingCost_app, holdingCost_cons.
    unfold holdingCost at 2. cbn [List.map]. rewrite sumQ_nil, Hq, Hp. lra.
  - intros other Hne. rewrite !getHoldings_summarize. unfold st'. rewrite Hlots.
    unfold onSymbol. fold symbol.
    destruct (String.eqb_spec symbol other) as [->|_]; [contradiction | reflexivity].
Qed.

Lemma buy_adds_to_reported_holdings_witness :
  let o := mkOrder 0 "BUY" "OGDC" 50 110 (mkDate 2025 3 3) None in
  let st := ledgerOfExample in
  let st' := stateAfter (place o) st in
  validBuy o /\
  reportedQuantity st' "OGDC" == reportedQuantity st "OGDC" + 50 /\
  reportedCostBasis st' "OGDC" ==
    reportedCostBasis st "OGDC" + 50 * (110 * (1 + _normalizeFeePercent None / 100)) /\
  (forall other, other <> "OGDC"%string ->
                 getHoldings st' !! other = getHoldings st !! other).
Proof.
  intros o st st'.
  assert (validBuy o) as Hv by (repeat split; first [reflexivity | discriminate]).
  split; [exact Hv|].
  exact (buy_adds_to_reported_holdings o st Hv).
Defined.

End BuyReport.

(** ** What a sale records *)

Section SaleRecords.

Local Open Scope Q_scope.

(** The net price of a SELL: the quoted price less the fee. *)
Lemma sell_adjustedPrice (price : Q) (feePercent : option Q) :
  _getAdjustedPrice "SELL" price (Some (_normalizeFeePercent feePercent)) ==
  price * (1 - _normalizeFeePercent feePercent / 100).
Proof.
  unfold _getAdjustedPrice. rewrite normalizeFeePercent_idem.
  cbn [String.eqb Ascii.eqb Bool.eqb]. cbn match. rewrite orZero_eq. reflexivity.
Qed.

(** Every record the loop pushes is well formed. *)
Lemma simulateLots_records (settlementDate : Date) (all lots : list Lot) (v : SellLoop) :
  (forall lot, List.In lot lots -> List.In lot all) ->
  Forall (recordOf settlementDate all) (loop_lotsUsed v) ->
  Forall (recordOf settlementDate all) (loop_lotsUsed (simulateLots settlementDate lots v)).
Proof.
  revert v. induction lots as [|lot rest IH]; intros v Hin Hv; cbn [simulateLots];
    [exact Hv|].
  destruct (JSNumber.ltb 0 (loop_remainingToSell v)); [|exact Hv].
  destruct (JSNumber.ltb 0 _) eqn:E.
  - apply ltb_true in E. apply IH; [intros l Hl; apply Hin; right; exact Hl|].
    cbn [loop_lotsUsed]. apply List.Forall_app. split; [exact Hv|].
    constructor; [|constructor].
    unfold recordOf, lotUsage.
    cbn [use_quantity use_costBasis use_costPerShare use_holdingPeriod use_purchaseDate].
    split; [exact E|]. split; [reflexivity|]. split; [reflexivity|].
    exists lot. split; [apply Hin; left; reflexivity|]. split; [reflexivity|].
    split; [reflexivity|].
    destruct (min_cases (lot_remainingQuantity lot) (loop_remainingToSell v))
      as [[_ ->]|[Hm ->]]; [apply Qle_refl | apply Qlt_le_weak, Hm].
  - apply IH; [intros l Hl; apply Hin; right; exact Hl | exact Hv].
Qed.

(** X7. Whatever the ledger, the record a successful SELL returns carries the
    symbol in upper case, the quantity asked for, the settlement date of the
    trade date, the quoted price as gross price, the normalized fee, and as
    net price the quoted price less the fee; its proceeds are the quantity
    at that net price.  Every lot consumption record takes a positive
    quantity, no more than a lot of the symbol held before the sale, at that
    lot's net purchase price; its cost basis is its quantity times that
    price and its holding period runs from the lot's purchase date to the
    settlement date of the sale. *)
Theorem sale_record_contents (now : Date) (type symbol : string) (quantity price : Q)
    (date : Date) (feePercent : option Q) (st : Ledger) (r : SaleResult) :
  toUpperCase type = "SELL"%string ->
  outcomeOf (addTransaction now type symbol quantity price date feePercent) st =
    Returned (SaleRecord r) ->
  sale_symbol r = toUpperCase symbol /\
  sale_quantitySold r = quantity /\
  sale_saleDate r = calculateSettlementDate date /\
  sale_isSimulation r = false /\
  sale_grossSellPrice r == price /\
  sale_feePercent r == _normalizeFeePercent feePercent /\
  sale_sellPrice r == price * (1 - _normalizeFeePercent feePercent / 100) /\
  sale_saleProceeds r == quantity * (price * (1 - _normalizeFeePercent feePercent / 100)) /\
  Forall (recordOf (sale_saleDate r) (lotsOf st (toUpperCase symbol))) (sale_lotsUsed r).
Proof.
  intros Ht Hout.
  rewrite (sell_outcome _ _ _ _ _ _ _ _ Ht) in Hout. cbn zeta in Hout.
  pose proof (simulateLots_records (calculateSettlementDate date)
                (lotsOf st (toUpperCase symbol)) (lotsOf st (toUpperCase symbol))
                (startOfLoop quantity) (fun _ H => H) (List.Forall_nil _)) as Hrec.
  rewrite simulateLots_consumeLots in Hrec.
  revert Hout Hrec.
  destruct (lotsOf st (toUpperCase symbol)) as [|lot lots]; [discriminate|].
  destruct (JSNumber.ltb _ quantity); [discriminate|].
  destruct (consumeLots _ _ _) as [lots' v]. cbn [snd].
  intros [= <-] Hrec.
  unfold saleOf.
  cbn [sale_symbol sale_quantitySold sale_saleDate sale_isSimulation sale_grossSellPrice
       sale_feePercent sale_sellPrice sale_saleProceeds sale_lotsUsed
       tx_symbol tx_quantity tx_settlementDate tx_price tx_feePercent tx_adjustedPrice
       transactionRecord].
  repeat (split; [reflexivity|]).
  split; [apply orZero_eq|]. split; [apply orZero_eq|].
  split; [rewrite orZero_eq; apply sell_adjustedPrice|].
  split; [rewrite orZero_eq, sell_adjustedPrice; reflexivity|].
  exact Hrec.
Qed.

Lemma sale_record_contents_witness :
  exists r,
    toUpperCase "sell" = "SELL"%string /\
    outcomeOf (addTransaction 0 "sell" "ogdc" 150 150 (mkDate 2025 2 4) (Some 0.5))
      (twoPurchases (mkDate 2024 1 1)) = Returned (SaleRecord r) /\
    sale_symbol r = toUpperCase "ogdc" /\
    sale_quantitySold r = 150 /\
    sale_saleDate r = calculateSettlementDate (mkDate 2025 2 4) /\
    sale_isSimulation r = false /\
    sale_grossSellPrice r == 150 /\
    sale_feePercent r == _normalizeFeePercent (Some 0.5) /\
    sale_sellPrice r == 150 * (1 - _normalizeFeePercent (Some 0.5) / 100) /\
    sale_saleProceeds r == 150 * (150 * (1 - _normalizeFeePercent (Some 0.5) / 100)) /\
    Forall (recordOf (sale_saleDate r)
              (lotsOf (twoPurchases (mkDate 2024 1 1)) (toUpperCase "ogdc")))
      (sale_lotsUsed r).
Proof.
  destruct (outcomeOf (addTransaction 0 "sell" "ogdc" 150 150 (mkDate 2025 2 4) (Some 0.5))
              (twoPurchases (mkDate 2024 1 1))) as [[t|r]|e] eqn:E;
    [vm_compute in E; discriminate | | vm_compute in E; discriminate].
  exists r. split; [reflexivity|]. split; [reflexivity|].
  exact (sale_record_contents 0 "sell" "ogdc" 150 150 (mkDate 2025 2 4) (Some 0.5)
           (twoPurchases (mkDate 2024 1 1)) r eq_refl E).
Defined.

End SaleRecords.

(** ** Holding periods *)

Section HoldingPeriods.

Local Open Scope Z_scope.

Lemma getMonth_range (d : Date) : 0 <= getMonth d <= 11.
Proof.
  unfold getMonth, civilFromDays. cbv zeta. cbn [snd].
  set (z := dayNumber d + 719468).
  set (era := z / 146097).
  set (doe := z - era * 146097).
  assert (0 <= doe < 146097) as Hdoe.
  { unfold doe, era. pose proof (Z.div_mod z 146097 ltac:(lia)).
    pose proof (Z.mod_pos_bound z 146097 ltac:(lia)). lia. }
  clearbody doe. clear z era.
  set (yoe := (doe - doe / 1460 + doe / 36524 - doe / 146096) / 365).
  set (doy := doe - (365 * yoe + yoe / 4 - yoe / 100)).
  assert (0 <= doy <= 365) as Hdoy.
  { unfold doy, yoe. Z.div_mod_to_equations; lia. }
  clearbody doy.
  destruct ((5 * doy + 2) / 153 <? 10) eqn:E.
  - apply Z.ltb_lt in E. Z.div_mod_to_equations; lia.
  - apply Z.ltb_ge in E. Z.div_mod_to_equations; lia.
Qed.

(** X8. The holding period between two instants: [days] is the number of
    whole 24-hour days elapsed; the period is long-term exactly when at
    least 365 such days have elapsed (a count of days, not of calendar
    years); [months] is the difference of the calendar months, twelve per
    calendar year, whatever the days of the month; and [years] is the number
    of whole twelves in [months]. *)
Theorem getHoldingPeriod_days_months_years (purchaseDate sellDate : Date) :
  let hp := getHoldingPeriod purchaseDate sellDate in
  hp_days hp * msPerDay <= sellDate - purchaseDate < (hp_days hp + 1) * msPerDay /\
  (hp_isLongTerm hp = true <-> 365 * msPerDay <= sellDate - purchaseDate) /\
  hp_months hp =
    12 * (getFullYear sellDate - getFullYear purchaseDate)
    + (getMonth sellDate - getMonth purchaseDate) /\
  hp_years hp = hp_months hp / 12.
Proof.
  pose proof (getMonth_range purchaseDate) as Hp.
  pose proof (getMonth_range sellDate) as Hs.
  unfold getHoldingPeriod. cbv zeta.
  set (y1 := getFullYear purchaseDate) in *. set (y2 := getFullYear sellDate) in *.
  set (m1 := getMonth purchaseDate) in *. set (m2 := getMonth sellDate) in *.
  clearbody y1 y2 m1 m2.
  assert (forall diff, (diff / (1000 * 60 * 60 * 24)) * msPerDay <= diff
                       < (diff / (1000 * 60 * 60 * 24) + 1) * msPerDay) as Hdays.
  { intros diff. unfold msPerDay. Z.div_mod_to_equations. lia. }
  destruct (m2 - m1 <? 0) eqn:E;
    cbn [hp_days hp_months hp_years hp_isLongTerm];
    [apply Z.ltb_lt in E | apply Z.ltb_ge in E].
  all: split; [apply Hdays|].
  all: split;
    [rewrite Z.leb_le; specialize (Hdays (sellDate - purchaseDate)); unfold msPerDay in *;
     split; intros H; [nia | apply Z.div_le_lower_bound; lia] |].
  all: split; [lia|].
  - apply Z.div_unique with (r := m2 - m1 + 12); lia.
  - apply Z.div_unique with (r := m2 - m1); lia.
Qed.

End HoldingPeriods.

(** ** The lots of a ledger built by addTransaction *)

Section LedgerInvariant.

Local Open Scope Q_scope.

(** What a call of [addTransaction], whatever its arguments and whether it
    returns or throws, does to the lots of a symbol: nothing, or it appends
    the lot of a BUY that passed the guard of [_processBuy], or it runs the
    consumption loop of a SELL and drops the emptied lots. *)
Lemma place_lots_shape (o : Order) (st : Ledger) (symbol : string) :
  let lots' := lotsOf (stateAfter (place o) st) symbol in
  lots' = lotsOf st symbol \/
  (exists t,
     t = transactionRecord (ord_now o) "BUY" (ord_symbol o) (ord_quantity o) (ord_price o)
           (ord_date o) (ord_feePercent o) (length (transactions st)) /\
     rejectedBuy t = false /\
     lots' = lotsOf st symbol ++ [lotOf t]) \/
  (exists settlementDate quantity,
     lots' = survivingLots
               (fst (consumeLots settlementDate (lotsOf st symbol) (startOfLoop quantity)))).
Proof.
  cbn zeta. unfold place.
  destruct (String.eqb_spec (toUpperCase (ord_type o)) "BUY") as [Hb|Hb].
  - unfold stateAfter. rewrite (addTransaction_buy_run _ _ _ _ _ _ _ _ Hb). cbn zeta.
    cbn [snd]. rewrite lotsOf_pushTransaction.
    destruct (rejectedBuy _) eqn:E; [left; reflexivity|].
    rewrite lotsOf_setLots.
    destruct (String.eqb_spec
                (tx_symbol (transactionRecord (ord_now o) "BUY" (ord_symbol o)
                              (ord_quantity o) (ord_price o) (ord_date o)
                              (ord_feePercent o) (length (transactions st)))) symbol)
      as [<-|_]; [|left; reflexivity].
    right. left. eexists. split; [reflexivity|]. split; [exact E | reflexivity].
  - destruct (String.eqb_spec (toUpperCase (ord_type o)) "SELL") as [Hs|Hs].
    + unfold stateAfter. rewrite (addTransaction_sell _ _ _ _ _ _ _ _ Hs), processSell_run.
      cbn [tx_symbol tx_quantity tx_settlementDate transactionRecord].
      destruct (holdings st !! toUpperCase (ord_symbol o)) as [[|lot lots]|] eqn:El;
        try (left; reflexivity).
      destruct (JSNumber.ltb _ _); [left; reflexivity|].
      cbn zeta.
      destruct (consumeLots _ (lot :: lots) _) as [lots' v] eqn:Ec. cbn [fst snd].
      unfold lotsOf. cbn [holdings].
      destruct (String.eqb_spec (toUpperCase (ord_symbol o)) symbol) as [<-|Hne].
      * rewrite lookup_insert_eq, El. cbn [default from_option id].
        right. right. exists (calculateSettlementDate (ord_date o)), (ord_quantity o).
        rewrite Ec. reflexivity.
      * rewrite lookup_insert_ne by exact Hne. left. reflexivity.
    + left. unfold stateAfter, addTransaction.
      apply String.eqb_neq in Hb, Hs. rewrite Hb, Hs. reflexivity.
Qed.

(** The loop takes positive quantities only, so what holds of a lot and
    survives such a take holds of every lot the loop leaves. *)
Lemma consumeLots_Forall (P : Lot -> Prop) (settlementDate : Date) (lots : list Lot)
    (v : SellLoop) :
  (forall lot q, P lot -> 0 < q -> q <= lot_remainingQuantity lot -> P (takeFromLot lot q)) ->
  Forall P lots -> Forall P (fst (consumeLots settlementDate lots v)).
Proof.
  intros Htake. revert v. induction lots as [|lot rest IH]; intros v Hl; cbn [consumeLots];
    [constructor|].
  destruct (JSNumber.ltb 0 (loop_remainingToSell v)); [|exact Hl].
  destruct (JSNumber.ltb 0 _) eqn:E.
  - apply ltb_true in E.
    match goal with |- context [consumeLots settlementDate rest ?w] =>
      specialize (IH w (Forall_inv_tail Hl)); destruct (consumeLots settlementDate rest w) end.
    cbn [fst] in *. constructor; [|exact IH].
    apply Htake; [exact (Forall_inv Hl) | exact E |].
    destruct (min_cases (lot_remainingQuantity lot) (loop_remainingToSell v))
      as [[_ ->]|[Hm ->]]; [apply Qle_refl | apply Qlt_le_weak, Hm].
  - specialize (IH v (Forall_inv_tail Hl)). destruct (consumeLots settlementDate rest v).
    cbn [fst] in *. constructor; [exact (Forall_inv Hl) | exact IH].
Qed.

Lemma survivingLots_Forall (P : Lot -> Prop) (lots : list Lot) :
  Forall P lots -> Forall (fun lot => P lot /\ 0 < lot_remainingQuantity lot) (survivingLots lots).
Proof.
  induction 1 as [|lot lots Hlot _ IH]; [constructor|].
  unfold survivingLots in *. cbn [List.filter].
  destruct (JSNumber.ltb 0 (lot_remainingQuantity lot)) eqn:E; [|exact IH].
  apply ltb_true in E. constructor; [split; assumption | exact IH].
Qed.

(** The lot of a BUY that passed the guard is well formed. *)
Lemma lotOf_wellFormed (now : Date) (symbol : string) (quantity price : Q) (date : Date)
    (feePercent : option Q) (n : nat) :
  let t := transactionRecord now "BUY" symbol quantity price date feePercent n in
  rejectedBuy t = false -> wellFormedLot (lotOf t).
Proof.
  intros t Hr. unfold rejectedBuy in Hr.
  apply orb_false_iff in Hr. destruct Hr as [Hr Hp].
  apply orb_false_iff in Hr. destruct Hr as [_ Hq].
  apply leb_false in Hq, Hp. unfold t in Hq, Hp.
  cbn [tx_quantity tx_adjustedPrice transactionRecord] in Hq, Hp.
  pose proof (normalizeFeePercent_nonneg feePercent) as Hf.
  assert (~ price == 0) as Hne.
  { intros H0. rewrite orZero_eq, buy_adjustedPrice, H0 in Hp. lra. }
  unfold wellFormedLot, lotOf, t.
  cbn [lot_remainingQuantity lot_quantity lot_price lot_feePercent lot_grossPrice lot_cost
       lot_costPerShare lot_purchasePrice lot_value lot_tax lot_purchaseDate
       lot_originalTransaction tx_quantity tx_adjustedPrice tx_price tx_feePercent
       tx_settlementDate tx_tradeDate transactionRecord].
  rewrite (orElse_eq _ _ Hne).
  split; [exact Hq|]. split; [apply Qle_refl|]. split; [exact Hp|].
  split; [rewrite orZero_eq; exact Hf|].
  split; [rewrite !orZero_eq; apply buy_adjustedPrice|].
  repeat split; reflexivity.
Qed.

Lemma takeFromLot_wellFormed (lot : Lot) (q : Q) :
  wellFormedLot lot -> 0 < q -> q <= lot_remainingQuantity lot ->
  (0 < lot_remainingQuantity (takeFromLot lot q) -> wellFormedLot (takeFromLot lot q)).
Proof.
  unfold wellFormedLot.
  intros (H1 & H2 & H3 & H4 & H5 & H6 & H7 & H8 & H9 & H10 & H11) Hq Hle Hpos.
  cbn [takeFromLot lot_remainingQuantity lot_quantity lot_price lot_feePercent lot_grossPrice
       lot_cost lot_costPerShare lot_purchasePrice lot_value lot_tax lot_purchaseDate
       lot_originalTransaction] in *.
  split; [exact Hpos|]. split; [lra|]. repeat (split; [assumption|]). assumption.
Qed.

(** No call of [addTransaction] breaks the well-formedness of the lots. *)
Lemma place_wellFormed (o : Order) (st : Ledger) :
  wellFormedLedger st -> wellFormedLedger (stateAfter (place o) st).
Proof.
  intros Hwf symbol. specialize (Hwf symbol).
  destruct (place_lots_shape o st symbol) as [->|[(t & -> & Hr & ->)|(sd & q & ->)]].
  - exact Hwf.
  - apply List.Forall_app. split; [exact Hwf|]. constructor; [|constructor].
    apply lotOf_wellFormed, Hr.
  - pose proof (consumeLots_Forall
                  (fun lot => 0 < lot_remainingQuantity lot -> wellFormedLot lot)
                  sd (lotsOf st symbol) (startOfLoop q)) as H.
    cbn beta in H.
    assert (Forall (fun lot => 0 < lot_remainingQuantity lot -> wellFormedLot lot)
              (fst (consumeLots sd (lotsOf st symbol) (startOfLoop q)))) as H'.
    { apply H.
      - intros lot q' Hl Hq' Hle Hpos. apply takeFromLot_wellFormed; try assumption.
        apply Hl. cbn [takeFromLot lot_remainingQuantity] in Hpos. lra.
      - eapply List.Forall_impl; [|exact Hwf]. intros lot Hl _. exact Hl. }
    apply survivingLots_Forall in H'.
    eapply List.Forall_impl; [|exact H']. cbn beta. intros lot [Hl Hpos]. exact (Hl Hpos).
Qed.

Lemma ledgerAfter_wellFormed (orders : list Order) (st : Ledger) :
  wellFormedLedger st -> wellFormedLedger (ledgerAfter orders st).
Proof.
  revert st. induction orders as [|o orders IH]; intros st Hwf; [exact Hwf|].
  destruct (runOrders_cons o orders st) as [-> _].
  apply IH, place_wellFormed, Hwf.
Qed.

Lemma constructor_wellFormed : wellFormedLedger constructor.
Proof. intros symbol. unfold lotsOf, constructor. cbn. rewrite lookup_empty. constructor. Qed.

(** X9. After any sequence of [addTransaction] calls on a fresh ledger,
    valid or not, returning or throwing (the caller catching the error),
    every lot the ledger keeps is well formed: it holds a positive quantity,
    no more than was bought; its net price is positive and equals the gross
    price plus the fee; its aliases and its value agree with that price; and
    its purchase date is the settlement date of its trade. *)
Theorem ledger_lots_wellFormed (orders : list Order) (symbol : string) :
  Forall wellFormedLot (lotsOf (ledgerAfter orders constructor) symbol).
Proof. apply ledgerAfter_wellFormed, constructor_wellFormed. Qed.

End LedgerInvariant.

(** ** Snapshots: what a reload keeps *)

Section Reload.

Local Open Scope Q_scope.

Lemma roundTrip_lots (now : Date) (st : Ledger) (symbol : string) :
  lotsOf (roundTrip now st) symbol =
    List.map importLot (List.map exportLot (lotsOf st symbol)).
Proof.
  unfold roundTrip, stateAfter, importData, exportData, lotsOf.
  cbn [snap_holdings snap_transactions snap_realizedGains].
  unfold bind, modify. cbn [fst snd holdings].
  rewrite !lookup_fmap. destruct (holdings st !! symbol); reflexivity.
Qed.

Lemma roundTrip_transactions (now : Date) (st : Ledger) :
  transactions (roundTrip now st) =
    List.map importTransaction (List.map exportTransaction (transactions st)).
Proof. reflexivity. Qed.

(** A well-formed lot comes back from a snapshot as it went in. *)
Lemma importLot_exportLot (lot : Lot) :
  wellFormedLot lot -> sameLot (importLot (exportLot lot)) lot.
Proof.
  unfold wellFormedLot.
  intros (_ & _ & _ & Hf & Hp & Hc & Hcs & Hpp & _).
  unfold importLot, exportLot, sameLot.
  cbn [sl_quantity sl_price sl_cost sl_costPerShare sl_purchasePrice sl_grossPrice
       sl_feePercent sl_purchaseDate sl_remainingQuantity sl_value sl_tax
       sl_originalTransaction
       lot_quantity lot_price lot_cost lot_costPerShare lot_purchasePrice lot_grossPrice
       lot_feePercent lot_purchaseDate lot_remainingQuantity lot_value lot_tax
       lot_originalTransaction].
  destruct (JSNumber.leb 0 _ && JSNumber.eqb _ _) eqn:E.
  - apply andb_true_iff in E. destruct E as [_ E]. apply Qeq_bool_iff in E.
    assert (JSNumber.orZero (lot_grossPrice lot) * (1 + JSNumber.orZero (lot_feePercent lot) / 100)
            == lot_price lot) as Ha.
    { rewrite !orZero_eq, Hp. reflexivity. }
    rewrite Hc, Hcs, Hpp. repeat split; try reflexivity; exact Ha.
  - repeat split; reflexivity.
Qed.

Lemma sameLot_totals (l' l : list Lot) :
  Forall2 sameLot l' l ->
  totalAvailable (survivingLots l') == totalAvailable (survivingLots l) /\
  holdingCost (survivingLots l') == holdingCost (survivingLots l).
Proof.
  induction 1 as [|a b l' l Hab _ IH]; [split; reflexivity|].
  destruct Hab as (_ & Hp & _ & _ & _ & _ & _ & _ & Hr & _).
  destruct IH as [IHq IHc].
  unfold survivingLots in *. cbn [List.filter]. rewrite Hr.
  destruct (JSNumber.ltb 0 (lot_remainingQuantity b)); [|split; assumption].
  rewrite !totalAvailable_cons, !holdingCost_cons, IHq, IHc, Hr, Hp. split; reflexivity.
Qed.

(** Every record of the trail carries a fee that is not negative. *)
Lemma place_trail_fee (o : Order) (st : Ledger) :
  Forall (fun t => 0 <= tx_feePercent t) (transactions st) ->
  Forall (fun t => 0 <= tx_feePercent t) (transactions (stateAfter (place o) st)).
Proof.
  intros H. unfold place.
  destruct (String.eqb_spec (toUpperCase (ord_type o)) "BUY") as [Hb|Hb].
  - unfold stateAfter. rewrite (addTransaction_buy_run _ _ _ _ _ _ _ _ Hb). cbn zeta.
    cbn [snd]. unfold pushTransaction. cbn [transactions].
    apply List.Forall_app. split.
    + destruct (rejectedBuy _); exact H.
    + constructor; [|constructor]. apply normalizeFeePercent_nonneg.
  - destruct (String.eqb_spec (toUpperCase (ord_type o)) "SELL") as [Hs|Hs].
    + pose proof (sell_appends_no_transaction (ord_now o) (ord_type o) (ord_symbol o)
                    (ord_quantity o) (ord_price o) (ord_date o) (ord_feePercent o) st Hs)
        as Ht.
      unfold getTransactions in Ht. rewrite Ht. exact H.
    + unfold stateAfter, addTransaction.
      apply String.eqb_neq in Hb, Hs. rewrite Hb, Hs.
      unfold bind, gets, modify, ret, pushTransaction. cbn [fst snd transactions].
      apply List.Forall_app. split; [exact H|].
      constructor; [|constructor]. apply normalizeFeePercent_nonneg.
Qed.

Lemma ledgerAfter_trail_fee (orders : list Order) (st : Ledger) :
  Forall (fun t => 0 <= tx_feePercent t) (transactions st) ->
  Forall (fun t => 0 <= tx_feePercent t) (transactions (ledgerAfter orders st)).
Proof.
  revert st. induction orders as [|o orders IH]; intros st H; [exact H|].
  destruct (runOrders_cons o orders st) as [-> _].
  apply IH, place_trail_fee, H.
Qed.

(** X10. For a ledger built by any sequence of [addTransaction] calls on a
    fresh ledger, [importData(exportData())] restores the holdings and the
    transactions trail: every symbol has the same lots in the same order,
    field by field (prices as numbers), [getHoldings] reports the same total
    quantity and cost basis, and [getTransactions] returns the same
    records. *)
Theorem roundTrip_preserves_holdings_and_trail (orders : list Order) (now : Date)
    (symbol : string) :
  let st := ledgerAfter orders constructor in
  Forall2 sameLot (lotsOf (roundTrip now st) symbol) (lotsOf st symbol) /\
  reportedQuantity (roundTrip now st) symbol == reportedQuantity st symbol /\
  reportedCostBasis (roundTrip now st) symbol == reportedCostBasis st symbol /\
  getTransactions (roundTrip now st) = getTransactions st.
Proof.
  intros st.
  assert (Forall2 sameLot (lotsOf (roundTrip now st) symbol) (lotsOf st symbol)) as Hlots.
  { rewrite roundTrip_lots.
    pose proof (ledgerAfter_wellFormed orders constructor constructor_wellFormed symbol)
      as Hwf.
    fold st in Hwf. induction Hwf as [|lot lots Hlot _ IH]; cbn [List.map]; constructor.
    - apply importLot_exportLot, Hlot.
    - exact IH. }
  split; [exact Hlots|].
  destruct (sameLot_totals _ _ Hlots) as [Hq Hc].
  destruct (reported_totals (roundTrip now st) symbol) as [Hq' Hc'].
  destruct (reported_totals st symbol) as [Hq0 Hc0].
  split; [rewrite Hq', Hq0; exact Hq|]. split; [rewrite Hc', Hc0; exact Hc|].
  unfold getTransactions. rewrite roundTrip_transactions.
  pose proof (ledgerAfter_trail_fee orders constructor (List.Forall_nil _)) as Hfee.
  fold st in Hfee. induction Hfee as [|t ts Ht _ IH]; cbn [List.map]; [reflexivity|].
  rewrite IH, (importTransaction_exportTransaction t Ht). reflexivity.
Qed.

(** What a successful SELL returns: the sale of its transaction over the
    loop variables, whose total is the sum of the cost bases of its
    well-formed records. *)
Lemma sell_record_shape (now : Date) (type symbol : string) (quantity price : Q)
    (date : Date) (feePercent : option Q) (st : Ledger) (r : SaleResult) :
  toUpperCase type = "SELL"%string ->
  outcomeOf (addTransaction now type symbol quantity price date feePercent) st =
    Returned (SaleRecord r) ->
  exists v,
    r = saleOf (transactionRecord now "SELL" symbol quantity price date feePercent
                  (length (transactions st))) v /\
    loop_totalCostBasis v = sumQ (List.map use_costBasis (loop_lotsUsed v)) /\
    Forall (recordOf (calculateSettlementDate date) (lotsOf st (toUpperCase symbol)))
      (loop_lotsUsed v).
Proof.
  intros Ht Hout.
  rewrite (sell_outcome _ _ _ _ _ _ _ _ Ht) in Hout. cbn zeta in Hout.
  pose proof (simulateLots_records (calculateSettlementDate date)
                (lotsOf st (toUpperCase symbol)) (lotsOf st (toUpperCase symbol))
                (startOfLoop quantity) (fun _ H => H) (List.Forall_nil _)) as Hrec.
  rewrite simulateLots_consumeLots in Hrec.
  pose proof (consumeLots_totalCostBasis (calculateSettlementDate date)
                (lotsOf st (toUpperCase symbol)) (startOfLoop quantity) eq_refl) as Hsum.
  revert Hout Hrec Hsum.
  destruct (lotsOf st (toUpperCase symbol)) as [|lot lots]; [discriminate|].
  destruct (JSNumber.ltb _ quantity); [discriminate|].
  destruct (consumeLots _ _ _) as [lots' v]. cbn [snd].
  intros [= <-] Hrec Hsum. exists v. split; [reflexivity|]. split; assumption.
Qed.

Lemma sum_orZero_costBasis (l : list LotUsed) :
  fold_left (fun sum lot => sum + JSNumber.orZero (use_costBasis lot)) l 0
  == sumQ (List.map use_costBasis l).
Proof.
  rewrite (fold_left_map_Qplus (fun lot => JSNumber.orZero _)).
  fold (sumQ (List.map (fun lot => JSNumber.orZero (use_costBasis lot)) l)).
  induction l as [|u l IH]; [reflexivity|].
  cbn [List.map]. rewrite !sumQ_cons, IH, orZero_eq. reflexivity.
Qed.

(** X11. Whatever the snapshot holds, a sale restored by [importData] is
    consistent with itself: the figures are recomputed, so that the capital
    gain is the proceeds less the total cost basis, the total cost basis is
    the sum of the cost bases of the lot consumption records, each of these
    is its quantity times its cost per share, the proceeds are the quantity
    sold at the net sell price, and the fee is not negative. *)
Theorem importSale_consistent (g : SnapSale) :
  let r := importSale g in
  sale_capitalGain r = sale_saleProceeds r - sale_totalCostBasis r /\
  sale_totalCostBasis r == sumQ (List.map use_costBasis (sale_lotsUsed r)) /\
  Forall (fun u => use_costBasis u == use_quantity u * use_costPerShare u) (sale_lotsUsed r) /\
  sale_saleProceeds r == sale_quantitySold r * sale_sellPrice r /\
  0 <= sale_feePercent r /\
  List.map use_quantity (sale_lotsUsed r) = List.map use_quantity (default [] (sg_lotsUsed g)).
Proof.
  cbn zeta. unfold importSale.
  cbn [sale_capitalGain sale_saleProceeds sale_totalCostBasis sale_lotsUsed
       sale_quantitySold sale_sellPrice sale_feePercent].
  split; [reflexivity|]. split; [apply sum_orZero_costBasis|].
  split; [|split; [|split]].
  - induction (default [] (sg_lotsUsed g)) as [|u l IH]; cbn [List.map]; constructor;
      [|exact IH].
    unfold importLotUsed. cbn [use_costBasis use_quantity use_costPerShare].
    rewrite orZero_eq. reflexivity.
  - rewrite !orZero_eq. reflexivity.
  - destruct (sg_feePercent g) as [f|].
    + destruct (JSNumber.ltb f 0) eqn:E; [vm_compute; discriminate|].
      apply ltb_false in E. exact E.
    + vm_compute. discriminate.
  - induction (default [] (sg_lotsUsed g)) as [|u l IH]; cbn [List.map]; [reflexivity|].
    rewrite IH. reflexivity.
Qed.

Lemma sumQ_scale (c : Q) (l : list Q) :
  sumQ (List.map (fun x => x * c) l) == sumQ l * c.
Proof.
  induction l as [|x l IH]; [cbn; lra|].
  cbn [List.map]. rewrite !sumQ_cons, IH. lra.
Qed.

(** X12. The realized sale of any successful SELL does not survive
    [importData(exportData())] when a fee was charged: the reload multiplies
    the cost per share of every lot consumption record by one plus the fee
    once more, so that the total cost basis comes back multiplied by
    [1 + fee/100] and the capital gain reduced by the difference, while the
    net sell price and the proceeds come back as they were. *)
Theorem reload_inflates_cost_basis (now : Date) (type symbol : string) (quantity price : Q)
    (date : Date) (feePercent : option Q) (st : Ledger) (r : SaleResult) :
  toUpperCase type = "SELL"%string ->
  outcomeOf (addTransaction now type symbol quantity price date feePercent) st =
    Returned (SaleRecord r) ->
  let fee := _normalizeFeePercent feePercent in
  let r' := importSale (exportSale r) in
  sale_totalCostBasis r' == sale_totalCostBasis r * (1 + fee / 100) /\
  sale_capitalGain r' == sale_capitalGain r - sale_totalCostBasis r * (fee / 100) /\
  sale_sellPrice r' == sale_sellPrice r /\
  sale_saleProceeds r' == sale_saleProceeds r.
Proof.
  intros Ht Hout fee r'.
  destruct (sell_record_shape _ _ _ _ _ _ _ _ _ Ht Hout) as (v & Hr & Hsum & Hrec).
  pose proof (normalizeFeePercent_nonneg feePercent) as Hfee. fold fee in Hfee.
  assert (sale_feePercent r == fee) as Hf.
  { rewrite Hr. unfold saleOf. cbn [sale_feePercent tx_feePercent transactionRecord].
    apply orZero_eq. }
  assert (sale_totalCostBasis r' == sale_totalCostBasis r * (1 + fee / 100)) as Hcost.
  { unfold r', importSale, exportSale.
    cbn [sale_totalCostBasis sg_lotsUsed sg_feePercent default from_option id].
    rewrite sum_orZero_costBasis.
    assert (JSNumber.ltb (sale_feePercent r) 0 = false) as ->
        by (apply ltb_false; rewrite Hf; exact Hfee).
    assert (sale_totalCostBasis r = sumQ (List.map use_costBasis (sale_lotsUsed r))) as ->
        by (rewrite Hr; exact Hsum).
    rewrite <- sumQ_scale.
    assert (Forall (recordOf (calculateSettlementDate date) (lotsOf st (toUpperCase symbol)))
              (sale_lotsUsed r)) as Hrec' by (rewrite Hr; exact Hrec).
    revert Hrec'. generalize (sale_lotsUsed r) as used. intros used Hused.
    induction Hused as [|u l Hu _ IH]; [reflexivity|].
    cbn [List.map]. rewrite !sumQ_cons, IH.
    destruct Hu as (_ & -> & _).
    unfold importLotUsed. cbn [use_costBasis]. rewrite !orZero_eq, Hf. lra. }
  assert (sale_sellPrice r' == sale_sellPrice r) as Hprice.
  { unfold r', importSale, exportSale.
    cbn [sale_sellPrice sg_sellPrice sg_grossSellPrice sg_feePercent].
    destruct (JSNumber.eqb _ _) eqn:E; [|reflexivity].
    apply Qeq_bool_iff in E.
    assert (JSNumber.ltb (sale_feePercent r) 0 = false) as ->
        by (apply ltb_false; rewrite Hf; exact Hfee).
    rewrite orZero_eq in E |- *. rewrite Hf.
    assert (sale_sellPrice r == sale_grossSellPrice r * (1 - fee / 100)) as Hs.
    { rewrite Hr. unfold saleOf.
      cbn [sale_sellPrice sale_grossSellPrice tx_adjustedPrice tx_price transactionRecord].
      rewrite !orZero_eq. apply sell_adjustedPrice. }
    rewrite Hs. reflexivity. }
  assert (sale_saleProceeds r' == sale_saleProceeds r) as Hproc.
  { assert (sale_saleProceeds r' =
            JSNumber.orZero (sale_quantitySold r) * JSNumber.orZero (sale_sellPrice r')) as ->
        by reflexivity.
    assert (sale_saleProceeds r = sale_quantitySold r * sale_sellPrice r) as ->
        by (rewrite Hr; reflexivity).
    rewrite !orZero_eq, Hprice. reflexivity. }
  split; [exact Hcost|]. split; [|split; [exact Hprice | exact Hproc]].
  assert (sale_capitalGain r' = sale_saleProceeds r' - sale_totalCostBasis r') as ->
      by reflexivity.
  assert (sale_capitalGain r = sale_saleProceeds r - sale_totalCostBasis r) as ->
      by (rewrite Hr; reflexivity).
  rewrite Hproc, Hcost. lra.
Qed.

Lemma reload_inflates_cost_basis_witness :
  exists r,
    toUpperCase "SELL" = "SELL"%string /\
    outcomeOf (sellOfExample (mkDate 2024 1 1)) (twoPurchases (mkDate 2024 1 1)) =
      Returned (SaleRecord r) /\
    let fee := _normalizeFeePercent (Some 0.5) in
    let r' := importSale (exportSale r) in
    sale_totalCostBasis r' == sale_totalCostBasis r * (1 + fee / 100) /\
    sale_capitalGain r' == sale_capitalGain r - sale_totalCostBasis r * (fee / 100) /\
    sale_sellPrice r' == sale_sellPrice r /\
    sale_saleProceeds r' == sale_saleProceeds r.
Proof.
  destruct (outcomeOf (sellOfExample (mkDate 2024 1 1)) (twoPurchases (mkDate 2024 1 1)))
    as [[t|r]|e] eqn:E;
    [vm_compute in E; discriminate | | vm_compute in E; discriminate].
  exists r. split; [reflexivity|]. split; [reflexivity|].
  exact (reload_inflates_cost_basis 0 "SELL" "OGDC" 150 150
           (addDays (mkDate 2024 1 1) 400) (Some 0.5) (twoPurchases (mkDate 2024 1 1)) r
           eq_refl E).
Defined.

(** X13. The migration [importData] applies is stable for lots and for
    transactions: a lot, or a transaction, that was restored from any
    snapshot and is saved again is restored to the same record.  A lot of the
    old format, saved without gross price and fee, is restored with the
    saved price as gross price, the default fee of 0.5% and that price plus
    the fee as net price. *)
Theorem import_migration_stable (l : SnapLot) (t : SnapTransaction) :
  importLot (exportLot (importLot l)) = importLot l /\
  importTransaction (exportTransaction (importTransaction t)) = importTransaction t /\
  (sl_grossPrice l = None -> sl_feePercent l = None ->
   lot_grossPrice (importLot l) == sl_price l /\
   lot_feePercent (importLot l) = 0.5 /\
   lot_price (importLot l) == sl_price l * (1 + 0.5 / 100)).
Proof.
  split; [|split].
  - unfold importLot, exportLot.
    cbn [sl_quantity sl_price sl_cost sl_costPerShare sl_purchasePrice sl_grossPrice
         sl_feePercent sl_purchaseDate sl_remainingQuantity sl_value sl_tax
         sl_originalTransaction
         lot_quantity lot_price lot_cost lot_costPerShare lot_purchasePrice lot_grossPrice
         lot_feePercent lot_purchaseDate lot_remainingQuantity lot_value lot_tax
         lot_originalTransaction].
    set (g := match sl_grossPrice l with Some g => g | None => JSNumber.orZero (sl_price l) end).
    set (f := match sl_feePercent l with Some f => f | None => 0.5 end).
    destruct (JSNumber.leb 0 (JSNumber.orZero f / 100)) eqn:E1; cbn [andb]; [|reflexivity].
    destruct (JSNumber.eqb (sl_price l) g) eqn:E2; [clear E2 | rewrite E2; reflexivity].
    destruct (JSNumber.eqb _ g); reflexivity.
  - apply importTransaction_exportTransaction.
    unfold importTransaction. cbn [tx_feePercent].
    destruct (st_feePercent t) as [f|].
    + destruct (JSNumber.ltb f 0) eqn:E; [vm_compute; discriminate|].
      apply ltb_false in E. exact E.
    + vm_compute. discriminate.
  - intros Hg Hf. unfold importLot. rewrite Hg, Hf.
    cbn [lot_grossPrice lot_feePercent lot_price].
    assert (JSNumber.leb 0 (JSNumber.orZero 0.5 / 100) = true) as -> by reflexivity.
    assert (JSNumber.eqb (sl_price l) (JSNumber.orZero (sl_price l)) = true) as ->.
    { apply Qeq_bool_iff. rewrite orZero_eq. reflexivity. }
    cbn [andb]. split; [apply orZero_eq|]. split; [reflexivity|].
    rewrite !orZero_eq. reflexivity.
Qed.

End Reload.

(** ** The form handlers and the ledger *)

Section Handlers.

Local Open Scope Q_scope.

Lemma upperChar_idem (c : ascii) : upperChar (upperChar c) = upperChar c.
Proof. destruct c as [[] [] [] [] [] [] [] []]; reflexivity. Qed.

Lemma toUpperCase_idem (s : string) : toUpperCase (toUpperCase s) = toUpperCase s.
Proof.
  induction s as [|c s IH]; [reflexivity|].
  cbn [toUpperCase]. rewrite upperChar_idem, IH. reflexivity.
Qed.

Lemma ltb_Qeq (a b q : Q) : a == b -> JSNumber.ltb a q = JSNumber.ltb b q.
Proof.
  intros Hab.
  destruct (JSNumber.ltb a q) eqn:Ea; destruct (JSNumber.ltb b q) eqn:Eb; try reflexivity.
  - apply ltb_true in Ea. apply ltb_false in Eb. lra.
  - apply ltb_false in Ea. apply ltb_true in Eb. lra.
Qed.

(** The outcome of [calculateSale], without the ledger. *)
Lemma calculateSale_outcome (symbol : string) (quantity sellPrice : Q) (sellDate : Date)
    (feePercent : option Q) (st : Ledger) :
  outcomeOf (calculateSale symbol quantity sellPrice sellDate feePercent) st =
    match lotsOf st (toUpperCase symbol) with
    | [] => Thrown (NoHoldingsFound (toUpperCase symbol))
    | lots =>
        if JSNumber.ltb (totalAvailable lots) quantity
        then Thrown (InsufficientShares quantity (totalAvailable lots))
        else Returned
               (simulationOf symbol quantity sellPrice sellDate feePercent
                  (snd (consumeLots (calculateSettlementDate sellDate) lots
                          (startOfLoop quantity))))
    end.
Proof.
  unfold outcomeOf, lotsOf. rewrite calculateSale_run.
  destruct (holdings st !! toUpperCase symbol) as [[|lot lots]|];
    cbn [default from_option id fst]; try reflexivity.
  destruct (JSNumber.ltb _ quantity); reflexivity.
Qed.

(** What the handlers read in [getHoldings] when every lot of the symbol
    holds shares. *)
Lemma reported_holding (st : Ledger) (symbol : string) :
  positiveLots (lotsOf st symbol) ->
  match getHoldings st !! symbol with
  | Some holding =>
      lotsOf st symbol <> [] /\
      hs_totalQuantity holding == totalAvailable (lotsOf st symbol)
  | None => lotsOf st symbol = []
  end.
Proof.
  intros Hpos. pose proof (getHoldings_total st symbol Hpos) as H.
  destruct (getHoldings st !! symbol) as [holding|]; [|exact H].
  destruct H as [Heq Hlt]. split; [|exact Heq].
  intros Hnil. rewrite Hnil in Heq. rewrite Heq in Hlt. cbn in Hlt. lra.
Qed.

(** The verdict of the checks on inputs that are all filled in with
    positive numbers. *)
Lemma whatIfChecks_filled (symbol : string) (quantity price : Q) (date : Date)
    (st : Ledger) :
  toUpperCase symbol <> ""%string -> 0 < quantity -> 0 < price ->
  whatIfChecks symbol (Some quantity) (Some price) (Some date) st =
    match getHoldings st !! toUpperCase symbol with
    | None => NoSharesToSell (toUpperCase symbol)
    | Some holding =>
        if JSNumber.ltb (hs_totalQuantity holding) quantity
        then NotEnoughShares (toUpperCase symbol) (hs_totalQuantity holding) quantity
        else Proceed
    end.
Proof.
  intros Hs Hq Hp. unfold whatIfChecks, parsedLeb0.
  rewrite (proj2 (String.eqb_neq _ _) Hs), (proj2 (leb_false _ _) Hq),
    (proj2 (leb_false _ _) Hp).
  reflexivity.
Qed.

Lemma addTransactionChecks_sell_filled (symbol : string) (quantity price : Q) (date : Date)
    (st : Ledger) :
  toUpperCase symbol <> ""%string -> 0 < quantity -> 0 < price ->
  addTransactionChecks "SELL" symbol (Some quantity) (Some price) (Some date) st =
    match getHoldings st !! toUpperCase symbol with
    | None => NoSharesToSell (toUpperCase symbol)
    | Some holding =>
        if JSNumber.ltb (hs_totalQuantity holding) quantity
        then NotEnoughShares (toUpperCase symbol) (hs_totalQuantity holding) quantity
        else Proceed
    end.
Proof.
  intros Hs Hq Hp. unfold addTransactionChecks, parsedLeb0.
  rewrite (proj2 (String.eqb_neq _ _) Hs), (proj2 (leb_false _ _) Hq),
    (proj2 (leb_false _ _) Hp).
  reflexivity.
Qed.

(** X14. On a ledger whose lots of the symbol all hold shares, and with the
    form filled in (a symbol, a quantity and a price that parsed to positive
    numbers, a date), the checks of [runWhatIfAnalysis] agree with
    [calculateSale]: when they pass, the call returns a simulated sale; the
    no-shares modal is shown exactly when [calculateSale] would throw for
    want of holdings, and the not-enough-shares modal, with the available
    quantity, exactly when it would throw for want of shares. *)
Theorem whatIf_checks_agree_with_calculateSale (symbol : string) (quantity price : Q)
    (date : Date) (st : Ledger) :
  positiveLots (lotsOf st (toUpperCase symbol)) ->
  toUpperCase symbol <> ""%string -> 0 < quantity -> 0 < price ->
  let call := calculateSale (toUpperCase symbol) quantity price date None in
  match whatIfChecks symbol (Some quantity) (Some price) (Some date) st with
  | Proceed =>
      exists s, outcomeOf call st = Returned s /\
                runWhatIfAnalysis symbol (Some quantity) (Some price) (Some date) st
                = (Proceed, Called (Returned s))
  | NoSharesToSell sym =>
      sym = toUpperCase symbol /\
      outcomeOf call st = Thrown (NoHoldingsFound sym) /\
      runWhatIfAnalysis symbol (Some quantity) (Some price) (Some date) st
      = (NoSharesToSell sym, NotCalled)
  | NotEnoughShares sym available requested =>
      sym = toUpperCase symbol /\ requested = quantity /\
      available == totalAvailable (lotsOf st sym) /\
      outcomeOf call st =
        Thrown (InsufficientShares quantity (totalAvailable (lotsOf st sym))) /\
      runWhatIfAnalysis symbol (Some quantity) (Some price) (Some date) st
      = (NotEnoughShares sym available requested, NotCalled)
  | MissingInformation => False
  end.
Proof.
  intros Hpos Hs Hq Hp call. subst call. unfold runWhatIfAnalysis.
  rewrite (whatIfChecks_filled _ _ _ _ _ Hs Hq Hp).
  rewrite calculateSale_outcome, toUpperCase_idem.
  pose proof (reported_holding st (toUpperCase symbol) Hpos) as Hrep.
  destruct (getHoldings st !! toUpperCase symbol) as [holding|].
  - destruct Hrep as [Hne Heq]. rewrite (ltb_Qeq _ _ quantity Heq).
    destruct (JSNumber.ltb (totalAvailable (lotsOf st (toUpperCase symbol))) quantity) eqn:E;
      destruct (lotsOf st (toUpperCase symbol)) as [|lot lots] eqn:El;
      try contradiction; cbv beta iota zeta; rewrite E.
    + repeat split; try reflexivity. exact Heq.
    + eexists. split; reflexivity.
  - rewrite Hrep. repeat split.
Qed.

Lemma whatIf_checks_agree_with_calculateSale_witness :
  let st := twoPurchases (mkDate 2024 1 1) in
  positiveLots (lotsOf st (toUpperCase "ogdc")) /\
  toUpperCase "ogdc" <> ""%string /\ 0 < 500 /\ 0 < 150 /\
  match whatIfChecks "ogdc" (Some 500) (Some 150) (Some (mkDate 2025 2 4)) st with
  | NotEnoughShares sym available requested =>
      available == totalAvailable (lotsOf st sym) /\
      outcomeOf (calculateSale (toUpperCase "ogdc") 500 150 (mkDate 2025 2 4) None) st =
        Thrown (InsufficientShares 500 (totalAvailable (lotsOf st sym)))
  | _ => False
  end.
Proof.
  intros st.
  assert (positiveLots (lotsOf st (toUpperCase "ogdc"))) as Hpos
      by (vm_compute; repeat constructor).
  assert (toUpperCase "ogdc" <> ""%string) as Hs by discriminate.
  assert (0 < 500) as Hq by reflexivity.
  assert (0 < 150) as Hp by reflexivity.
  split; [exact Hpos|]. split; [exact Hs|]. split; [exact Hq|]. split; [exact Hp|].
  pose proof (whatIf_checks_agree_with_calculateSale "ogdc" 500 150 (mkDate 2025 2 4) st
                Hpos Hs Hq Hp) as H.
  cbn zeta in H.
  destruct (whatIfChecks "ogdc" (Some 500) (Some 150) (Some (mkDate 2025 2 4)) st)
    as [|sym|sym available requested|] eqn:E;
    try (vm_compute in E; discriminate).
  destruct H as (_ & _ & Ha & Hout & _). split; assumption.
Defined.

(** X15. The same for a SELL entered in the transaction form: on a ledger
    whose lots of the symbol all hold shares, with the form filled in (a
    quantity and a price that parsed to positive numbers), the checks of
    [handleAddTransaction] pass exactly when [addTransaction] returns a
    realized sale, and in that case the handler's (deferred) call does
    return it; each modal stands for the error [_processSell] would throw,
    and then the ledger is not called. *)
Theorem sell_form_checks_agree_with_addTransaction (now : Date) (symbol : string)
    (quantity price : Q) (date : Date) (st : Ledger) :
  positiveLots (lotsOf st (toUpperCase symbol)) ->
  toUpperCase symbol <> ""%string -> 0 < quantity -> 0 < price ->
  let call := addTransaction now "SELL" (toUpperCase symbol) quantity price date None in
  match addTransactionChecks "SELL" symbol (Some quantity) (Some price) (Some date) st with
  | Proceed =>
      exists r, outcomeOf call st = Returned (SaleRecord r) /\
                handleAddTransaction now "SELL" symbol (Some quantity) (Some price)
                  (Some date) st
                = (Proceed, Called (Returned (SaleRecord r), stateAfter call st))
  | NoSharesToSell sym =>
      sym = toUpperCase symbol /\
      outcomeOf call st = Thrown (CannotSellNoHoldings sym) /\
      handleAddTransaction now "SELL" symbol (Some quantity) (Some price) (Some date) st
      = (NoSharesToSell sym, NotCalled)
  | NotEnoughShares sym available requested =>
      sym = toUpperCase symbol /\ requested = quantity /\
      available == totalAvailable (lotsOf st sym) /\
      outcomeOf call st =
        Thrown (CannotSellOnlyAvailable quantity sym (totalAvailable (lotsOf st sym))) /\
      handleAddTransaction now "SELL" symbol (Some quantity) (Some price) (Some date) st
      = (NotEnoughShares sym available requested, NotCalled)
  | MissingInformation => False
  end.
Proof.
  intros Hpos Hs Hq Hp call. subst call. unfold handleAddTransaction.
  rewrite (addTransactionChecks_sell_filled _ _ _ _ _ Hs Hq Hp).
  rewrite (sell_outcome now "SELL" (toUpperCase symbol) quantity price date None st eq_refl).
  cbn zeta. rewrite toUpperCase_idem.
  pose proof (reported_holding st (toUpperCase symbol) Hpos) as Hrep.
  destruct (getHoldings st !! toUpperCase symbol) as [holding|].
  - destruct Hrep as [Hne Heq]. rewrite (ltb_Qeq _ _ quantity Heq).
    destruct (JSNumber.ltb (totalAvailable (lotsOf st (toUpperCase symbol))) quantity) eqn:E;
      destruct (lotsOf st (toUpperCase symbol)) as [|lot lots] eqn:El;
      try contradiction; cbv beta iota zeta; rewrite E.
    + repeat split; try reflexivity. exact Heq.
    + eexists. split; reflexivity.
  - rewrite Hrep. repeat split.
Qed.

Lemma sell_form_checks_agree_with_addTransaction_witness :
  let st := twoPurchases (mkDate 2024 1 1) in
  let call := addTransaction 0 "SELL" (toUpperCase "ogdc") 150 150 (mkDate 2025 2 4) None in
  positiveLots (lotsOf st (toUpperCase "ogdc")) /\
  toUpperCase "ogdc" <> ""%string /\ 0 < 150 /\ 0 < 150 /\
  match addTransactionChecks "SELL" "ogdc" (Some 150) (Some 150) (Some (mkDate 2025 2 4)) st
  with
  | Proceed =>
      exists r, outcomeOf call st = Returned (SaleRecord r) /\
                handleAddTransaction 0 "SELL" "ogdc" (Some 150) (Some 150)
                  (Some (mkDate 2025 2 4)) st
                = (Proceed, Called (Returned (SaleRecord r), stateAfter call st))
  | _ => False
  end.
Proof.
  intros st call.
  assert (positiveLots (lotsOf st (toUpperCase "ogdc"))) as Hpos
      by (vm_compute; repeat constructor).
  assert (toUpperCase "ogdc" <> ""%string) as Hs by discriminate.
  assert (0 < 150) as Hq by reflexivity.
  split; [exact Hpos|]. split; [exact Hs|]. split; [exact Hq|]. split; [exact Hq|].
  pose proof (sell_form_checks_agree_with_addTransaction 0 "ogdc" 150 150 (mkDate 2025 2 4)
                st Hpos Hs Hq Hq) as H.
  cbn zeta in H. fold call in H.
  destruct (addTransactionChecks "SELL" "ogdc" (Some 150) (Some 150)
              (Some (mkDate 2025 2 4)) st)
    as [|sym|sym available requested|] eqn:E;
    try (vm_compute in E; discriminate).
  exact H.
Defined.

(** X16. A BUY entered in the transaction form.  The checks of
    [handleAddTransaction] stop the entry, without calling the ledger,
    exactly when the symbol or the date is missing or the quantity or the
    price parsed to a number that is not positive; every other entry goes on
    to the ledger call.  A quantity or a price that did not parse ([NaN],
    as for a field left blank) is not stopped: the ledger is called with it.
    When both parsed to numbers and the checks pass, the handler's call of
    [addTransaction] returns the transaction record, passes the guard of
    [_processBuy], and appends the lot of that record, holding the quantity
    entered, to the symbol's lots. *)
Theorem buy_form_creates_the_lot (now : Date) (symbol : string) (quantity price : option Q)
    (date : option Date) (st : Ledger) :
  let stopped :=
    toUpperCase symbol = ""%string \/
    (exists q, quantity = Some q /\ q <= 0) \/
    (exists p, price = Some p /\ p <= 0) \/
    date = None in
  let '(gate, call) := handleAddTransaction now "BUY" symbol quantity price date st in
  (gate = MissingInformation <-> stopped) /\
  (gate = Proceed <-> ~ stopped) /\
  (gate = MissingInformation -> call = NotCalled) /\
  (gate = Proceed -> quantity = None \/ price = None -> call = CalledWithNaN) /\
  (forall q p,
     gate = Proceed -> quantity = Some q -> price = Some p ->
     exists d t st',
       date = Some d /\
       call = Called (Returned (TransactionRecord t), st') /\
       rejectedBuy t = false /\
       lotsOf st' (toUpperCase symbol) = lotsOf st (toUpperCase symbol) ++ [lotOf t] /\
       lot_remainingQuantity (lotOf t) == q /\
       getTransactions st' = getTransactions st ++ [t]).
Proof.
  cbn zeta. unfold handleAddTransaction, addTransactionChecks.
  cbn [String.eqb Ascii.eqb Bool.eqb].
  destruct (String.eqb_spec (toUpperCase symbol) "") as [Hs|Hs]; cbn [orb].
  { split; [split; [intros _; left; exact Hs | reflexivity]|].
    split; [split; [discriminate | intros H; exfalso; apply H; left; exact Hs]|].
    split; [reflexivity|]. split; [discriminate|]. intros q p; discriminate. }
  destruct (parsedLeb0 quantity) eqn:Eq; cbn [orb].
  { assert (exists q, quantity = Some q /\ q <= 0) as Hq.
    { destruct quantity as [q|]; [|discriminate]. exists q. split; [reflexivity|].
      apply leb_true, Eq. }
    split; [split; [intros _; right; left; exact Hq | reflexivity]|].
    split; [split; [discriminate | intros H; exfalso; apply H; right; left; exact Hq]|].
    split; [reflexivity|]. split; [discriminate|]. intros q p; discriminate. }
  destruct (parsedLeb0 price) eqn:Ep; cbn [orb].
  { assert (exists p, price = Some p /\ p <= 0) as Hp.
    { destruct price as [p|]; [|discriminate]. exists p. split; [reflexivity|].
      apply leb_true, Ep. }
    split; [split; [intros _; right; right; left; exact Hp | reflexivity]|].
    split; [split; [discriminate
                   | intros H; exfalso; apply H; right; right; left; exact Hp]|].
    split; [reflexivity|]. split; [discriminate|]. intros q p; discriminate. }
  destruct date as [d|]; cbn [negb].
  2:{ split; [split; [intros _; right; right; right; reflexivity | reflexivity]|].
      split; [split; [discriminate
                     | intros H; exfalso; apply H; right; right; right; reflexivity]|].
      split; [reflexivity|]. split; [discriminate|]. intros q p; discriminate. }
  assert (~ (toUpperCase symbol = ""%string \/
             (exists q, quantity = Some q /\ q <= 0) \/
             (exists p, price = Some p /\ p <= 0) \/
             Some d = None)) as Hgo.
  { intros [H|[(q & -> & H)|[(p & -> & H)|H]]].
    - contradiction.
    - cbn [parsedLeb0] in Eq. apply leb_false in Eq. lra.
    - cbn [parsedLeb0] in Ep. apply leb_false in Ep. lra.
    - discriminate. }
  destruct quantity as [q|]; destruct price as [p|]; cbn zeta.
  2-4: split; [split; [discriminate | intros H; contradiction]|];
       split; [split; [intros _; exact Hgo | reflexivity]|];
       split; [discriminate|]; split; [reflexivity|]; intros q' p' _; discriminate.
  cbn [parsedLeb0] in Eq, Ep. apply leb_false in Eq, Ep.
  split; [split; [discriminate | intros H; contradiction]|].
  split; [split; [intros _; exact Hgo | reflexivity]|].
  split; [discriminate|]. split; [intros _ [H|H]; discriminate|].
  intros q' p' _ [= <-] [= <-].
  unfold outcomeOf, stateAfter.
  rewrite (addTransaction_buy_run now "BUY" (toUpperCase symbol) q p d None st eq_refl).
  cbn zeta. cbn [fst snd].
  assert (toUpperCase (toUpperCase symbol) <> ""%string) as Hs'
      by (rewrite toUpperCase_idem; exact Hs).
  rewrite (rejectedBuy_valid now (toUpperCase symbol) q p d None
             (length (transactions st)) Hs' Eq Ep).
  eexists. eexists. eexists. split; [reflexivity|]. split; [reflexivity|].
  split; [apply rejectedBuy_valid; assumption|].
  split; [|split; [|reflexivity]].
  - rewrite lotsOf_pushTransaction, lotsOf_setLots.
    cbn [tx_symbol transactionRecord]. rewrite toUpperCase_idem, String.eqb_refl.
    reflexivity.
  - cbn [lot_remainingQuantity lotOf tx_quantity transactionRecord]. apply orZero_eq.
Qed.

End Handlers.

(** ** Calls at the edge of the input contract *)

Section Edges.

Local Open Scope Q_scope.

(** Asked for all the lots hold or more, the loop of [_processSell] takes
    every lot whole. *)
Lemma consumeLots_all (settlementDate : Date) (lots : list Lot) (v : SellLoop) :
  positiveLots lots ->
  totalAvailable lots <= loop_remainingToSell v ->
  fst (consumeLots settlementDate lots v) = List.map emptied lots /\
  loop_lotsUsed (snd (consumeLots settlementDate lots v)) =
    loop_lotsUsed v ++ List.map (wholeUsage settlementDate) lots /\
  loop_totalCostBasis (snd (consumeLots settlementDate lots v)) ==
    loop_totalCostBasis v + holdingCost lots.
Proof.
  revert v. induction lots as [|lot lots IH]; intros v Hpos Hle.
  - cbn. rewrite app_nil_r. repeat split. unfold holdingCost. cbn. lra.
  - pose proof (Forall_inv Hpos) as Hlot. cbn beta in Hlot.
    pose proof (Forall_inv_tail Hpos) as Hlots.
    pose proof (positiveLots_total_nonneg lots Hlots) as Hnn.
    rewrite totalAvailable_cons in Hle. cbn [consumeLots].
    assert (0 < loop_remainingToSell v) as Hr by lra.
    rewrite (proj2 (ltb_true _ _) Hr).
    destruct (min_cases (lot_remainingQuantity lot) (loop_remainingToSell v))
      as [[_ ->]|[Hm _]]; [|lra].
    rewrite (proj2 (ltb_true _ _) Hlot).
    match goal with |- context [consumeLots settlementDate lots ?w] =>
      destruct (IH w Hlots) as (Hf & Hu & Ht); [cbn; lra|];
      destruct (consumeLots settlementDate lots w) as [lots' v'] end.
    cbn [fst snd] in *. rewrite Hf, Hu, Ht.
    cbn [loop_lotsUsed loop_totalCostBasis List.map]. rewrite <- app_assoc.
    repeat split. rewrite holdingCost_cons. lra.
Qed.

(** X17. Selling all the shares of a symbol (lots with positive remaining
    quantities, the quantity sold being their total): the sale takes every
    lot whole, in order; its total cost basis is the cost basis [getHoldings]
    reported for the symbol; afterwards the symbol has no lot left,
    [getHoldings] leaves it out, and any further SELL of the symbol throws
    for want of holdings. *)
Theorem selling_everything_empties_the_symbol (now : Date) (type symbol : string)
    (quantity price : Q) (date : Date) (feePercent : option Q) (st : Ledger) :
  toUpperCase type = "SELL"%string ->
  positiveLots (lotsOf st (toUpperCase symbol)) ->
  lotsOf st (toUpperCase symbol) <> [] ->
  quantity == totalAvailable (lotsOf st (toUpperCase symbol)) ->
  let call := addTransaction now type symbol quantity price date feePercent in
  exists r,
    outcomeOf call st = Returned (SaleRecord r) /\
    sale_lotsUsed r =
      List.map (wholeUsage (calculateSettlementDate date)) (lotsOf st (toUpperCase symbol)) /\
    sale_totalCostBasis r == reportedCostBasis st (toUpperCase symbol) /\
    lotsOf (stateAfter call st) (toUpperCase symbol) = [] /\
    getHoldings (stateAfter call st) !! toUpperCase symbol = None /\
    forall now' quantity' price' date' feePercent',
      outcomeOf (addTransaction now' type symbol quantity' price' date' feePercent')
        (stateAfter call st)
      = Thrown (CannotSellNoHoldings (toUpperCase symbol)).
Proof.
  intros Ht Hpos Hne Hq call. subst call.
  pose proof (sell_outcome now type symbol quantity price date feePercent st Ht) as Hout.
  cbn zeta in Hout.
  destruct (consumeLots_all (calculateSettlementDate date) (lotsOf st (toUpperCase symbol))
              (startOfLoop quantity) Hpos) as (Hf & Hu & Hc).
  { cbn. rewrite Hq. apply Qle_refl. }
  cbn [startOfLoop loop_lotsUsed loop_totalCostBasis app] in Hu, Hc.
  assert (JSNumber.ltb (totalAvailable (lotsOf st (toUpperCase symbol))) quantity = false)
    as Hlt by (apply ltb_false; rewrite Hq; apply Qle_refl).
  assert (exists r,
            outcomeOf (addTransaction now type symbol quantity price date feePercent) st =
              Returned (SaleRecord r) /\
            sale_lotsUsed r =
              List.map (wholeUsage (calculateSettlementDate date))
                (lotsOf st (toUpperCase symbol)) /\
            sale_totalCostBasis r == holdingCost (lotsOf st (toUpperCase symbol)))
    as (r & Hr & Hused & Hcost).
  { rewrite Hout. revert Hne Hlt Hu Hc.
    destruct (lotsOf st (toUpperCase symbol)) as [|lot lots]; [contradiction|].
    intros _ -> Hu Hc. eexists. split; [reflexivity|].
    unfold saleOf. cbn [sale_lotsUsed sale_totalCostBasis].
    split; [exact Hu | rewrite Hc; lra]. }
  assert (lotsOf (stateAfter (addTransaction now type symbol quantity price date feePercent)
                    st) (toUpperCase symbol) = []) as Hempty.
  { rewrite (sell_state _ _ _ _ _ _ _ _ _ Ht Hr). unfold lotsOf at 1. cbn [holdings].
    rewrite lookup_insert_eq. cbn [default from_option id].
    rewrite Hf. apply survivingLots_emptied. }
  exists r. split; [exact Hr|]. split; [exact Hused|].
  split; [|split; [exact Hempty|split]].
  - destruct (reported_totals st (toUpperCase symbol)) as [_ Hrep].
    rewrite Hcost, Hrep, (survivingLots_of_positive _ Hpos). reflexivity.
  - rewrite getHoldings_summarize, Hempty. apply summarizeLots_nil.
  - intros now' quantity' price' date' feePercent'.
    rewrite (sell_outcome _ _ _ _ _ _ _ _ Ht). cbn zeta. rewrite Hempty. reflexivity.
Qed.

Lemma selling_everything_empties_the_symbol_witness :
  let st := twoPurchases (mkDate 2024 1 1) in
  let call := addTransaction 0 "SELL" "OGDC" 200 150 (mkDate 2025 2 4) None in
  toUpperCase "SELL" = "SELL"%string /\
  positiveLots (lotsOf st (toUpperCase "OGDC")) /\
  lotsOf st (toUpperCase "OGDC") <> [] /\
  200 == totalAvailable (lotsOf st (toUpperCase "OGDC")) /\
  exists r,
    outcomeOf call st = Returned (SaleRecord r) /\
    sale_lotsUsed r =
      List.map (wholeUsage (calculateSettlementDate (mkDate 2025 2 4)))
        (lotsOf st (toUpperCase "OGDC")) /\
    sale_totalCostBasis r == reportedCostBasis st (toUpperCase "OGDC") /\
    lotsOf (stateAfter call st) (toUpperCase "OGDC") = [] /\
    getHoldings (stateAfter call st) !! toUpperCase "OGDC" = None /\
    forall now' quantity' price' date' feePercent',
      outcomeOf (addTransaction now' "SELL" "OGDC" quantity' price' date' feePercent')
        (stateAfter call st)
      = Thrown (CannotSellNoHoldings (toUpperCase "OGDC")).
Proof.
  intros st call.
  assert (positiveLots (lotsOf st (toUpperCase "OGDC"))) as Hpos
      by (vm_compute; repeat constructor).
  assert (lotsOf st (toUpperCase "OGDC") <> []) as Hne by (vm_compute; discriminate).
  assert (200 == totalAvailable (lotsOf st (toUpperCase "OGDC"))) as Hq
      by (vm_compute; reflexivity).
  split; [reflexivity|]. split; [exact Hpos|]. split; [exact Hne|]. split; [exact Hq|].
  exact (selling_everything_empties_the_symbol 0 "SELL" "OGDC" 200 150 (mkDate 2025 2 4)
           None st eq_refl Hpos Hne Hq).
Defined.

(** X18. A SELL of a quantity that is zero or negative is not refused by
    the ledger: on a symbol whose lots hold shares it returns and records a
    realized sale that consumed no lot, with a total cost basis of zero and
    proceeds of the quantity times the net price, and it leaves the lots as
    they were. *)
Theorem nonpositive_sell_is_recorded (now : Date) (type symbol : string)
    (quantity price : Q) (date : Date) (feePercent : option Q) (st : Ledger) :
  toUpperCase type = "SELL"%string ->
  quantity <= 0 ->
  positiveLots (lotsOf st (toUpperCase symbol)) ->
  lotsOf st (toUpperCase symbol) <> [] ->
  let call := addTransaction now type symbol quantity price date feePercent in
  exists r,
    outcomeOf call st = Returned (SaleRecord r) /\
    sale_quantitySold r = quantity /\
    sale_lotsUsed r = [] /\
    sale_totalCostBasis r = 0 /\
    sale_capitalGain r == quantity * (price * (1 - _normalizeFeePercent feePercent / 100)) /\
    lotsOf (stateAfter call st) (toUpperCase symbol) = lotsOf st (toUpperCase symbol) /\
    getRealizedGains (stateAfter call st) = getRealizedGains st ++ [r].
Proof.
  intros Ht Hq Hpos Hne call. subst call.
  pose proof (sell_outcome now type symbol quantity price date feePercent st Ht) as Hout.
  cbn zeta in Hout.
  pose proof (positiveLots_total_pos _ Hpos Hne) as Htot.
  assert (JSNumber.ltb (totalAvailable (lotsOf st (toUpperCase symbol))) quantity = false)
    as Hlt by (apply ltb_false; lra).
  pose proof (consumeLots_stop (calculateSettlementDate date)
                (lotsOf st (toUpperCase symbol)) (startOfLoop quantity) Hq) as Hstop.
  assert (outcomeOf (addTransaction now type symbol quantity price date feePercent) st =
            Returned (SaleRecord
                        (saleOf (transactionRecord now "SELL" symbol quantity price date
                                   feePercent (length (transactions st)))
                           (startOfLoop quantity)))) as Hr.
  { rewrite Hout. revert Hne Hlt Hstop.
    destruct (lotsOf st (toUpperCase symbol)) as [|lot lots]; [contradiction|].
    intros _ -> ->. reflexivity. }
  eexists. split; [exact Hr|].
  split; [reflexivity|]. split; [reflexivity|]. split; [reflexivity|].
  split; [|split].
  - unfold saleOf.
    cbn [sale_capitalGain startOfLoop loop_totalCostBasis tx_quantity tx_adjustedPrice
         transactionRecord].
    rewrite orZero_eq, sell_adjustedPrice. lra.
  - rewrite (sell_state _ _ _ _ _ _ _ _ _ Ht Hr). unfold lotsOf at 1. cbn [holdings].
    rewrite lookup_insert_eq. cbn [default from_option id].
    rewrite Hstop. cbn [fst]. apply survivingLots_of_positive, Hpos.
  - rewrite (sell_state _ _ _ _ _ _ _ _ _ Ht Hr). reflexivity.
Qed.

Lemma nonpositive_sell_is_recorded_witness :
  let st := twoPurchases (mkDate 2024 1 1) in
  let call := addTransaction 0 "SELL" "OGDC" (-5) 150 (mkDate 2025 2 4) None in
  toUpperCase "SELL" = "SELL"%string /\
  -5 <= 0 /\
  positiveLots (lotsOf st (toUpperCase "OGDC")) /\
  lotsOf st (toUpperCase "OGDC") <> [] /\
  exists r,
    outcomeOf call st = Returned (SaleRecord r) /\
    sale_quantitySold r = -5 /\
    sale_lotsUsed r = [] /\
    sale_totalCostBasis r = 0 /\
    sale_capitalGain r == -5 * (150 * (1 - _normalizeFeePercent None / 100)) /\
    lotsOf (stateAfter call st) (toUpperCase "OGDC") = lotsOf st (toUpperCase "OGDC") /\
    getRealizedGains (stateAfter call st) = getRealizedGains st ++ [r].
Proof.
  intros st call.
  assert (positiveLots (lotsOf st (toUpperCase "OGDC"))) as Hpos
      by (vm_compute; repeat constructor).
  assert (lotsOf st (toUpperCase "OGDC") <> []) as Hne by (vm_compute; discriminate).
  assert (-5 <= 0) as Hq by (vm_compute; discriminate).
  split; [reflexivity|]. split; [exact Hq|]. split; [exact Hpos|]. split; [exact Hne|].
  exact (nonpositive_sell_is_recorded 0 "SELL" "OGDC" (-5) 150 (mkDate 2025 2 4) None st
           eq_refl Hq Hpos Hne).
Defined.

(** X19. A call whose type is neither BUY nor SELL (in any letter case) is
    not refused either: [addTransaction] returns its record, numbered and
    appended to the trail with the price left unadjusted, and it changes
    neither the holdings nor the realized gains. *)
Theorem unknown_type_is_only_recorded (now : Date) (type symbol : string)
    (quantity price : Q) (date : Date) (feePercent : option Q) (st : Ledger) :
  toUpperCase type <> "BUY"%string ->
  toUpperCase type <> "SELL"%string ->
  let call := addTransaction now type symbol quantity price date feePercent in
  exists t,
    outcomeOf call st = Returned (TransactionRecord t) /\
    tx_type t = toUpperCase type /\
    tx_id t = (Z.of_nat (length (getTransactions st)) + 1)%Z /\
    tx_adjustedPrice t == price /\
    getTransactions (stateAfter call st) = getTransactions st ++ [t] /\
    holdings (stateAfter call st) = holdings st /\
    getRealizedGains (stateAfter call st) = getRealizedGains st.
Proof.
  intros Hb Hs call. subst call. unfold outcomeOf, stateAfter, addTransaction.
  pose proof Hb as Hb'. pose proof Hs as Hs'.
  apply String.eqb_neq in Hb', Hs'. rewrite Hb', Hs'.
  unfold bind, gets, modify, ret, pushTransaction. cbn [fst snd].
  eexists. split; [reflexivity|].
  cbn [tx_type tx_id tx_adjustedPrice transactions holdings realizedGains].
  split; [reflexivity|]. split; [reflexivity|].
  split; [|repeat split].
  unfold _getAdjustedPrice. rewrite Hb', Hs'. apply orZero_eq.
Qed.

Lemma unknown_type_is_only_recorded_witness :
  let call := addTransaction 0 "dividend" "OGDC" 100 5 (mkDate 2025 2 4) None in
  toUpperCase "dividend" <> "BUY"%string /\
  toUpperCase "dividend" <> "SELL"%string /\
  exists t,
    outcomeOf call ledgerOfExample = Returned (TransactionRecord t) /\
    tx_type t = toUpperCase "dividend" /\
    tx_id t = (Z.of_nat (length (getTransactions ledgerOfExample)) + 1)%Z /\
    tx_adjustedPrice t == 5 /\
    getTransactions (stateAfter call ledgerOfExample) = getTransactions ledgerOfExample ++ [t] /\
    holdings (stateAfter call ledgerOfExample) = holdings ledgerOfExample /\
    getRealizedGains (stateAfter call ledgerOfExample) = getRealizedGains ledgerOfExample.
Proof.
  intros call.
  assert (toUpperCase "dividend" <> "BUY"%string) as Hb by discriminate.
  assert (toUpperCase "dividend" <> "SELL"%string) as Hs by discriminate.
  split; [exact Hb|]. split; [exact Hs|].
  exact (unknown_type_is_only_recorded 0 "dividend" "OGDC" 100 5 (mkDate 2025 2 4) None
           ledgerOfExample Hb Hs).
Defined.

End Edges.

(** ** The trail, call after call *)

Section Trail.

Lemma place_trail_length (o : Order) (st : Ledger) :
  length (transactions (stateAfter (place o) st)) =
    (length (transactions st) + (if isSell o then 0 else 1))%nat.
Proof.
  unfold place, isSell.
  destruct (String.eqb_spec (toUpperCase (ord_type o)) "SELL") as [Hs|Hs].
  - pose proof (sell_appends_no_transaction (ord_now o) (ord_type o) (ord_symbol o)
                  (ord_quantity o) (ord_price o) (ord_date o) (ord_feePercent o) st Hs) as H.
    unfold getTransactions in H. rewrite H. lia.
  - destruct (addTransaction_trail (ord_now o) (ord_type o) (ord_symbol o) (ord_quantity o)
                (ord_price o) (ord_date o) (ord_feePercent o) st) as [H|(t & _ & H)].
    + exfalso. revert H. cbn zeta.
      destruct (String.eqb_spec (toUpperCase (ord_type o)) "BUY") as [Hb|Hb].
      * destruct (buy_appends_transaction (ord_now o) (ord_type o) (ord_symbol o)
                    (ord_quantity o) (ord_price o) (ord_date o) (ord_feePercent o) st Hb)
          as (t & _ & _ & Ht).
        unfold getTransactions in Ht. rewrite Ht. intros H.
        apply (f_equal (@length _)) in H. rewrite List.length_app in H. cbn in H. lia.
      * unfold stateAfter, addTransaction.
        apply String.eqb_neq in Hb, Hs. rewrite Hb, Hs.
        unfold bind, gets, modify, ret, pushTransaction. cbn [fst snd transactions].
        intros H. apply (f_equal (@length _)) in H. rewrite List.length_app in H.
        cbn in H. lia.
    + cbn zeta in H. rewrite H, List.length_app. reflexivity.
Qed.

(** X20. After any sequence of [addTransaction] calls on a fresh ledger, the
    records [getTransactions] returns are numbered 1, 2, ... in the order in
    which they were entered, and there is one record for every call that was
    not a SELL, whether or not its BUY created a lot: a SELL, successful or
    not, leaves no record and uses up no number. *)
Theorem trail_is_numbered_in_entry_order (orders : list Order) :
  let st := ledgerAfter orders constructor in
  List.map tx_id (getTransactions st) =
    List.map Z.of_nat (seq 1 (length (getTransactions st))) /\
  length (getTransactions st) = length (List.filter (fun o => negb (isSell o)) orders).
Proof.
  cbn zeta. split.
  - apply (ledgerAfter_sequentialIds orders constructor). reflexivity.
  - unfold getTransactions.
    assert (forall st,
              length (transactions (ledgerAfter orders st)) =
                (length (transactions st)
                 + length (List.filter (fun o => negb (isSell o)) orders))%nat) as H.
    { induction orders as [|o orders IH]; intros st; [cbn; lia|].
      destruct (runOrders_cons o orders st) as [-> _].
      rewrite IH, place_trail_length. cbn [List.filter].
      destruct (isSell o); cbn [negb length]; lia. }
    rewrite H. reflexivity.
Qed.

End Trail.
